(** * Filesystem-usage MCP example: server dispatcher and client driver

    A shallow embedding of
    - [server/mcp-server-example.py]: [call_tool], [get_disk_usage],
      [get_detailed_disk_info], [list_tools];
    - [client/mcp-client-example.py]: [test_http_mcp_server].

    Python computations that may raise are embedded in the [result] monad;
    the operating system (psutil) and the HTTP transport (httpx) are
    explicit environments the functions read. *)

From Stdlib Require Import String Ascii List ZArith NArith Lia Bool.
From Stdlib Require Import Decimal DecimalString DecimalPos DecimalN.
Import ListNotations.
Open Scope string_scope.

(** ** Python exceptions and fallible computations *)

Module Py.

(** The exception classes that occur in the two scripts and in the
    libraries they call.  All of them derive from [Exception]. *)
Inductive exc_class : Type :=
| Exception
| ValueError
| TypeError
| KeyError
| IndexError
| AttributeError
| OSError
| PermissionError
| FileNotFoundError
| JSONDecodeError
| ConnectError.

Definition exc_class_eqb (a b : exc_class) : bool :=
  match a, b with
  | Exception, Exception | ValueError, ValueError | TypeError, TypeError
  | KeyError, KeyError | IndexError, IndexError
  | AttributeError, AttributeError | OSError, OSError
  | PermissionError, PermissionError
  | FileNotFoundError, FileNotFoundError
  | JSONDecodeError, JSONDecodeError | ConnectError, ConnectError => true
  | _, _ => false
  end.

(** [subclass c d]: class [c] is [d] or derives from it. *)
Definition subclass (c d : exc_class) : bool :=
  match d with
  | Exception => true
  | OSError =>
      match c with
      | OSError | PermissionError | FileNotFoundError => true
      | _ => false
      end
  | ValueError =>
      match c with
      | ValueError | JSONDecodeError => true
      | _ => false
      end
  | _ => exc_class_eqb c d
  end.

(** An exception object: its class and [str(e)]. *)
Record exc : Type := Exc { exc_cls : exc_class; exc_str : string }.

(** [isinstance e d], the test an [except d:] clause performs. *)
Definition isinstance (e : exc) (d : exc_class) : bool :=
  subclass (exc_cls e) d.

Arguments isinstance : simpl never.

(** The outcome of running a Python expression or block. *)
Inductive result (A : Type) : Type :=
| Return (a : A)
| Raise (e : exc).

Arguments Return {A} a.
Arguments Raise {A} e.

Definition bind {A B} (m : result A) (k : A -> result B) : result B :=
  match m with
  | Return a => k a
  | Raise e => Raise e
  end.

(** The value a call produced, if it produced one. *)
Definition returned {A} (m : result A) : option A :=
  match m with Return a => Some a | Raise _ => None end.

(** The exception a call raised, if it raised one. *)
Definition raised {A} (m : result A) : option exc :=
  match m with Return _ => None | Raise e => Some e end.

End Py.

Import Py.

Declare Scope py_scope.
Delimit Scope py_scope with py.
Notation "x <- m ;; k" := (bind m (fun x => k))
  (at level 61, m at next level, right associativity) : py_scope.
Open Scope py_scope.

(** ** Strings: newline, [str.join], [str.split], [str * int] *)

Definition nl_char : ascii := "010"%char.

(** The one-character string ["\n"]. *)
Definition nl : string := String nl_char EmptyString.

(** [sep.join(items)] *)
Definition join (sep : string) (items : list string) : string :=
  String.concat sep items.

(** [s * n] *)
Fixpoint str_mul (s : string) (n : nat) : string :=
  match n with
  | O => ""
  | S n' => s ++ str_mul s n'
  end.

(** [s.split("\n")]: the maximal newline-free pieces of [s], in order. *)
Fixpoint split_lines (s : string) : list string :=
  match s with
  | EmptyString => [""]
  | String c s' =>
      if Ascii.eqb c nl_char then "" :: split_lines s'
      else match split_lines s' with
           | [] => [String c ""]
           | l :: ls => String c l :: ls
           end
  end.

(** [needle in s] for strings. *)
Fixpoint substring_of (needle s : string) : bool :=
  if String.prefix needle s then true
  else match s with
       | EmptyString => false
       | String _ s' => substring_of needle s'
       end.

(** ** Characters

    A Python [str] is a sequence of code points; here it is the string of
    the bytes of its UTF-8 encoding.  A character is a leading byte with
    the continuation bytes ([10xxxxxx]) that follow it. *)

Definition is_continuation (c : ascii) : bool :=
  (128 <=? N_of_ascii c)%N && (N_of_ascii c <? 192)%N.

(** The characters of [s], in order. *)
Fixpoint code_points (s : string) : list string :=
  match s with
  | EmptyString => []
  | String c s' =>
      match s' with
      | String c' _ =>
          if is_continuation c' then
            match code_points s' with
            | ch :: more => String c ch :: more
            | [] => [String c ""]
            end
          else String c "" :: code_points s'
      | EmptyString => [String c ""]
      end
  end.

(** [len(s)] for a string. *)
Definition str_len (s : string) : nat := List.length (code_points s).

(** ** Numbers: [str(int)], true division by a power of two, [:.Nf] *)

(** [str(n)] for a non-negative integer. *)
Definition str_int (n : N) : string :=
  NilZero.string_of_uint (N.to_uint n).

(** A finite binary floating-point value [(-1)^fneg * fmant * 2^fexp]. *)
Record pyfloat : Type :=
  PyFloat { fneg : bool; fmant : N; fexp : Z }.

(** The integer nearest to [a / b], ties to the even one ([b > 0]). *)
Definition round_half_even_div (a b : N) : N :=
  let q := (a / b)%N in
  let r := (a mod b)%N in
  match (2 * r ?= b)%N with
  | Lt => q
  | Gt => (q + 1)%N
  | Eq => if N.even q then q else (q + 1)%N
  end.

(** [n / (2**k)] on Python integers: the quotient rounded to 53
    significant bits, ties to even.  Up to 53 bits the quotient is exact.
    The division overflows only from [2^1024] on; byte counts of a file
    system are products of two machine words and stay far below. *)
Definition int_truediv_pow2 (n k : N) : pyfloat :=
  let bits := N.size n in
  if (bits <=? 53)%N then
    PyFloat false n (- Z.of_N k)
  else
    let s := (bits - 53)%N in
    PyFloat false (round_half_even_div n (2 ^ s)) (Z.of_N s - Z.of_N k).

(** The integer nearest to [|x| * 10^d], ties to even. *)
Definition scaled_round (d : nat) (x : pyfloat) : N :=
  match fexp x with
  | Zneg p => round_half_even_div (fmant x * 10 ^ N.of_nat d) (2 ^ Npos p)
  | e => (fmant x * 2 ^ Z.to_N e * 10 ^ N.of_nat d)%N
  end.

Definition digit_char (n : N) : ascii :=
  ascii_of_N (48 + n mod 10).

(** The last [d] decimal digits of [v], most significant first. *)
Fixpoint fixed_digits (d : nat) (v : N) : string :=
  match d with
  | O => ""
  | S d' => fixed_digits d' (v / 10) ++ String (digit_char v) ""
  end.

(** [format(x, ".<d>f")] for a finite float and [d >= 1]: sign, integer
    part, a point, and exactly [d] fractional digits of the correctly
    rounded value. *)
Definition format_f (d : nat) (x : pyfloat) : string :=
  let v := scaled_round d x in
  (if fneg x then "-" else "")
    ++ str_int (v / 10 ^ N.of_nat d) ++ "." ++ fixed_digits d v.

(** ** JSON values

    Used for tool argument mappings, input schemas, request bodies and
    decoded response bodies.  An object is the list of its items. *)

#[warnings="-register-all"]
Inductive json : Type :=
| JNull
| JBool (b : bool)
| JInt (z : Z)
| JFloat (x : pyfloat)
| JStr (s : string)
| JArr (items : list json)
| JObj (fields : list (string * json)).

(** [d.get(key)] on the items of a dict. *)
Fixpoint lookup (key : string) (fields : list (string * json)) : option json :=
  match fields with
  | [] => None
  | (k, v) :: rest => if String.eqb k key then Some v else lookup key rest
  end.

(** ** The operating system as seen through psutil *)

(** [psutil._common.sdiskpart] *)
Record sdiskpart : Type := {
  device : string;
  mountpoint : string;
  fstype : string;
  opts : string
}.

(** [psutil._common.sdiskusage]: byte counts are integers, [percent] is a
    float. *)
Record sdiskusage : Type := {
  total : N;
  used : N;
  free : N;
  percent : pyfloat
}.

(** [psutil._common.sdiskio] *)
Record sdiskio : Type := {
  read_count : N;
  write_count : N;
  read_bytes : N;
  write_bytes : N;
  read_time : N;
  write_time : N
}.

(** The state of the operating system at the time of a call: the outcome
    of [psutil.disk_partitions()], the outcome of [psutil.disk_usage] on
    each path, and the outcome of [psutil.disk_io_counters()] ([None] when
    the host has no disks).  Each of the three calls may raise. *)
Record os_state : Type := {
  disk_partitions : result (list sdiskpart);
  disk_usage : string -> result sdiskusage;
  disk_io_counters : result (option sdiskio)
}.

(** ** Server: [mcp-server-example.py] *)

(** [mcp.types.TextContent] *)
Record TextContent : Type := {
  type : string;
  text : string
}.

(** [mcp.types.Tool] *)
Record Tool : Type := {
  name : string;
  description : string;
  inputSchema : json
}.

(** [x / (1024**3):.2f] *)
Definition gib2 (bytes : N) : string :=
  format_f 2 (int_truediv_pow2 bytes 30).

(** [x / (1024**2):.2f] *)
Definition mib2 (bytes : N) : string :=
  format_f 2 (int_truediv_pow2 bytes 20).

(** [x:.1f] *)
Definition pct1 (p : pyfloat) : string :=
  format_f 1 p.

(** ['-'*40] *)
Definition rule : string := Eval cbv in str_mul "-" 40.

(** The entry [get_disk_usage] appends for an accessible mount. *)
Definition usage_entry (partition : sdiskpart) (usage : sdiskusage) : string :=
  "Device: " ++ device partition ++ nl ++
  "Mountpoint: " ++ mountpoint partition ++ nl ++
  "Filesystem: " ++ fstype partition ++ nl ++
  "Total: " ++ gib2 (total usage) ++ " GB" ++ nl ++
  "Used: " ++ gib2 (used usage) ++ " GB" ++ nl ++
  "Free: " ++ gib2 (free usage) ++ " GB" ++ nl ++
  "Usage: " ++ pct1 (percent usage) ++ "%" ++ nl ++
  rule.

(** The entry [get_disk_usage] appends in its [except PermissionError]. *)
Definition denied_entry (partition : sdiskpart) : string :=
  "Device: " ++ device partition ++ nl ++
  "Mountpoint: " ++ mountpoint partition ++ nl ++
  "Filesystem: " ++ fstype partition ++ nl ++
  "Status: Permission denied" ++ nl ++
  rule.

(** The [for partition in psutil.disk_partitions()] loop of
    [get_disk_usage]; [disk_info] is the list built so far. *)
Fixpoint disk_usage_loop (os : os_state) (partitions : list sdiskpart)
    (disk_info : list string) : result (list string) :=
  match partitions with
  | [] => Return disk_info
  | partition :: rest =>
      match disk_usage os (mountpoint partition) with
      | Return usage =>
          disk_usage_loop os rest (disk_info ++ [usage_entry partition usage])
      | Raise e =>
          if isinstance e PermissionError then
            disk_usage_loop os rest (disk_info ++ [denied_entry partition])
          else Raise e
      end
  end.

Definition get_disk_usage (os : os_state) : result (list TextContent) :=
  let disk_info := [] in
  partitions <- disk_partitions os ;;
  disk_info <- disk_usage_loop os partitions disk_info ;;
  let result_text := "Disk Usage Information:" ++ nl ++ nl ++ join nl disk_info in
  Return [ {| type := "text"; text := result_text |} ].

(** The first item [get_detailed_disk_info] appends for a partition. *)
Definition partition_entry (partition : sdiskpart) : string :=
  "Device: " ++ device partition ++ nl ++
  "Mountpoint: " ++ mountpoint partition ++ nl ++
  "Filesystem: " ++ fstype partition ++ nl ++
  "Options: " ++ opts partition.

(** The second item, for an accessible mount. *)
Definition detailed_usage_entry (usage : sdiskusage) : string :=
  "  Total: " ++ gib2 (total usage) ++ " GB" ++ nl ++
  "  Used: " ++ gib2 (used usage) ++ " GB (" ++ pct1 (percent usage) ++ "%)" ++ nl ++
  "  Free: " ++ gib2 (free usage) ++ " GB" ++ nl.

Definition detailed_denied_entry : string := "  Status: Permission denied".

(** The partition loop of [get_detailed_disk_info]. *)
Fixpoint detailed_loop (os : os_state) (partitions : list sdiskpart)
    (disk_info : list string) : result (list string) :=
  match partitions with
  | [] => Return disk_info
  | partition :: rest =>
      let disk_info := (disk_info ++ [partition_entry partition])%list in
      match disk_usage os (mountpoint partition) with
      | Return usage =>
          detailed_loop os rest
            (disk_info ++ [detailed_usage_entry usage] ++ [""])
      | Raise e =>
          if isinstance e PermissionError then
            detailed_loop os rest (disk_info ++ [detailed_denied_entry] ++ [""])
          else Raise e
      end
  end.

(** The item appended when [disk_io_counters()] returned counters. *)
Definition io_entry (disk_io : sdiskio) : string :=
  "Read Count: " ++ str_int (read_count disk_io) ++ nl ++
  "Write Count: " ++ str_int (write_count disk_io) ++ nl ++
  "Read Bytes: " ++ mib2 (read_bytes disk_io) ++ " MB" ++ nl ++
  "Write Bytes: " ++ mib2 (write_bytes disk_io) ++ " MB" ++ nl ++
  "Read Time: " ++ str_int (read_time disk_io) ++ " ms" ++ nl ++
  "Write Time: " ++ str_int (write_time disk_io) ++ " ms".

Definition io_header : string := "=== Disk I/O Statistics ===".
Definition io_unavailable : string := "No disk I/O statistics available".
Definition io_error_prefix : string := "Error getting disk I/O statistics: ".

(** The [try: ... except Exception as e:] block of the I/O section: the
    item it appends to [disk_info]. *)
Definition io_section (os : os_state) : result string :=
  match disk_io_counters os with
  | Return (Some disk_io) => Return (io_entry disk_io)
  | Return None => Return io_unavailable
  | Raise e =>
      if isinstance e Exception then Return (io_error_prefix ++ exc_str e)
      else Raise e
  end.

Definition get_detailed_disk_info (os : os_state) : result (list TextContent) :=
  let disk_info := ["=== Disk Partitions ==="] in
  partitions <- disk_partitions os ;;
  disk_info <- detailed_loop os partitions disk_info ;;
  let disk_info := (disk_info ++ [io_header])%list in
  io_item <- io_section os ;;
  let disk_info := (disk_info ++ [io_item])%list in
  let result_text := join nl disk_info in
  Return [ {| type := "text"; text := result_text |} ].

Definition health_text : string := "Server is healthy and running".

(** [call_tool(name, arguments)] *)
Definition call_tool (os : os_state) (name : string)
    (arguments : list (string * json)) : result (list TextContent) :=
  if String.eqb name "get_disk_usage" then get_disk_usage os
  else if String.eqb name "get_detailed_disk_info" then get_detailed_disk_info os
  else if String.eqb name "health" then
    Return [ {| type := "text"; text := health_text |} ]
  else Raise (Exc ValueError ("Unknown tool: " ++ name)).

(** The schema every tool declares:
    [{"type": "object", "properties": {}, "required": []}]. *)
Definition empty_schema : json :=
  JObj [ ("type", JStr "object"); ("properties", JObj []); ("required", JArr []) ].

(** [list_tools()] *)
Definition list_tools : list Tool :=
  [ {| name := "health";
       description := "Health check endpoint";
       inputSchema := empty_schema |};
    {| name := "get_disk_usage";
       description := "Get disk usage information for all mounted filesystems";
       inputSchema := empty_schema |};
    {| name := "get_detailed_disk_info";
       description :=
         "Get detailed disk information including partitions and usage statistics";
       inputSchema := empty_schema |} ].

(** The names the dispatcher recognises. *)
Definition registry : list string :=
  [ "health"; "get_disk_usage"; "get_detailed_disk_info" ].

(** ** The answer to a [tools/call] request

    [call_tool] is registered with [@app.call_tool()] (line 35).  That
    decorator belongs to the MCP SDK ([mcp.server.lowlevel.Server]), not to
    the repository: it awaits the decorated function and answers with a
    [CallToolResult] -- the blocks the function returned and
    [isError=False], or, when the function raised [e], the single text
    block [str(e)] and [isError=True].  In both cases the JSON-RPC response
    carries the member [result]; the member [error] is used for failures
    of the protocol, before the function is called. *)




(** ** Python operations on decoded JSON values

    The client inspects whatever [response.json()] returned with [in],
    subscripts, [len] and truth tests; on a value of the wrong type these
    raise, and the exception leaves the enclosing block. *)

Module Dyn.

(** [type(v).__name__] *)
Definition type_name (v : json) : string :=
  match v with
  | JNull => "NoneType"
  | JBool _ => "bool"
  | JInt _ => "int"
  | JFloat _ => "float"
  | JStr _ => "str"
  | JArr _ => "list"
  | JObj _ => "dict"
  end.

(** [bool(v)] *)
Definition truthy (v : json) : bool :=
  match v with
  | JNull => false
  | JBool b => b
  | JInt z => negb (Z.eqb z 0)
  | JFloat x => negb (N.eqb (fmant x) 0)
  | JStr s => negb (String.eqb s "")
  | JArr items => match items with [] => false | _ => true end
  | JObj fields => match fields with [] => false | _ => true end
  end.

Definition is_str (key : string) (v : json) : bool :=
  match v with
  | JStr s => String.eqb s key
  | _ => false
  end.

(** [key in v] for a string [key] *)
Definition contains (key : string) (v : json) : result bool :=
  match v with
  | JObj fields =>
      Return (match lookup key fields with Some _ => true | None => false end)
  | JArr items => Return (existsb (is_str key) items)
  | JStr s => Return (substring_of key s)
  | _ =>
      Raise (Exc TypeError
               ("argument of type '" ++ type_name v ++ "' is not iterable"))
  end.

(** [v[key]] for a string [key] *)
Definition getitem (v : json) (key : string) : result json :=
  match v with
  | JObj fields =>
      match lookup key fields with
      | Some x => Return x
      | None => Raise (Exc KeyError ("'" ++ key ++ "'"))
      end
  | JArr _ =>
      Raise (Exc TypeError "list indices must be integers or slices, not str")
  | JStr _ => Raise (Exc TypeError "string indices must be integers, not 'str'")
  | _ =>
      Raise (Exc TypeError
               ("'" ++ type_name v ++ "' object is not subscriptable"))
  end.

(** [v[0]]; the keys of a decoded object are strings, so [0] is never one. *)
Definition getitem0 (v : json) : result json :=
  match v with
  | JArr (x :: _) => Return x
  | JArr [] => Raise (Exc IndexError "list index out of range")
  | JStr s =>
      match code_points s with
      | ch :: _ => Return (JStr ch)
      | [] => Raise (Exc IndexError "string index out of range")
      end
  | JObj _ => Raise (Exc KeyError "0")
  | _ =>
      Raise (Exc TypeError
               ("'" ++ type_name v ++ "' object is not subscriptable"))
  end.

(** [len(v)]; a string has as many elements as characters. *)
Definition len (v : json) : result nat :=
  match v with
  | JStr s => Return (str_len s)
  | JArr items => Return (List.length items)
  | JObj fields => Return (List.length fields)
  | _ =>
      Raise (Exc TypeError
               ("object of type '" ++ type_name v ++ "' has no len()"))
  end.

(** [v.split('\n')] *)
Definition split (v : json) : result (list string) :=
  match v with
  | JStr s => Return (split_lines s)
  | _ =>
      Raise (Exc AttributeError
               ("'" ++ type_name v ++ "' object has no attribute 'split'"))
  end.

(** The values [for x in v] binds, for a [v] that has a length. *)
Definition iterate (v : json) : result (list json) :=
  match v with
  | JArr items => Return items
  | JObj fields => Return (map (fun kv => JStr (fst kv)) fields)
  | JStr s => Return (map JStr (code_points s))
  | _ =>
      Raise (Exc TypeError ("'" ++ type_name v ++ "' object is not iterable"))
  end.

End Dyn.

(** ** The HTTP transport as seen through httpx *)

(** The arguments of one [client.post(url, headers=..., json=...)]. *)
Record request : Type := {
  url : string;
  headers : list (string * string);
  payload : json
}.

(** An [httpx.Response]: [.status_code], [.text], and what [.json()]
    does on the body. *)
Record response : Type := {
  status_code : N;
  body_text : string;
  body_json : result json
}.

(** What the network does with each request: a response, or an exception
    raised out of [client.post]. *)
Definition transport : Type := request -> result response.

(** What a run of the client does that can be observed from outside. *)
Inductive event : Type :=
| Post (req : request)
| Print (line : string)
| PrintExc (e : exc).

(** A block of client code: the events it produced, and how it ended. *)
Definition io (A : Type) : Type := (list event * result A)%type.

Module IO.

Definition ret {A} (a : A) : io A := ([], Return a).

Definition emit (ev : event) : io unit := ([ev], Return tt).

Definition lift {A} (m : result A) : io A := ([], m).

Definition bind {A B} (m : io A) (k : A -> io B) : io B :=
  match m with
  | (t, Return a) => let (t', r) := k a in ((t ++ t')%list, r)
  | (t, Raise e) => (t, Raise e)
  end.

(** [try: body except cls as e: handler(e)] *)
Definition try_except {A} (body : io A) (cls : exc_class)
    (handler : exc -> io A) : io A :=
  match body with
  | (t, Raise e) =>
      if isinstance e cls then
        let (t', r) := handler e in ((t ++ t')%list, r)
      else (t, Raise e)
  | done => done
  end.

(** [for x in xs: body(x)] *)
Fixpoint for_each {A} (xs : list A) (body : A -> io unit) : io unit :=
  match xs with
  | [] => ret tt
  | x :: rest => bind (body x) (fun _ => for_each rest body)
  end.

End IO.

Declare Scope io_scope.
Delimit Scope io_scope with io.
Notation "x <- m ;; k" := (IO.bind m (fun x => k))
  (at level 61, m at next level, right associativity) : io_scope.
Notation "m ;; k" := (IO.bind m (fun _ => k))
  (at level 61, right associativity) : io_scope.

Definition print (line : string) : io unit := IO.emit (Print line).

(** ** Client: [mcp-client-example.py] *)

Section Client.

(** [repr(v)] of a decoded JSON value, as the interpreter prints it. *)
Variable repr : json -> string.

(** The network the client talks to. *)
Variable net : transport.

Open Scope io_scope.

(** [str(v)], what an f-string inserts for [{v}]. *)
Definition str_json (v : json) : string :=
  match v with
  | JStr s => s
  | _ => repr v
  end.

Definition server_url : string := "http://localhost:8000/mcp/".

Definition post_headers : list (string * string) :=
  [ ("Content-Type", "application/json");
    ("Accept", "application/json, text/event-stream") ].

(** The body of a [tools/call] request. *)
Definition call_payload (id : Z) (tool : string) : json :=
  JObj [ ("jsonrpc", JStr "2.0");
         ("id", JInt id);
         ("method", JStr "tools/call");
         ("params", JObj [ ("name", JStr tool); ("arguments", JObj []) ]) ].

Definition health_request : request :=
  {| url := server_url; headers := post_headers;
     payload := call_payload 1 "health" |}.

Definition disk_request : request :=
  {| url := server_url; headers := post_headers;
     payload := call_payload 2 "get_disk_usage" |}.

Definition detailed_request : request :=
  {| url := server_url; headers := post_headers;
     payload := call_payload 3 "get_detailed_disk_info" |}.

Definition list_request : request :=
  {| url := server_url; headers := post_headers;
     payload := JObj [ ("jsonrpc", JStr "2.0");
                       ("id", JInt 4);
                       ("method", JStr "tools/list");
                       ("params", JObj []) ] |}.

(** [await client.post(...)] *)
Definition post (req : request) : io response :=
  IO.emit (Post req) ;; IO.lift (net req).

(** Lines 41-47: what the client does with the health response. *)
Definition handle_health (health_response : response) : io unit :=
  print ("Health response status: " ++ str_int (status_code health_response)) ;;
  if N.eqb (status_code health_response) 200 then
    print "✅ Health check successful!" ;;
    print ("Response: " ++ body_text health_response)
  else
    print ("❌ Health check failed: " ++ str_int (status_code health_response)) ;;
    print ("Response: " ++ body_text health_response).

(** Lines 74-86 and 118-131: the preview of a [tools/call] result.
    [subject] is "Disk usage info" or "Detailed disk info", [n] is 10 or
    15. *)
Definition preview_content (subject : string) (n : nat) (response_data : json)
    : io unit :=
  has_result <- IO.lift (Dyn.contains "result" response_data) ;;
  has_content <-
    (if has_result then
       r <- IO.lift (Dyn.getitem response_data "result") ;;
       IO.lift (Dyn.contains "content" r)
     else IO.ret false) ;;
  if has_content then
    r <- IO.lift (Dyn.getitem response_data "result") ;;
    content <- IO.lift (Dyn.getitem r "content") ;;
    has_text <-
      (if Dyn.truthy content then
         k <- IO.lift (Dyn.len content) ;;
         if Nat.ltb 0 k then
           c0 <- IO.lift (Dyn.getitem0 content) ;;
           IO.lift (Dyn.contains "text" c0)
         else IO.ret false
       else IO.ret false) ;;
    if has_text then
      c0 <- IO.lift (Dyn.getitem0 content) ;;
      t <- IO.lift (Dyn.getitem c0 "text") ;;
      k <- IO.lift (Dyn.len t) ;;
      print (subject ++ " received (" ++ str_int (N.of_nat k) ++ " characters)") ;;
      pieces <- IO.lift (Dyn.split t) ;;
      let lines := firstn n pieces in
      print ("First " ++ str_int (N.of_nat n) ++ " lines:") ;;
      IO.for_each lines (fun line => print ("  " ++ line))
    else print "No text content in response"
  else print ("Unexpected response structure: " ++ str_json response_data).

(** Lines 68-92 and 113-137: what the client does with the response of a
    [tools/call] to one of the two disk tools.  [what] is "Disk usage" or
    "Detailed disk info". *)
Definition handle_content (what subject : string) (n : nat) (resp : response)
    : io unit :=
  print (what ++ " response status: " ++ str_int (status_code resp)) ;;
  if N.eqb (status_code resp) 200 then
    print ("✅ " ++ what ++ " tool successful!") ;;
    IO.try_except
      (response_data <- IO.lift (body_json resp) ;;
       preview_content subject n response_data)
      JSONDecodeError
      (fun e =>
         print ("JSON decode error: " ++ exc_str e) ;;
         print ("Raw response: " ++ body_text resp))
  else
    print ("❌ " ++ what ++ " tool failed: " ++ str_int (status_code resp)) ;;
    print ("Response: " ++ body_text resp).

(** Lines 160-166: the listing of a [tools/list] result. *)
Definition preview_tools (response_data : json) : io unit :=
  has_result <- IO.lift (Dyn.contains "result" response_data) ;;
  has_tools <-
    (if has_result then
       r <- IO.lift (Dyn.getitem response_data "result") ;;
       IO.lift (Dyn.contains "tools" r)
     else IO.ret false) ;;
  if has_tools then
    r <- IO.lift (Dyn.getitem response_data "result") ;;
    tools <- IO.lift (Dyn.getitem r "tools") ;;
    k <- IO.lift (Dyn.len tools) ;;
    print ("Available tools (" ++ str_int (N.of_nat k) ++ "):") ;;
    elements <- IO.lift (Dyn.iterate tools) ;;
    IO.for_each elements (fun tool =>
      tool_name <- IO.lift (Dyn.getitem tool "name") ;;
      tool_description <- IO.lift (Dyn.getitem tool "description") ;;
      print ("  - " ++ str_json tool_name ++ ": " ++ str_json tool_description))
  else print ("Unexpected response structure: " ++ str_json response_data).

(** Lines 155-172: what the client does with the [tools/list] response. *)
Definition handle_list (list_response : response) : io unit :=
  print ("List tools response status: " ++ str_int (status_code list_response)) ;;
  if N.eqb (status_code list_response) 200 then
    print "✅ List tools successful!" ;;
    IO.try_except
      (response_data <- IO.lift (body_json list_response) ;;
       preview_tools response_data)
      JSONDecodeError
      (fun e =>
         print ("JSON decode error: " ++ exc_str e) ;;
         print ("Raw response: " ++ body_text list_response))
  else
    print ("❌ List tools failed: " ++ str_int (status_code list_response)) ;;
    print ("Response: " ++ body_text list_response).

(** Lines 21-172: the body of the outer [try]. *)
Definition exchanges : io unit :=
  print (nl ++ "1. Testing health endpoint...") ;;
  health_response <- post health_request ;;
  handle_health health_response ;;
  print (nl ++ "2. Testing get_disk_usage tool...") ;;
  disk_response <- post disk_request ;;
  handle_content "Disk usage" "Disk usage info" 10 disk_response ;;
  print (nl ++ "3. Testing get_detailed_disk_info tool...") ;;
  detailed_response <- post detailed_request ;;
  handle_content "Detailed disk info" "Detailed disk info" 15
    detailed_response ;;
  print (nl ++ "4. Testing list_tools...") ;;
  list_response <- post list_request ;;
  handle_list list_response.

(** [test_http_mcp_server()] *)
Definition test_http_mcp_server : io unit :=
  print "Testing HTTP MCP Filesystem Usage Server..." ;;
  print "Server URL: http://localhost:8000/mcp" ;;
  IO.try_except exchanges Exception
    (fun e =>
       print ("❌ Client test failed: " ++ exc_str e) ;;
       IO.emit (PrintExc e)).

(** The requests a block posted, in order. *)
Fixpoint posted (trace : list event) : list request :=
  match trace with
  | [] => []
  | Post req :: rest => req :: posted rest
  | _ :: rest => posted rest
  end.

(** The lines a block printed, in order. *)
Fixpoint printed (trace : list event) : list string :=
  match trace with
  | [] => []
  | Print line :: rest => line :: printed rest
  | _ :: rest => printed rest
  end.

End Client.

(** * Vocabulary of the statements *)

(** A per-mount query the handlers survive: it returned, or it raised a
    [PermissionError]. *)
Definition tolerated (os : os_state) (partition : sdiskpart) : bool :=
  match disk_usage os (mountpoint partition) with
  | Return _ => true
  | Raise e => isinstance e PermissionError
  end.

(** The entry [get_disk_usage] shows for a partition with a tolerated
    query. *)
Definition summary_entry (os : os_state) (partition : sdiskpart) : string :=
  match disk_usage os (mountpoint partition) with
  | Return usage => usage_entry partition usage
  | Raise _ => denied_entry partition
  end.

(** The items [get_detailed_disk_info] shows for such a partition. *)
Definition detailed_entries (os : os_state) (partition : sdiskpart)
    : list string :=
  match disk_usage os (mountpoint partition) with
  | Return usage => [partition_entry partition; detailed_usage_entry usage; ""]
  | Raise _ => [partition_entry partition; detailed_denied_entry; ""]
  end.

(** The [properties] member of an input schema. *)
Definition schema_properties (schema : json) : option json :=
  match schema with
  | JObj fields => lookup "properties" fields
  | _ => None
  end.

(** The single text block a handler answers with. *)
Definition text_block (s : string) : list TextContent :=
  [ {| type := "text"; text := s |} ].

(** The diagnostic line a handler shows for a mount it may not read. *)
Definition denied_line (tool : string) : string :=
  if String.eqb tool "get_detailed_disk_info" then "  Status: Permission denied"
  else "Status: Permission denied".

(** ** Sample operating-system states *)

Definition root_partition : sdiskpart :=
  {| device := "/dev/sda1"; mountpoint := "/"; fstype := "ext4";
     opts := "rw,relatime" |}.

Definition usb_partition : sdiskpart :=
  {| device := "/dev/sdb1"; mountpoint := "/mnt/usb"; fstype := "vfat";
     opts := "rw" |}.

Definition root_usage : sdiskusage :=
  {| total := 500107862016; used := 250053931008; free := 250053931008;
     percent := PyFloat false 50 0 |}.

Definition sample_io : sdiskio :=
  {| read_count := 1200; write_count := 3400; read_bytes := 52428800;
     write_bytes := 1048576; read_time := 15; write_time := 42 |}.

Definition permission_denied (path : string) : exc :=
  Exc PermissionError ("[Errno 13] Permission denied: '" ++ path ++ "'").

Definition io_failure (path : string) : exc :=
  Exc OSError ("[Errno 5] Input/output error: '" ++ path ++ "'").

(** Every mount refuses the query. *)
Definition os_all_denied : os_state :=
  {| disk_partitions := Return [root_partition; usb_partition];
     disk_usage := fun path => Raise (permission_denied path);
     disk_io_counters := Return None |}.

(** One readable mount, one that refuses the query. *)
Definition os_mixed : os_state :=
  {| disk_partitions := Return [root_partition; usb_partition];
     disk_usage := fun path =>
       if String.eqb path "/" then Return root_usage
       else Raise (permission_denied path);
     disk_io_counters := Return (Some sample_io) |}.

(** A mount whose query fails with an I/O error. *)
Definition os_io_error : os_state :=
  {| disk_partitions := Return [usb_partition];
     disk_usage := fun path => Raise (io_failure path);
     disk_io_counters := Return (Some sample_io) |}.

(** The partitions cannot be listed. *)
Definition os_no_listing : os_state :=
  {| disk_partitions :=
       Raise (Exc OSError "[Errno 5] Input/output error: '/proc/mounts'");
     disk_usage := fun _ => Return root_usage;
     disk_io_counters := Return (Some sample_io) |}.

(** The I/O counters cannot be read. *)
Definition os_no_counters : os_state :=
  {| disk_partitions := Return [root_partition];
     disk_usage := fun _ => Return root_usage;
     disk_io_counters :=
       Raise (Exc FileNotFoundError
                "[Errno 2] No such file or directory: '/proc/diskstats'") |}.

(** ** Reading a rendered number back *)

Definition is_digit (c : ascii) : bool :=
  (48 <=? N_of_ascii c)%N && (N_of_ascii c <=? 57)%N.

Fixpoint all_digits (s : string) : bool :=
  match s with
  | EmptyString => true
  | String c s' => is_digit c && all_digits s'
  end.

(** The number a string of decimal digits denotes, continuing from [acc]. *)
Fixpoint read_digits (s : string) (acc : N) : N :=
  match s with
  | EmptyString => acc
  | String c s' => read_digits s' (10 * acc + (N_of_ascii c - 48))
  end.

Definition decimal_value (s : string) : N := read_digits s 0.

(** [renders d s v]: the string [s] is a non-empty run of digits, a point
    and exactly [d] digits, and these digits read as the number
    [v / 10^d]. *)
Definition renders (d : nat) (s : string) (v : N) : Prop :=
  exists int_part frac,
    s = int_part ++ "." ++ frac
    /\ int_part <> ""
    /\ all_digits int_part = true
    /\ all_digits frac = true
    /\ String.length frac = d
    /\ (decimal_value int_part * 10 ^ N.of_nat d + decimal_value frac)%N = v.

(** The spacing of the 53-bit floats around the integer [n], zero while
    [n] is itself one of them: the error [n / 2**k] may carry is at most
    half of it. *)
Definition ulp53 (n : N) : N :=
  if (N.size n <=? 53)%N then 0%N else (2 ^ (N.size n - 53))%N.

(** ** The client's run, step by step *)

Definition events {A} (m : io A) : list event := fst m.

Definition outcome {A} (m : io A) : result A := snd m.

(** The four exchanges of the client, in the order of the script. *)
Inductive step : Type := Health | DiskUsage | DetailedInfo | ListTools.

Definition all_steps : list step := [Health; DiskUsage; DetailedInfo; ListTools].

Definition next (s : step) : option step :=
  match s with
  | Health => Some DiskUsage
  | DiskUsage => Some DetailedInfo
  | DetailedInfo => Some ListTools
  | ListTools => None
  end.

Definition banner (s : step) : string :=
  match s with
  | Health => nl ++ "1. Testing health endpoint..."
  | DiskUsage => nl ++ "2. Testing get_disk_usage tool..."
  | DetailedInfo => nl ++ "3. Testing get_detailed_disk_info tool..."
  | ListTools => nl ++ "4. Testing list_tools..."
  end.

Definition request_of (s : step) : request :=
  match s with
  | Health => health_request
  | DiskUsage => disk_request
  | DetailedInfo => detailed_request
  | ListTools => list_request
  end.

Definition fixed_requests : list request := map request_of all_steps.

(** What the client does with the response of each exchange. *)
Definition handle (repr : json -> string) (s : step) (resp : response)
    : io unit :=
  match s with
  | Health => handle_health resp
  | DiskUsage => handle_content repr "Disk usage" "Disk usage info" 10 resp
  | DetailedInfo =>
      handle_content repr "Detailed disk info" "Detailed disk info" 15 resp
  | ListTools => handle_list repr resp
  end.

(** [step_aborts repr net s]: the exchange [s] ends with an exception,
    raised by [client.post] or while the response is looked at. *)
Definition step_aborts (repr : json -> string) (net : transport) (s : step)
    : bool :=
  match net (request_of s) with
  | Raise _ => true
  | Return resp =>
      match outcome (handle repr s resp) with
      | Raise _ => true
      | Return _ => false
      end
  end.

(** The requests that go out: each step's, up to and including the first
    step that aborts. *)
Fixpoint sent_until (repr : json -> string) (net : transport)
    (steps : list step) : list request :=
  match steps with
  | [] => []
  | s :: rest =>
      request_of s
        :: (if step_aborts repr net s then [] else sent_until repr net rest)
  end.

(** The exchanges as a loop over the steps. *)
Fixpoint run_steps (repr : json -> string) (net : transport)
    (steps : list step) : io unit :=
  match steps with
  | [] => IO.ret tt
  | s :: rest =>
      IO.bind (print (banner s)) (fun _ =>
      IO.bind (post net (request_of s)) (fun resp =>
      IO.bind (handle repr s resp) (fun _ =>
      run_steps repr net rest)))
  end.

(** The line the client prints for a response whose status is not 200. *)
Definition failure_line (s : step) (resp : response) : string :=
  match s with
  | Health => "❌ Health check failed: "
  | DiskUsage => "❌ Disk usage tool failed: "
  | DetailedInfo => "❌ Detailed disk info tool failed: "
  | ListTools => "❌ List tools failed: "
  end ++ str_int (status_code resp).

(** An error-variant response: status 200 and a JSON object with an
    [error] member and no [result] member. *)
Definition error_variant (resp : response) (data : json) : Prop :=
  status_code resp = 200%N
  /\ body_json resp = Return data
  /\ exists fields err,
       data = JObj fields
       /\ lookup "result" fields = None
       /\ lookup "error" fields = Some err.

(** The [id] member of a request body. *)
Definition correlation_id (req : request) : option json :=
  match payload req with
  | JObj fields => lookup "id" fields
  | _ => None
  end.

(** The [method] of a request body, and the tool it names if any. *)
Definition operation (req : request) : option (string * option string) :=
  match payload req with
  | JObj fields =>
      match lookup "method" fields with
      | Some (JStr m) =>
          match lookup "params" fields with
          | Some (JObj params) =>
              match lookup "name" params with
              | Some (JStr tool) => Some (m, Some tool)
              | _ => Some (m, None)
              end
          | _ => Some (m, None)
          end
      | _ => None
      end
  | _ => None
  end.

(** The place of a step in the script, counted from 0. *)
Definition position (s : step) : nat :=
  match s with
  | Health => 0
  | DiskUsage => 1
  | DetailedInfo => 2
  | ListTools => 3
  end.

(** The line the client prints about a decoded body that lacks the members
    it looks for. *)
Definition structure_line (repr : json -> string) (data : json) : string :=
  "Unexpected response structure: " ++ str_json repr data.

(** The steps whose request goes out, among [steps]. *)
Fixpoint steps_until (repr : json -> string) (net : transport)
    (steps : list step) : list step :=
  match steps with
  | [] => []
  | s :: rest =>
      s :: (if step_aborts repr net s then [] else steps_until repr net rest)
  end.

(** A block that posts no request. *)
Definition quiet {A} (m : io A) : Prop := posted (events m) = [].

(** ** Sample networks *)

(** No server is listening: every [post] raises. *)
Definition net_refused : transport :=
  fun _ => Raise (Exc ConnectError "All connection attempts failed").

(** A server that answers every request with status 500. *)
Definition net_500 : transport :=
  fun _ => Return {| status_code := 500;
                     body_text := "Internal Server Error";
                     body_json := Raise (Exc JSONDecodeError
                                           "Expecting value: line 1 column 1 (char 0)") |}.

Definition error_body : json :=
  JObj [ ("jsonrpc", JStr "2.0"); ("id", JInt 2);
         ("error", JObj [ ("code", JInt (-32602));
                          ("message", JStr "Unknown tool: get_disk_usage") ]) ].

(** A server that answers every request with a JSON-RPC error object. *)
Definition net_error : transport :=
  fun _ => Return {| status_code := 200;
                     body_text := "{...}";
                     body_json := Return error_body |}.

(** A server in JSON-response mode that answers as the server script
    does, with a two-line text for every tool call. *)
Definition net_ok : transport :=
  fun req =>
    let result :=
      match operation req with
      | Some ("tools/list", _) =>
          JObj [ ("tools",
                  JArr (map (fun tool =>
                               JObj [ ("name", JStr (name tool));
                                      ("description", JStr (description tool));
                                      ("inputSchema", inputSchema tool) ])
                            list_tools)) ]
      | _ =>
          JObj [ ("content",
                  JArr [ JObj [ ("type", JStr "text");
                                ("text", JStr ("line one" ++ nl ++ "line two")) ] ]) ]
      end in
    Return {| status_code := 200;
              body_text := "{...}";
              body_json := Return (JObj [ ("jsonrpc", JStr "2.0");
                                          ("result", result) ]) |}.

(** A [repr] for runs of the samples. *)
Definition sample_repr (v : json) : string := "<" ++ Dyn.type_name v ++ ">".

(** ** Vocabulary of the further properties *)

(** The exception of the first per-mount query, in partition order, that
    raises something other than a [PermissionError]. *)
Fixpoint first_failure (os : os_state) (partitions : list sdiskpart)
    : option exc :=
  match partitions with
  | [] => None
  | partition :: rest =>
      match disk_usage os (mountpoint partition) with
      | Return _ => first_failure os rest
      | Raise e =>
          if isinstance e PermissionError then first_failure os rest
          else Some e
      end
  end.

(** [newline_free s]: no character of [s] is a newline. *)
Fixpoint newline_free (s : string) : bool :=
  match s with
  | EmptyString => true
  | String c s' => negb (Ascii.eqb c nl_char) && newline_free s'
  end.

(** A partition whose three printed fields hold no newline. *)
Definition plain_fields (partition : sdiskpart) : bool :=
  newline_free (device partition)
  && newline_free (mountpoint partition)
  && newline_free (fstype partition).

(** The lines of the entry [get_disk_usage] shows for a partition. *)
Definition entry_lines (os : os_state) (partition : sdiskpart) : list string :=
  [ "Device: " ++ device partition;
    "Mountpoint: " ++ mountpoint partition;
    "Filesystem: " ++ fstype partition ]
  ++ match disk_usage os (mountpoint partition) with
     | Return usage =>
         [ "Total: " ++ gib2 (total usage) ++ " GB";
           "Used: " ++ gib2 (used usage) ++ " GB";
           "Free: " ++ gib2 (free usage) ++ " GB";
           "Usage: " ++ pct1 (percent usage) ++ "%";
           rule ]
     | Raise _ => [ "Status: Permission denied"; rule ]
     end.


(** The exceptions whose traceback a block printed, in order. *)
Fixpoint tracebacks (trace : list event) : list exc :=
  match trace with
  | [] => []
  | PrintExc e :: rest => e :: tracebacks rest
  | _ :: rest => tracebacks rest
  end.

(** A block that prints no traceback. *)
Definition calm {A} (m : io A) : Prop := tracebacks (events m) = [].

(** The first line the client prints about a response. *)
Definition status_line (s : step) (resp : response) : string :=
  match s with
  | Health => "Health response status: "
  | DiskUsage => "Disk usage response status: "
  | DetailedInfo => "Detailed disk info response status: "
  | ListTools => "List tools response status: "
  end ++ str_int (status_code resp).

(** The line the client prints for a response with status 200. *)
Definition success_line (s : step) : string :=
  match s with
  | Health => "✅ Health check successful!"
  | DiskUsage => "✅ Disk usage tool successful!"
  | DetailedInfo => "✅ Detailed disk info tool successful!"
  | ListTools => "✅ List tools successful!"
  end.

(** How many lines of a tool's text the client previews. *)
Definition preview_limit (s : step) : nat :=
  match s with
  | DetailedInfo => 15
  | _ => 10
  end.

(** The line that announces the size of the text. *)
Definition received_line (s : step) (t : string) : string :=
  match s with
  | DetailedInfo => "Detailed disk info received ("
  | _ => "Disk usage info received ("
  end ++ str_int (N.of_nat (str_len t)) ++ " characters)".

(** [text_result data t]: [data] is an object whose [result] is an object
    whose [content] is a list that starts with an object whose [text] is
    the string [t]. *)
Definition text_result (data : json) (t : string) : Prop :=
  exists fields result_fields block rest,
    data = JObj fields
    /\ lookup "result" fields = Some (JObj result_fields)
    /\ lookup "content" result_fields = Some (JArr (JObj block :: rest))
    /\ lookup "text" block = Some (JStr t).

(** [content_of data content]: [data] is an object whose [result] is an
    object with the member [content]. *)
Definition content_of (data content : json) : Prop :=
  exists fields result_fields,
    data = JObj fields
    /\ lookup "result" fields = Some (JObj result_fields)
    /\ lookup "content" result_fields = Some content.

(** [tools_of data tools]: [data] is an object whose [result] is an object
    whose [tools] is the list [tools]. *)
Definition tools_of (data : json) (tools : list json) : Prop :=
  exists fields result_fields,
    data = JObj fields
    /\ lookup "result" fields = Some (JObj result_fields)
    /\ lookup "tools" result_fields = Some (JArr tools).

(** [describes tool nd]: [tool] is an object with the members [name] and
    [description]; [nd] is what an f-string shows for the two. *)
Definition describes (repr : json -> string) (tool : json)
    (nd : string * string) : Prop :=
  exists fields n d,
    tool = JObj fields
    /\ lookup "name" fields = Some n
    /\ lookup "description" fields = Some d
    /\ nd = (str_json repr n, str_json repr d).

(** A decoded body that is no container: [null], a boolean or a number. *)
Definition is_scalar (data : json) : bool :=
  match data with
  | JNull | JBool _ | JInt _ | JFloat _ => true
  | _ => false
  end.


(** The answer of a server in event-stream mode: status 200 and a body
    that is not JSON. *)
Definition sse_response : response :=
  {| status_code := 200;
     body_text := "event: message" ++ nl ++ "data: {}";
     body_json := Raise (Exc JSONDecodeError
                           "Expecting value: line 1 column 1 (char 0)") |}.

(** The JSON object that carries a tool's payload. *)
Definition content_json (payload : list TextContent) : json :=
  JObj [ ("jsonrpc", JStr "2.0");
         ("result",
          JObj [ ("content",
                  JArr (map (fun block =>
                               JObj [ ("type", JStr (type block));
                                      ("text", JStr (text block)) ])
                            payload)) ]) ].

(** A response of status 200 whose body decodes to [data]. *)
Definition json_response (data : json) : response :=
  {| status_code := 200; body_text := "{...}"; body_json := Return data |}.


(** A server that answers every request with status 200 and the body
    [null]. *)
Definition net_null : transport := fun _ => Return (json_response JNull).

(** The JSON object that carries a tool listing. *)
Definition tools_json (tools : list json) : json :=
  JObj [ ("jsonrpc", JStr "2.0"); ("result", JObj [ ("tools", JArr tools) ]) ].

(** The line the client prints for one listed tool. *)
Definition tool_line (nd : string * string) : string :=
  "  - " ++ fst nd ++ ": " ++ snd nd.


(** The lines [get_detailed_disk_info] shows for a partition. *)
Definition detailed_lines (os : os_state) (partition : sdiskpart)
    : list string :=
  [ "Device: " ++ device partition;
    "Mountpoint: " ++ mountpoint partition;
    "Filesystem: " ++ fstype partition;
    "Options: " ++ opts partition ]
  ++ match disk_usage os (mountpoint partition) with
     | Return usage =>
         [ "  Total: " ++ gib2 (total usage) ++ " GB";
           "  Used: " ++ gib2 (used usage) ++ " GB ("
             ++ pct1 (percent usage) ++ "%)";
           "  Free: " ++ gib2 (free usage) ++ " GB";
           ""; "" ]
     | Raise _ => [ "  Status: Permission denied"; "" ]
     end.


(** A response the client gets through: any status other than 200, any
    answer to the health exchange, a body that is not JSON, an error
    object, a tool's text for the two disk tools, or a listing of named
    and described tools for [tools/list]. *)
Definition conformant (repr : json -> string) (s : step) (resp : response)
    : Prop :=
  status_code resp <> 200%N
  \/ s = Health
  \/ (exists e, body_json resp = Raise e /\ isinstance e JSONDecodeError = true)
  \/ (exists data, error_variant resp data)
  \/ ((s = DiskUsage \/ s = DetailedInfo)
      /\ exists data t, body_json resp = Return data /\ text_result data t)
  \/ (s = ListTools
      /\ exists data tools lines,
           body_json resp = Return data
           /\ tools_of data tools
           /\ Forall2 (describes repr) tools lines).


(** ** The texts a reader expects, written out *)

(** The summary entry of a readable mount. *)
Definition readable_text (p : sdiskpart) (u : sdiskusage) : string :=
  "Device: " ++ device p ++ nl ++
  "Mountpoint: " ++ mountpoint p ++ nl ++
  "Filesystem: " ++ fstype p ++ nl ++
  "Total: " ++ gib2 (total u) ++ " GB" ++ nl ++
  "Used: " ++ gib2 (used u) ++ " GB" ++ nl ++
  "Free: " ++ gib2 (free u) ++ " GB" ++ nl ++
  "Usage: " ++ pct1 (percent u) ++ "%" ++ nl ++
  "----------------------------------------".

(** The summary entry of a mount that refuses the query. *)
Definition refused_text (p : sdiskpart) : string :=
  "Device: " ++ device p ++ nl ++
  "Mountpoint: " ++ mountpoint p ++ nl ++
  "Filesystem: " ++ fstype p ++ nl ++
  "Status: Permission denied" ++ nl ++
  "----------------------------------------".

(** The summary entry expected for a partition. *)
Definition shown_entry (os : os_state) (p : sdiskpart) : string :=
  match disk_usage os (mountpoint p) with
  | Return u => readable_text p u
  | Raise _ => refused_text p
  end.

(** The description every partition gets in the detailed text. *)
Definition described_text (p : sdiskpart) : string :=
  "Device: " ++ device p ++ nl ++
  "Mountpoint: " ++ mountpoint p ++ nl ++
  "Filesystem: " ++ fstype p ++ nl ++
  "Options: " ++ opts p.

(** The items expected for a partition in the detailed text. *)
Definition shown_items (os : os_state) (p : sdiskpart) : list string :=
  match disk_usage os (mountpoint p) with
  | Return u =>
      [ described_text p;
        "  Total: " ++ gib2 (total u) ++ " GB" ++ nl ++
        "  Used: " ++ gib2 (used u) ++ " GB (" ++ pct1 (percent u) ++ "%)" ++ nl ++
        "  Free: " ++ gib2 (free u) ++ " GB" ++ nl;
        "" ]
  | Raise _ => [ described_text p; "  Status: Permission denied"; "" ]
  end.

(** [layout os tool ps t]: [t] is the text the tool [tool] is expected to
    answer with when the partitions are [ps]. *)
Definition layout (os : os_state) (tool : string) (ps : list sdiskpart)
    (t : string) : Prop :=
  (tool = "health" /\ t = "Server is healthy and running")
  \/ (tool = "get_disk_usage"
      /\ t = "Disk Usage Information:" ++ nl ++ nl ++
             join nl (map (shown_entry os) ps))
  \/ (tool = "get_detailed_disk_info"
      /\ exists io_item,
           io_section os = Return io_item
           /\ t = join nl ("=== Disk Partitions ===" :: flat_map (shown_items os) ps)
                  ++ nl ++ "=== Disk I/O Statistics ===" ++ nl ++ io_item).


(** ** A host with a stale network mount *)

Definition nfs_partition : sdiskpart :=
  {| device := "filer:/export"; mountpoint := "/mnt/nfs"; fstype := "nfs4";
     opts := "rw,hard" |}.

Definition boot_partition : sdiskpart :=
  {| device := "/dev/sda2"; mountpoint := "/boot"; fstype := "ext4";
     opts := "rw" |}.

Definition stale_handle : exc :=
  Exc OSError "[Errno 116] Stale file handle: '/mnt/nfs'".

(** A readable mount, a refused one, a stale one, and one more. *)
Definition os_stale_mount : os_state :=
  {| disk_partitions :=
       Return [root_partition; usb_partition; nfs_partition; boot_partition];
     disk_usage := fun path =>
       if String.eqb path "/mnt/usb" then Raise (permission_denied path)
       else if String.eqb path "/mnt/nfs" then Raise stale_handle
       else Return root_usage;
     disk_io_counters := Return (Some sample_io) |}.


(** * Properties *)

(** ** Lines of a text *)

Lemma split_lines_nonempty (s : string) : split_lines s <> [].
Proof.
  destruct s as [|c s]; simpl; [discriminate|].
  destruct (Ascii.eqb c nl_char); [discriminate|].
  destruct (split_lines s); discriminate.
Qed.

Lemma split_lines_app_nl (a b : string) :
  split_lines (a ++ nl ++ b) = (split_lines a ++ split_lines b)%list.
Proof.
  induction a as [|c a IH]; simpl.
  - reflexivity.
  - destruct (Ascii.eqb c nl_char).
    + simpl in IH. rewrite IH. reflexivity.
    + simpl in IH. rewrite IH.
      pose proof (split_lines_nonempty a) as Hne.
      destruct (split_lines a) as [|l ls]; [contradiction|reflexivity].
Qed.

Lemma split_lines_join_cons (e : string) (es : list string) :
  split_lines (join nl (e :: es)) = flat_map split_lines (e :: es).
Proof.
  revert e. induction es as [|e' es IH]; intros e.
  - simpl. now rewrite app_nil_r.
  - change (join nl (e :: e' :: es)) with (e ++ nl ++ join nl (e' :: es)).
    rewrite split_lines_app_nl, IH. reflexivity.
Qed.

Lemma in_split_lines_join (l e : string) (es : list string) :
  In e es -> In l (split_lines e) -> In l (split_lines (join nl es)).
Proof.
  intros He Hl. destruct es as [|e0 es]; [contradiction|].
  rewrite split_lines_join_cons. apply in_flat_map. now exists e.
Qed.

Lemma in_split_lines_left (l a b : string) :
  In l (split_lines a) -> In l (split_lines (a ++ nl ++ b)).
Proof. intros H. rewrite split_lines_app_nl. apply in_or_app. now left. Qed.

Lemma in_split_lines_right (l a b : string) :
  In l (split_lines b) -> In l (split_lines (a ++ nl ++ b)).
Proof. intros H. rewrite split_lines_app_nl. apply in_or_app. now right. Qed.

Lemma string_app_assoc (a b c : string) : (a ++ b) ++ c = a ++ (b ++ c).
Proof. induction a as [|x a IH]; simpl; [reflexivity | now rewrite IH]. Qed.

Lemma join_snoc (x : string) (items : list string) (b : string) :
  join nl ((x :: items) ++ [b])%list = join nl (x :: items) ++ nl ++ b.
Proof.
  revert x. induction items as [|y items IH]; intros x.
  - reflexivity.
  - change (join nl ((x :: y :: items) ++ [b])%list)
      with (x ++ nl ++ join nl ((y :: items) ++ [b])%list).
    rewrite IH.
    change (join nl (x :: y :: items)) with (x ++ nl ++ join nl (y :: items)).
    now rewrite !string_app_assoc.
Qed.

(** ** Exceptions *)

Lemma isinstance_Exception (e : exc) : isinstance e Exception = true.
Proof. reflexivity. Qed.

(** ** The partition loops *)

Lemma disk_usage_loop_tolerated (os : os_state) (ps : list sdiskpart) :
  forall acc,
    forallb (tolerated os) ps = true ->
    disk_usage_loop os ps acc = Return (acc ++ map (summary_entry os) ps)%list.
Proof.
  induction ps as [|p ps IH]; intros acc H; simpl.
  - now rewrite app_nil_r.
  - simpl in H. apply andb_true_iff in H as [Hp Hps].
    unfold tolerated in Hp. unfold summary_entry at 1.
    destruct (disk_usage os (mountpoint p)) as [u|e].
    + rewrite IH by assumption. now rewrite <- app_assoc.
    + rewrite Hp, IH by assumption. now rewrite <- app_assoc.
Qed.

Lemma detailed_loop_tolerated (os : os_state) (ps : list sdiskpart) :
  forall acc,
    forallb (tolerated os) ps = true ->
    detailed_loop os ps acc
    = Return (acc ++ flat_map (detailed_entries os) ps)%list.
Proof.
  induction ps as [|p ps IH]; intros acc H; simpl.
  - now rewrite app_nil_r.
  - simpl in H. apply andb_true_iff in H as [Hp Hps].
    unfold tolerated in Hp. unfold detailed_entries at 1.
    destruct (disk_usage os (mountpoint p)) as [u|e].
    + rewrite IH by assumption. now rewrite <- !app_assoc.
    + rewrite Hp, IH by assumption. now rewrite <- !app_assoc.
Qed.

(** A loop that raises re-raises what a per-mount query raised, and that
    exception is not a [PermissionError]. *)
Lemma disk_usage_loop_raises (os : os_state) (ps : list sdiskpart) :
  forall acc e,
    disk_usage_loop os ps acc = Raise e ->
    exists p, In p ps /\ disk_usage os (mountpoint p) = Raise e
              /\ isinstance e PermissionError = false.
Proof.
  induction ps as [|p ps IH]; intros acc e H; simpl in H; [discriminate|].
  destruct (disk_usage os (mountpoint p)) as [u|e'] eqn:Hq.
  - destruct (IH _ _ H) as (q & Hin & Hr & Hc). exists q; simpl; auto.
  - destruct (isinstance e' PermissionError) eqn:Hc.
    + destruct (IH _ _ H) as (q & Hin & Hr & Hc'). exists q; simpl; auto.
    + injection H as <-. exists p; simpl; auto.
Qed.

Lemma detailed_loop_raises (os : os_state) (ps : list sdiskpart) :
  forall acc e,
    detailed_loop os ps acc = Raise e ->
    exists p, In p ps /\ disk_usage os (mountpoint p) = Raise e
              /\ isinstance e PermissionError = false.
Proof.
  induction ps as [|p ps IH]; intros acc e H; simpl in H; [discriminate|].
  destruct (disk_usage os (mountpoint p)) as [u|e'] eqn:Hq.
  - destruct (IH _ _ H) as (q & Hin & Hr & Hc). exists q; simpl; auto.
  - destruct (isinstance e' PermissionError) eqn:Hc.
    + destruct (IH _ _ H) as (q & Hin & Hr & Hc'). exists q; simpl; auto.
    + injection H as <-. exists p; simpl; auto.
Qed.

(** ** Lines of the entries *)

Lemma in_lines_skip (l a b rest : string) :
  In l (split_lines rest) -> In l (split_lines (a ++ b ++ nl ++ rest)).
Proof.
  intros H. rewrite <- string_app_assoc. now apply in_split_lines_right.
Qed.

Lemma denied_entry_line (p : sdiskpart) :
  In "Status: Permission denied" (split_lines (denied_entry p)).
Proof.
  unfold denied_entry. do 3 apply in_lines_skip.
  apply in_split_lines_left. simpl. now left.
Qed.

Lemma detailed_entries_in (os : os_state) (p : sdiskpart) (e : exc)
    (ps : list sdiskpart) :
  In p ps -> disk_usage os (mountpoint p) = Raise e ->
  In detailed_denied_entry (flat_map (detailed_entries os) ps).
Proof.
  intros Hin Hq. apply in_flat_map. exists p. split; [assumption|].
  unfold detailed_entries. rewrite Hq. simpl. auto.
Qed.

(** The text of [get_detailed_disk_info] once its partition loop has
    returned [items]. *)
Lemma detailed_text_shape (x : string) (items : list string) (item : string) :
  join nl (((x :: items) ++ [io_header]) ++ [item])%list
  = join nl (x :: items) ++ nl ++ io_header ++ nl ++ item.
Proof.
  change (((x :: items) ++ [io_header]) ++ [item])%list
    with ((x :: (items ++ [io_header])) ++ [item])%list.
  rewrite join_snoc.
  change (x :: (items ++ [io_header]))%list
    with ((x :: items) ++ [io_header])%list.
  rewrite join_snoc. now rewrite !string_app_assoc.
Qed.

Lemma io_section_returns (os : os_state) :
  exists item, io_section os = Return item.
Proof.
  unfold io_section. destruct (disk_io_counters os) as [[io|]|e].
  - now exists (io_entry io).
  - now exists io_unavailable.
  - rewrite isinstance_Exception. now exists (io_error_prefix ++ exc_str e).
Qed.

(** ** The handlers under tolerated per-mount outcomes *)

Lemma get_disk_usage_tolerated (os : os_state) (ps : list sdiskpart) :
  disk_partitions os = Return ps ->
  forallb (tolerated os) ps = true ->
  get_disk_usage os
  = Return (text_block ("Disk Usage Information:" ++ nl ++ nl ++
                        join nl (map (summary_entry os) ps))).
Proof.
  intros Hps H. unfold get_disk_usage. rewrite Hps. cbn [bind].
  now rewrite disk_usage_loop_tolerated.
Qed.

Lemma get_detailed_disk_info_tolerated (os : os_state) (ps : list sdiskpart) :
  disk_partitions os = Return ps ->
  forallb (tolerated os) ps = true ->
  exists item,
    io_section os = Return item /\
    get_detailed_disk_info os
    = Return (text_block
                (join nl ("=== Disk Partitions ==="
                          :: flat_map (detailed_entries os) ps)
                 ++ nl ++ io_header ++ nl ++ item)).
Proof.
  intros Hps H. destruct (io_section_returns os) as [item Hitem].
  exists item. split; [assumption|].
  unfold get_detailed_disk_info. rewrite Hps. cbn [bind].
  rewrite detailed_loop_tolerated by assumption.
  cbn [bind]. rewrite Hitem. cbn [bind].
  unfold text_block. do 3 f_equal.
  apply (detailed_text_shape "=== Disk Partitions ===").
Qed.

(** A registered name is handed to its handler. *)
Lemma call_tool_dispatch (os : os_state) (tool : string)
    (arguments : list (string * json)) :
  In tool registry ->
  (tool = "health"
   /\ call_tool os tool arguments = Return (text_block health_text))
  \/ (tool = "get_disk_usage"
      /\ call_tool os tool arguments = get_disk_usage os)
  \/ (tool = "get_detailed_disk_info"
      /\ call_tool os tool arguments = get_detailed_disk_info os).
Proof.
  intros Hin. simpl in Hin.
  destruct Hin as [<-|[<-|[<-|[]]]].
  - left. split; reflexivity.
  - right; left. split; reflexivity.
  - right; right. split; reflexivity.
Qed.

(** A refused mount shows as a line of the summary text. *)
Lemma summary_denied_line (os : os_state) (ps : list sdiskpart)
    (p : sdiskpart) (e : exc) :
  In p ps ->
  disk_usage os (mountpoint p) = Raise e ->
  In "Status: Permission denied"
     (split_lines ("Disk Usage Information:" ++ nl ++ nl ++
                   join nl (map (summary_entry os) ps))).
Proof.
  intros Hin Hq.
  apply in_split_lines_right. apply (in_split_lines_right _ "").
  apply in_split_lines_join with (e := denied_entry p).
  - replace (denied_entry p) with (summary_entry os p)
      by (unfold summary_entry; now rewrite Hq).
    now apply in_map.
  - apply denied_entry_line.
Qed.

(** The entries and items of the handlers are the expected texts. *)
Lemma summary_entry_shown (os : os_state) (p : sdiskpart) :
  summary_entry os p = shown_entry os p.
Proof.
  unfold summary_entry, shown_entry.
  now destruct (disk_usage os (mountpoint p)).
Qed.

Lemma detailed_entries_shown (os : os_state) (p : sdiskpart) :
  detailed_entries os p = shown_items os p.
Proof.
  unfold detailed_entries, shown_items.
  now destruct (disk_usage os (mountpoint p)).
Qed.

Lemma handlers_raise_listing (os : os_state) (e : exc) :
  disk_partitions os = Raise e ->
  get_disk_usage os = Raise e /\ get_detailed_disk_info os = Raise e.
Proof.
  intros H. unfold get_disk_usage, get_detailed_disk_info.
  now rewrite H.
Qed.

Lemma intolerable_mount (os : os_state) (ps : list sdiskpart) :
  forallb (tolerated os) ps = false ->
  exists e, first_failure os ps = Some e.
Proof.
  induction ps as [|p ps IH]; simpl; [discriminate|].
  unfold tolerated at 1.
  destruct (disk_usage os (mountpoint p)) as [u|e]; [exact IH|].
  destruct (isinstance e PermissionError); [exact IH|]. intros _. now exists e.
Qed.

Lemma first_failure_mount (os : os_state) (ps : list sdiskpart) (e : exc) :
  first_failure os ps = Some e ->
  exists p, In p ps /\ disk_usage os (mountpoint p) = Raise e
            /\ isinstance e PermissionError = false.
Proof.
  induction ps as [|p ps IH]; simpl; [discriminate|]. intros H.
  destruct (disk_usage os (mountpoint p)) as [u|e0] eqn:Hq.
  - destruct (IH H) as (q & Hin & Hr & Hc). exists q; auto.
  - destruct (isinstance e0 PermissionError) eqn:Hc0.
    + destruct (IH H) as (q & Hin & Hr & Hc). exists q; auto.
    + injection H as ->. exists p; auto.
Qed.

Lemma loops_raise_first_failure (os : os_state) (ps : list sdiskpart) (e : exc) :
  first_failure os ps = Some e ->
  forall acc acc',
    disk_usage_loop os ps acc = Raise e /\ detailed_loop os ps acc' = Raise e.
Proof.
  induction ps as [|p ps IH]; simpl; [discriminate|]. intros H acc acc'.
  destruct (disk_usage os (mountpoint p)) as [u|e0]; [now apply IH|].
  destruct (isinstance e0 PermissionError); [now apply IH|].
  injection H as ->. auto.
Qed.

Lemma handlers_raise_mount (os : os_state) (ps : list sdiskpart) :
  disk_partitions os = Return ps ->
  forallb (tolerated os) ps = false ->
  exists p e,
    In p ps /\ disk_usage os (mountpoint p) = Raise e
    /\ isinstance e PermissionError = false
    /\ get_disk_usage os = Raise e
    /\ get_detailed_disk_info os = Raise e.
Proof.
  intros Hps Hbad.
  destruct (intolerable_mount os ps Hbad) as [e He].
  destruct (first_failure_mount os ps e He) as (p & Hin & Hq & Hc).
  exists p, e. repeat split; try assumption.
  - unfold get_disk_usage. rewrite Hps. cbn [bind].
    now rewrite (proj1 (loops_raise_first_failure os ps e He [] [])).
  - unfold get_detailed_disk_info. rewrite Hps. cbn [bind].
    now rewrite (proj2 (loops_raise_first_failure os ps e He []
                          ["=== Disk Partitions ==="])).
Qed.

(** ** Claims about the server *)




(** C2, as stated, fails: [get_disk_usage] does not always return.  When
    the listing of the partitions raises, or when a per-mount query raises
    an exception that is not a [PermissionError], the call of the tool
    raises and there is no payload. *)
Lemma get_disk_usage_can_raise :
  call_tool os_no_listing "get_disk_usage" []
    = Raise (Exc OSError "[Errno 5] Input/output error: '/proc/mounts'")
  /\ call_tool os_io_error "get_disk_usage" [] = Raise (io_failure "/mnt/usb")
  /\ returned (call_tool os_no_listing "get_disk_usage" []) = None
  /\ returned (call_tool os_io_error "get_disk_usage" []) = None.
Proof. repeat split. Qed.

(** C2, amended: when the listing of the partitions returns and every
    per-mount query either returns or raises a [PermissionError] -- in
    particular when all of them raise it -- [get_disk_usage], and so a
    call of the tool with any arguments, returns one text block: the
    header followed by one entry per partition, in order.  The entry of a
    refused mount is its device, mount point and file system followed by
    the line "Status: Permission denied", a line of the whole text as
    well; the entry of an accessible mount is its usage entry, with total,
    used, free and percentage.  When a per-mount query raises anything
    else, or the listing raises, the handler raises that exception. *)
Theorem get_disk_usage_permission_denied (os : os_state) :
  (forall ps,
      disk_partitions os = Return ps ->
      forallb (tolerated os) ps = true ->
      let result_text :=
        "Disk Usage Information:" ++ nl ++ nl ++
        join nl (map (shown_entry os) ps) in
      get_disk_usage os = Return (text_block result_text)
      /\ (forall arguments,
            call_tool os "get_disk_usage" arguments
            = Return (text_block result_text))
      /\ (forall p e,
            In p ps ->
            disk_usage os (mountpoint p) = Raise e ->
            shown_entry os p = refused_text p
            /\ In "Status: Permission denied" (split_lines (refused_text p))
            /\ In "Status: Permission denied" (split_lines result_text))
      /\ (forall p usage,
            In p ps ->
            disk_usage os (mountpoint p) = Return usage ->
            shown_entry os p = readable_text p usage)
      /\ ((forall p, In p ps ->
                     exists e, disk_usage os (mountpoint p) = Raise e) ->
          map (shown_entry os) ps = map refused_text ps))
  /\ (forall ps,
        disk_partitions os = Return ps ->
        forallb (tolerated os) ps = false ->
        exists p e,
          In p ps /\ disk_usage os (mountpoint p) = Raise e
          /\ isinstance e PermissionError = false
          /\ get_disk_usage os = Raise e)
  /\ (forall e, disk_partitions os = Raise e -> get_disk_usage os = Raise e).
Proof.
  split; [|split].
  - intros ps Hps H result_text.
    assert (Hmap : map (summary_entry os) ps = map (shown_entry os) ps)
      by (apply map_ext; intros p; apply summary_entry_shown).
    pose proof (get_disk_usage_tolerated os ps Hps H) as E.
    rewrite Hmap in E. fold result_text in E.
    split; [exact E|]. split; [intros arguments; exact E|].
    split; [|split].
    + intros p e Hin Hq.
      assert (Hs : shown_entry os p = refused_text p)
        by (unfold shown_entry; now rewrite Hq).
      split; [exact Hs|]. split; [exact (denied_entry_line p)|].
      unfold result_text. rewrite <- Hmap.
      now apply summary_denied_line with (p := p) (e := e).
    + intros p usage Hin Hq. unfold shown_entry. now rewrite Hq.
    + intros Hall. apply map_ext_in. intros p Hin.
      destruct (Hall p Hin) as [e Hq]. unfold shown_entry. now rewrite Hq.
  - intros ps Hps Hbad.
    destruct (handlers_raise_mount os ps Hps Hbad)
      as (p & e & Hin & Hq & Hc & Hraise & _).
    exists p, e. auto.
  - intros e He. now destruct (handlers_raise_listing os e He).
Qed.

Lemma get_disk_usage_permission_denied_witness :
  disk_partitions os_all_denied = Return [root_partition; usb_partition]
  /\ forallb (tolerated os_all_denied) [root_partition; usb_partition] = true
  /\ get_disk_usage os_all_denied
     = Return (text_block
                 ("Disk Usage Information:" ++ nl ++ nl ++
                  join nl (map refused_text [root_partition; usb_partition]))).
Proof.
  assert (Hps : disk_partitions os_all_denied
                = Return [root_partition; usb_partition]) by reflexivity.
  assert (Hok : forallb (tolerated os_all_denied)
                  [root_partition; usb_partition] = true) by reflexivity.
  split; [exact Hps|]. split; [exact Hok|].
  destruct (get_disk_usage_permission_denied os_all_denied) as [Hgood _].
  destruct (Hgood _ Hps Hok) as [Hret _].
  exact Hret.
Defined.

(** C3, as stated, fails: with a mount whose query raises an [OSError]
    that is not a [PermissionError], the registered tools
    [get_disk_usage] and [get_detailed_disk_info] raise instead of
    returning a payload. *)
Lemma call_tool_io_error_propagates :
  In "get_disk_usage" registry
  /\ In "get_detailed_disk_info" registry
  /\ call_tool os_io_error "get_disk_usage" [] = Raise (io_failure "/mnt/usb")
  /\ call_tool os_io_error "get_detailed_disk_info" []
     = Raise (io_failure "/mnt/usb")
  /\ returned (call_tool os_io_error "get_disk_usage" []) = None.
Proof.
  split; [simpl; auto|]. split; [simpl; auto|].
  split; [reflexivity|]. split; reflexivity.
Qed.

(** C3, amended: for every registered tool, when the listing of the
    partitions returns and every per-mount query either returns or raises
    a [PermissionError], [call_tool] returns one text block, whatever the
    I/O counters query does.  The text has one entry per partition, in
    order, and the entry of each refused mount is that mount's
    description followed by its "Status: Permission denied" line.  When a
    per-mount query raises anything else, or the listing raises, the two
    disk tools raise that exception; "health" returns in every case. *)
Theorem call_tool_registered_succeeds (os : os_state) (tool : string)
    (arguments : list (string * json)) :
  In tool registry ->
  (forall ps,
      disk_partitions os = Return ps ->
      forallb (tolerated os) ps = true ->
      exists result_text,
        call_tool os tool arguments = Return (text_block result_text)
        /\ layout os tool ps result_text
        /\ (tool <> "health" ->
            forall p e,
              In p ps ->
              disk_usage os (mountpoint p) = Raise e ->
              (shown_entry os p = refused_text p
               /\ shown_items os p
                  = [ described_text p; "  Status: Permission denied"; "" ])
              /\ In (denied_line tool) (split_lines result_text)))
  /\ (tool <> "health" ->
      forall ps,
        disk_partitions os = Return ps ->
        forallb (tolerated os) ps = false ->
        exists p e,
          In p ps /\ disk_usage os (mountpoint p) = Raise e
          /\ isinstance e PermissionError = false
          /\ call_tool os tool arguments = Raise e)
  /\ (tool <> "health" ->
      forall e,
        disk_partitions os = Raise e ->
        call_tool os tool arguments = Raise e)
  /\ (tool = "health" ->
      call_tool os tool arguments = Return (text_block health_text)).
Proof.
  intros Hin.
  assert (Hrefused : forall p e,
             disk_usage os (mountpoint p) = Raise e ->
             shown_entry os p = refused_text p
             /\ shown_items os p
                = [ described_text p; "  Status: Permission denied"; "" ]).
  { intros p e Hq. unfold shown_entry, shown_items. now rewrite Hq. }
  destruct (call_tool_dispatch os tool arguments Hin)
    as [[-> E]|[[-> E]|[-> E]]]; rewrite E.
  - split; [|split; [|split]].
    + intros ps _ _. exists health_text. split; [reflexivity|].
      split; [left; split; reflexivity|]. intros Hne. now contradiction Hne.
    + intros Hne. now contradiction Hne.
    + intros Hne. now contradiction Hne.
    + reflexivity.
  - split; [|split; [|split; [|discriminate]]].
    + intros ps Hps Hok.
      assert (Hmap : map (summary_entry os) ps = map (shown_entry os) ps)
        by (apply map_ext; intros p; apply summary_entry_shown).
      eexists. split; [exact (get_disk_usage_tolerated os ps Hps Hok)|].
      split; [right; left; split; [reflexivity|now rewrite Hmap]|].
      intros _ p e Hp Hq. split; [now apply Hrefused with (e := e)|].
      now apply summary_denied_line with (p := p) (e := e).
    + intros _ ps Hps Hbad.
      destruct (handlers_raise_mount os ps Hps Hbad)
        as (p & e & Hp & Hq & Hc & Hraise & _).
      exists p, e. auto.
    + intros _ e He. now destruct (handlers_raise_listing os e He).
  - split; [|split; [|split; [|discriminate]]].
    + intros ps Hps Hok.
      assert (Hmap : flat_map (detailed_entries os) ps
                     = flat_map (shown_items os) ps).
      { clear. induction ps as [|p ps IH]; [reflexivity|].
        cbn [flat_map]. now rewrite detailed_entries_shown, IH. }
      destruct (get_detailed_disk_info_tolerated os ps Hps Hok)
        as (item & Hitem & Hret).
      eexists. split; [exact Hret|].
      split.
      * right; right. split; [reflexivity|]. exists item.
        split; [exact Hitem|]. now rewrite Hmap.
      * intros _ p e Hp Hq. split; [now apply Hrefused with (e := e)|].
        apply in_split_lines_left.
        apply in_split_lines_join with (e := detailed_denied_entry).
        -- right. now apply detailed_entries_in with (p := p) (e := e).
        -- simpl. now left.
    + intros _ ps Hps Hbad.
      destruct (handlers_raise_mount os ps Hps Hbad)
        as (p & e & Hp & Hq & Hc & _ & Hraise).
      exists p, e. auto.
    + intros _ e He. now destruct (handlers_raise_listing os e He).
Qed.

Lemma call_tool_registered_succeeds_witness :
  In "get_detailed_disk_info" registry
  /\ disk_partitions os_mixed = Return [root_partition; usb_partition]
  /\ forallb (tolerated os_mixed) [root_partition; usb_partition] = true
  /\ exists result_text,
       call_tool os_mixed "get_detailed_disk_info" []
       = Return (text_block result_text)
       /\ layout os_mixed "get_detailed_disk_info"
            [root_partition; usb_partition] result_text.
Proof.
  assert (Hin : In "get_detailed_disk_info" registry) by (simpl; auto).
  assert (Hps : disk_partitions os_mixed
                = Return [root_partition; usb_partition]) by reflexivity.
  assert (Hok : forallb (tolerated os_mixed)
                  [root_partition; usb_partition] = true) by reflexivity.
  split; [exact Hin|]. split; [exact Hps|]. split; [exact Hok|].
  destruct (call_tool_registered_succeeds os_mixed "get_detailed_disk_info" []
              Hin) as (Hgood & _).
  destruct (Hgood _ Hps Hok) as (result_text & Hret & Hlayout & _).
  exists result_text. split; [exact Hret|exact Hlayout].
Defined.

(** C4: [list_tools] returns exactly three descriptors, named health,
    get_disk_usage, get_detailed_disk_info in that order, each with a
    non-empty name, a non-empty description, and an input schema whose
    [properties] is the empty object. *)
Theorem list_tools_descriptors :
  List.length list_tools = 3%nat
  /\ map name list_tools = ["health"; "get_disk_usage"; "get_detailed_disk_info"]
  /\ Forall (fun tool =>
               name tool <> ""
               /\ description tool <> ""
               /\ schema_properties (inputSchema tool) = Some (JObj []))
            list_tools.
Proof.
  split; [reflexivity|]. split; [reflexivity|].
  unfold list_tools.
  repeat constructor; simpl; discriminate.
Qed.

(** C5: calling "health" returns exactly one content block, of type
    "text", whose text is "Server is healthy and running" -- whatever the
    argument mapping and the state of the operating system. *)
Theorem call_tool_health (os : os_state) (arguments : list (string * json)) :
  call_tool os "health" arguments
  = Return [ {| type := "text"; text := "Server is healthy and running" |} ].
Proof. reflexivity. Qed.

(** C9: the result of [call_tool] does not depend on the argument mapping:
    under the same operating-system state, any two mappings give the same
    result, for every tool name. *)
Theorem call_tool_ignores_arguments (os : os_state) (tool : string)
    (arguments arguments' : list (string * json)) :
  call_tool os tool arguments = call_tool os tool arguments'.
Proof. reflexivity. Qed.


(** C10, as stated, fails: [get_detailed_disk_info] does not return in all
    cases.  With an I/O counters query that works, the handler still
    raises, and shows no I/O section, when the listing of the partitions
    raises or a per-mount query raises an exception that is not a
    [PermissionError]. *)
Lemma detailed_info_can_raise :
  disk_io_counters os_no_listing = Return (Some sample_io)
  /\ get_detailed_disk_info os_no_listing
     = Raise (Exc OSError "[Errno 5] Input/output error: '/proc/mounts'")
  /\ disk_io_counters os_io_error = Return (Some sample_io)
  /\ get_detailed_disk_info os_io_error = Raise (io_failure "/mnt/usb").
Proof. repeat split. Qed.

(** C10, amended: the I/O section of [get_detailed_disk_info] never makes
    the handler fail: an exception of the handler is one the listing of
    the partitions raised, or one a per-mount query raised.  Once the
    partition section has gone through -- the listing returned and every
    per-mount query returned or raised a [PermissionError] -- the handler
    returns a text block that ends with the line
    "=== Disk I/O Statistics ===" followed by one item: the error line with
    the exception's message when the counters query raised,
    "No disk I/O statistics available" when it returned no counters. *)
Theorem get_detailed_disk_info_io_section (os : os_state) :
  (forall e,
     get_detailed_disk_info os = Raise e ->
     disk_partitions os = Raise e
     \/ exists ps p,
          disk_partitions os = Return ps
          /\ In p ps
          /\ disk_usage os (mountpoint p) = Raise e
          /\ isinstance e PermissionError = false)
  /\ (forall ps,
      disk_partitions os = Return ps ->
      forallb (tolerated os) ps = true ->
      exists before item,
        let result_text := before ++ nl ++ io_header ++ nl ++ item in
        get_detailed_disk_info os = Return (text_block result_text)
        /\ In "=== Disk I/O Statistics ===" (split_lines result_text)
        /\ (forall e,
              disk_io_counters os = Raise e ->
              item = "Error getting disk I/O statistics: " ++ exc_str e
              /\ (split_lines (exc_str e) = [exc_str e] ->
                  In ("Error getting disk I/O statistics: " ++ exc_str e)
                     (split_lines result_text)))
        /\ (disk_io_counters os = Return None ->
            item = "No disk I/O statistics available"
            /\ In "No disk I/O statistics available"
                  (split_lines result_text))).
Proof.
  split.
  - intros e H. unfold get_detailed_disk_info in H.
    destruct (disk_partitions os) as [ps|e0] eqn:Hps; cbn [bind] in H;
      [|left; congruence].
    right. exists ps.
    destruct (detailed_loop os ps ["=== Disk Partitions ==="])
      as [items|e'] eqn:Hloop.
    + cbn [bind] in H.
      destruct (io_section_returns os) as [item Hitem].
      rewrite Hitem in H. discriminate H.
    + cbn [bind] in H. injection H as <-.
      apply detailed_loop_raises in Hloop as (p & Hin & Hq & Hc).
      exists p. auto.
  - intros ps Hps Hok.
    destruct (get_detailed_disk_info_tolerated os ps Hps Hok)
      as (item & Hitem & Hret).
    eexists. exists item. cbv zeta.
    split; [exact Hret|].
    split; [apply in_split_lines_right, in_split_lines_left; simpl; now left|].
    split.
    + intros e Hio. unfold io_section in Hitem.
      rewrite Hio, isinstance_Exception in Hitem. injection Hitem as <-.
      split; [reflexivity|]. intros Hone.
      do 2 apply in_split_lines_right.
      unfold io_error_prefix. set (m := exc_str e) in *. clearbody m.
      simpl. rewrite Hone. simpl. now left.
    + intros Hio. unfold io_section in Hitem. rewrite Hio in Hitem.
      injection Hitem as <-. split; [reflexivity|].
      do 2 apply in_split_lines_right. simpl. now left.
Qed.

Lemma get_detailed_disk_info_io_section_witness :
  disk_partitions os_no_counters = Return [root_partition]
  /\ forallb (tolerated os_no_counters) [root_partition] = true
  /\ exists before,
       get_detailed_disk_info os_no_counters
       = Return (text_block
                   (before ++ nl ++ io_header ++ nl ++
                    "Error getting disk I/O statistics: " ++
                    "[Errno 2] No such file or directory: '/proc/diskstats'")).
Proof.
  assert (Hps : disk_partitions os_no_counters = Return [root_partition])
    by reflexivity.
  assert (Hok : forallb (tolerated os_no_counters) [root_partition] = true)
    by reflexivity.
  split; [exact Hps|]. split; [exact Hok|].
  destruct (get_detailed_disk_info_io_section os_no_counters) as [_ Hio].
  destruct (Hio _ Hps Hok) as (before & item & Hret & _ & Herr & _).
  destruct (Herr _ eq_refl) as [-> _].
  exists before. exact Hret.
Defined.

(** ** Decimal digits *)

Lemma digit_value (v : N) :
  is_digit (digit_char v) = true
  /\ (N_of_ascii (digit_char v) - 48 = v mod 10)%N.
Proof.
  unfold digit_char.
  assert (H : (v mod 10 < 10)%N) by (apply N.mod_lt; discriminate).
  destruct (v mod 10)%N as [|p]; [split; reflexivity|].
  repeat (match goal with q : positive |- _ => destruct q end; try lia);
    split; reflexivity.
Qed.

Lemma all_digits_app (a b : string) :
  all_digits (a ++ b) = all_digits a && all_digits b.
Proof.
  induction a as [|c a IH]; simpl; [reflexivity|].
  now rewrite IH, andb_assoc.
Qed.

Lemma read_digits_app (a b : string) (acc : N) :
  read_digits (a ++ b) acc = read_digits b (read_digits a acc).
Proof. revert acc. induction a as [|c a IH]; intros acc; simpl; auto. Qed.

Lemma length_string_app (a b : string) :
  String.length (a ++ b) = (String.length a + String.length b)%nat.
Proof. induction a as [|c a IH]; simpl; auto. Qed.

Lemma fixed_digits_length (d : nat) (v : N) :
  String.length (fixed_digits d v) = d.
Proof.
  revert v. induction d as [|d IH]; intros v; simpl; [reflexivity|].
  rewrite length_string_app, IH. simpl. lia.
Qed.

Lemma fixed_digits_all_digits (d : nat) (v : N) :
  all_digits (fixed_digits d v) = true.
Proof.
  revert v. induction d as [|d IH]; intros v; simpl; [reflexivity|].
  rewrite all_digits_app, IH. simpl.
  now rewrite (proj1 (digit_value v)).
Qed.

Lemma fixed_digits_read (d : nat) (v acc : N) :
  (read_digits (fixed_digits d v) acc
   = acc * 10 ^ N.of_nat d + v mod 10 ^ N.of_nat d)%N.
Proof.
  revert v acc. induction d as [|d IH]; intros v acc.
  - simpl. rewrite N.mod_1_r. lia.
  - cbn [fixed_digits]. rewrite read_digits_app, IH. cbn [read_digits].
    rewrite (proj2 (digit_value v)).
    rewrite Nat2N.inj_succ, N.pow_succ_r', N.Div0.mod_mul_r. lia.
Qed.

(** The digits of [str(n)] *)

Lemma uint_string_all_digits (u : uint) :
  all_digits (NilEmpty.string_of_uint u) = true.
Proof. induction u; simpl; auto. Qed.

Lemma of_uint_cons (u : uint) :
  forall d : uint -> uint,
    In d [D0; D1; D2; D3; D4; D5; D6; D7; D8; D9] ->
    N.of_uint (d u)
    = (N.of_uint u + Unsigned.hd (d Nil) * 10 ^ Unsigned.usize u)%N.
Proof.
  intros d Hd. unfold N.of_uint. rewrite !Unsigned.of_uint_alt.
  simpl in Hd.
  repeat (destruct Hd as [<-|Hd];
          [unfold rev; simpl revapp; rewrite Unsigned.of_lu_revapp;
           simpl Unsigned.of_lu; simpl Unsigned.hd; reflexivity|]).
  contradiction.
Qed.

Lemma uint_string_read (u : uint) (acc : N) :
  (read_digits (NilEmpty.string_of_uint u) acc
   = acc * 10 ^ Unsigned.usize u + N.of_uint u)%N.
Proof.
  revert acc. induction u; intros acc;
    [simpl; lia | ..];
    cbn [NilEmpty.string_of_uint read_digits]; rewrite IHu;
    match goal with
    | |- context [N.of_uint (?d u)] =>
        rewrite (of_uint_cons u d) by (simpl; tauto)
    end;
    cbn [Unsigned.usize Unsigned.hd]; rewrite N.pow_succ_r';
    match goal with
    | |- context [N_of_ascii ?c] =>
        let v := eval compute in (N_of_ascii c) in
        change (N_of_ascii c) with v
    end; lia.
Qed.

Lemma to_uint_nonnil (n : N) : N.to_uint n <> Nil.
Proof.
  destruct n as [|p]; simpl; [discriminate|apply Unsigned.to_uint_nonnil].
Qed.

Lemma str_int_unfold (n : N) :
  str_int n = NilEmpty.string_of_uint (N.to_uint n).
Proof.
  unfold str_int, NilZero.string_of_uint.
  pose proof (to_uint_nonnil n) as H.
  destruct (N.to_uint n); [contradiction|reflexivity ..].
Qed.

Lemma str_int_all_digits (n : N) : all_digits (str_int n) = true.
Proof. rewrite str_int_unfold. apply uint_string_all_digits. Qed.

Lemma str_int_nonempty (n : N) : str_int n <> "".
Proof.
  rewrite str_int_unfold. pose proof (to_uint_nonnil n) as H.
  destruct (N.to_uint n); [contradiction|discriminate ..].
Qed.

Lemma str_int_read (n : N) : decimal_value (str_int n) = n.
Proof.
  unfold decimal_value. rewrite str_int_unfold, uint_string_read.
  rewrite DecimalN.Unsigned.of_to. lia.
Qed.

(** ** Rounding *)

Lemma round_half_even_div_nearest (a b : N) :
  (0 < b)%N ->
  (- Z.of_N b
   <= 2 * (Z.of_N (round_half_even_div a b) * Z.of_N b - Z.of_N a)
   <= Z.of_N b)%Z.
Proof.
  intros Hb. unfold round_half_even_div.
  pose proof (N.div_mod a b ltac:(lia)) as Hdiv.
  pose proof (N.mod_lt a b ltac:(lia)) as Hlt.
  set (q := (a / b)%N) in *. set (r := (a mod b)%N) in *.
  destruct (N.compare_spec (2 * r) b) as [He|Hl|Hg];
    [destruct (N.even q)|..]; nia.
Qed.

(** [format_f] writes a minus sign for a negative float, then the digits
    of [scaled_round]. *)
Lemma format_f_renders (d : nat) (x : pyfloat) :
  exists body,
    format_f d x = (if fneg x then "-" else "") ++ body
    /\ renders d body (scaled_round d x).
Proof.
  unfold format_f. set (v := scaled_round d x).
  exists (str_int (v / 10 ^ N.of_nat d) ++ "." ++ fixed_digits d v).
  split; [reflexivity|].
  exists (str_int (v / 10 ^ N.of_nat d)), (fixed_digits d v).
  split; [reflexivity|].
  split; [apply str_int_nonempty|].
  split; [apply str_int_all_digits|].
  split; [apply fixed_digits_all_digits|].
  split; [apply fixed_digits_length|].
  rewrite str_int_read. unfold decimal_value. rewrite fixed_digits_read.
  assert (Hp : (10 ^ N.of_nat d <> 0)%N) by (apply N.pow_nonzero; discriminate).
  pose proof (N.div_mod v (10 ^ N.of_nat d) Hp). lia.
Qed.

(** [scaled_round d x] is an integer nearest to [fmant x * 2^fexp x * 10^d]:
    exactly that number when the exponent is not negative, within one half
    of it otherwise. *)
Lemma scaled_round_nearest (d : nat) (x : pyfloat) :
  let up := (2 ^ Z.max 0 (fexp x))%Z in
  let down := (2 ^ Z.max 0 (- fexp x))%Z in
  (- down
   <= 2 * (Z.of_N (scaled_round d x) * down
           - Z.of_N (fmant x) * up * 10 ^ Z.of_nat d)
   <= down)%Z.
Proof.
  unfold scaled_round. destruct (fexp x) as [|p|p] eqn:He; cbv zeta.
  - change (Z.max 0 0) with 0%Z. change (Z.max 0 (- 0)) with 0%Z.
    rewrite N2Z.inj_mul, N2Z.inj_mul, N2Z.inj_pow, N2Z.inj_pow, nat_N_Z.
    change (Z.to_N 0) with 0%N. simpl (Z.of_N 0). simpl (Z.of_N 2).
    simpl (Z.of_N 10). rewrite Z.pow_0_r. lia.
  - rewrite (Z.max_r 0 (Z.pos p)), (Z.max_l 0 (- Z.pos p)) by lia.
    rewrite N2Z.inj_mul, N2Z.inj_mul, N2Z.inj_pow, N2Z.inj_pow, nat_N_Z.
    rewrite Z2N.id by lia. simpl (Z.of_N 2). simpl (Z.of_N 10).
    rewrite Z.pow_0_r. lia.
  - rewrite (Z.max_l 0 (Z.neg p)), (Z.max_r 0 (- Z.neg p)) by lia.
    pose proof (round_half_even_div_nearest
                  (fmant x * 10 ^ N.of_nat d) (2 ^ N.pos p)) as H.
    assert (Hpos : (0 < 2 ^ N.pos p)%N)
      by (apply N.neq_0_lt_0, N.pow_nonzero; discriminate).
    specialize (H Hpos).
    rewrite N2Z.inj_mul, N2Z.inj_pow, N2Z.inj_pow, nat_N_Z in H.
    simpl (Z.of_N 2) in H. simpl (Z.of_N 10) in H.
    change (Z.of_N (N.pos p)) with (Z.pos p) in H.
    change (- Z.neg p)%Z with (Z.pos p). rewrite Z.pow_0_r. lia.
Qed.

(** [int_truediv_pow2 n k] is [m * 2^(s - k)] for a mantissa [m] with
    [|m * 2^s - n| <= ulp53 n / 2], where [s] counts the bits of [n]
    beyond 53. *)
Lemma int_truediv_pow2_nearest (n k : N) :
  let s := (N.size n - 53)%N in
  let x := int_truediv_pow2 n k in
  fneg x = false
  /\ fexp x = (Z.of_N s - Z.of_N k)%Z
  /\ (- Z.of_N (ulp53 n)
      <= 2 * (Z.of_N (fmant x) * 2 ^ Z.of_N s - Z.of_N n)
      <= Z.of_N (ulp53 n))%Z.
Proof.
  cbv zeta. unfold int_truediv_pow2, ulp53.
  destruct (N.leb_spec (N.size n) 53) as [Hle|Hgt]; cbn [fneg fexp fmant].
  - replace (N.size n - 53)%N with 0%N by lia.
    split; [reflexivity|]. split; [reflexivity|]. simpl (Z.of_N 0).
    rewrite Z.pow_0_r. lia.
  - split; [reflexivity|]. split; [reflexivity|].
    set (s := (N.size n - 53)%N).
    assert (Hpos : (0 < 2 ^ s)%N)
      by (apply N.neq_0_lt_0, N.pow_nonzero; discriminate).
    pose proof (round_half_even_div_nearest n (2 ^ s) Hpos) as H.
    rewrite N2Z.inj_pow in H. simpl (Z.of_N 2) in H.
    rewrite N2Z.inj_pow. simpl (Z.of_N 2). exact H.
Qed.

Lemma ulp53_exact (n : N) : (n < 2 ^ 53)%N -> ulp53 n = 0%N.
Proof.
  intros H. unfold ulp53.
  destruct (N.leb_spec (N.size n) 53) as [_|Hgt]; [reflexivity|].
  exfalso. destruct n as [|p]; [simpl in Hgt; lia|].
  rewrite N.size_log2 in Hgt by discriminate.
  assert (Hlog : (N.log2 (N.pos p) < 53)%N)
    by (apply N.log2_lt_pow2; [lia|exact H]).
  lia.
Qed.

(** The number [gib2] writes is within half a hundredth of [bytes / 2^30],
    up to the rounding of the division. *)
Lemma gib2_nearest (bytes : N) :
  let v := scaled_round 2 (int_truediv_pow2 bytes 30) in
  (2 * Z.abs (Z.of_N v * 2 ^ 30 - 100 * Z.of_N bytes)
   <= 2 ^ 30 + 100 * Z.of_N (ulp53 bytes))%Z.
Proof.
  cbv zeta.
  destruct (int_truediv_pow2_nearest bytes 30) as (_ & He & Hm).
  pose proof (scaled_round_nearest 2 (int_truediv_pow2 bytes 30)) as Hv.
  cbv zeta in Hv, Hm. rewrite He in Hv.
  set (v := Z.of_N (scaled_round 2 (int_truediv_pow2 bytes 30))) in *.
  set (m := Z.of_N (fmant (int_truediv_pow2 bytes 30))) in *.
  set (s := Z.of_N (N.size bytes - 53)) in *.
  assert (Hs : (0 <= s)%Z) by (unfold s; lia).
  change (Z.of_N 30) with 30%Z in Hv.
  change (10 ^ Z.of_nat 2)%Z with 100%Z in Hv.
  set (B := (2 ^ s)%Z) in *.
  assert (HB : (0 < B)%Z) by (unfold B; apply Z.pow_pos_nonneg; lia).
  destruct (Z.le_gt_cases s 30) as [Hle|Hgt].
  - rewrite (Z.max_l 0 (s - 30)), (Z.max_r 0 (- (s - 30))) in Hv by lia.
    rewrite Z.pow_0_r in Hv.
    set (A := (2 ^ (- (s - 30)))%Z) in *.
    assert (HAB : (A * B = 2 ^ 30)%Z).
    { unfold A, B. rewrite <- Z.pow_add_r by lia. f_equal. lia. }
    assert (HA : (0 < A)%Z) by (unfold A; apply Z.pow_pos_nonneg; lia).
    rewrite <- HAB. clearbody A B v m. clear He Hs Hle HAB.
    assert (Hsum : (- (A * B + 100 * Z.of_N (ulp53 bytes))
                    <= 2 * (v * (A * B) - 100 * Z.of_N bytes)
                    <= A * B + 100 * Z.of_N (ulp53 bytes))%Z) by nia.
    lia.
  - rewrite (Z.max_r 0 (s - 30)), (Z.max_l 0 (- (s - 30))) in Hv by lia.
    rewrite Z.pow_0_r in Hv.
    set (U := (2 ^ (s - 30))%Z) in *.
    assert (HUB : (U * 2 ^ 30 = B)%Z).
    { unfold U, B. rewrite <- Z.pow_add_r by lia. f_equal. lia. }
    assert (Hveq : (v = m * U * 100)%Z) by lia.
    assert (HP : (0 < 2 ^ 30)%Z) by reflexivity.
    set (P := (2 ^ 30)%Z) in *.
    clearbody P U B v m. clear He Hs Hgt Hv.
    assert (Hsum : (- (100 * Z.of_N (ulp53 bytes))
                    <= 2 * (v * P - 100 * Z.of_N bytes)
                    <= 100 * Z.of_N (ulp53 bytes))%Z) by nia.
    lia.
Qed.

(** ** The claim about number formats *)

(** C6: every byte count the two handlers show (total, used, free) is
    written by the one renderer [gib2], as digits, a point and exactly two
    digits; read back, the number is within half a hundredth of
    [bytes / 2^30], up to the rounding of the division for counts of more
    than 53 bits.  Every usage percentage is written by [pct1], as an
    optional sign, digits, a point and exactly one digit, the tenth
    nearest to the percentage. *)
Theorem numeric_formatting :
  (forall bytes, exists v,
      renders 2 (gib2 bytes) v
      /\ (2 * Z.abs (Z.of_N v * 2 ^ 30 - 100 * Z.of_N bytes)
          <= 2 ^ 30 + 100 * Z.of_N (ulp53 bytes))%Z)
  /\ (forall x, exists body v,
        pct1 x = (if fneg x then "-" else "") ++ body
        /\ renders 1 body v
        /\ (2 * Z.abs (Z.of_N v * 2 ^ Z.max 0 (- fexp x)
                       - 10 * Z.of_N (fmant x) * 2 ^ Z.max 0 (fexp x))
            <= 2 ^ Z.max 0 (- fexp x))%Z)
  /\ (forall partition usage,
        usage_entry partition usage
        = "Device: " ++ device partition ++ nl ++
          "Mountpoint: " ++ mountpoint partition ++ nl ++
          "Filesystem: " ++ fstype partition ++ nl ++
          "Total: " ++ gib2 (total usage) ++ " GB" ++ nl ++
          "Used: " ++ gib2 (used usage) ++ " GB" ++ nl ++
          "Free: " ++ gib2 (free usage) ++ " GB" ++ nl ++
          "Usage: " ++ pct1 (percent usage) ++ "%" ++ nl ++ rule)
  /\ (forall usage,
        detailed_usage_entry usage
        = "  Total: " ++ gib2 (total usage) ++ " GB" ++ nl ++
          "  Used: " ++ gib2 (used usage) ++ " GB ("
            ++ pct1 (percent usage) ++ "%)" ++ nl ++
          "  Free: " ++ gib2 (free usage) ++ " GB" ++ nl).
Proof.
  split; [|split; [|split; reflexivity]].
  - intros bytes.
    exists (scaled_round 2 (int_truediv_pow2 bytes 30)).
    split; [|apply gib2_nearest].
    destruct (format_f_renders 2 (int_truediv_pow2 bytes 30))
      as (body & Hfmt & Hren).
    destruct (int_truediv_pow2_nearest bytes 30) as (Hneg & _).
    cbv zeta in Hneg. rewrite Hneg in Hfmt.
    unfold gib2. rewrite Hfmt. exact Hren.
  - intros x.
    destruct (format_f_renders 1 x) as (body & Hfmt & Hren).
    exists body, (scaled_round 1 x).
    split; [exact Hfmt|]. split; [exact Hren|].
    pose proof (scaled_round_nearest 1 x) as Hv. cbv zeta in Hv.
    change (10 ^ Z.of_nat 1)%Z with 10%Z in Hv.
    lia.
Qed.

(** ** Events of client blocks *)

Lemma events_bind {A B} (m : io A) (k : A -> io B) :
  events (IO.bind m k)
  = (events m ++ match outcome m with
                 | Return a => events (k a)
                 | Raise _ => []
                 end)%list.
Proof.
  destruct m as [t [a|e]]; unfold events, outcome; simpl.
  - now destruct (k a).
  - now rewrite app_nil_r.
Qed.

Lemma outcome_bind {A B} (m : io A) (k : A -> io B) :
  outcome (IO.bind m k)
  = match outcome m with
    | Return a => outcome (k a)
    | Raise e => Raise e
    end.
Proof.
  destruct m as [t [a|e]]; unfold outcome; simpl; [now destruct (k a)|reflexivity].
Qed.

Lemma events_try_except {A} (body : io A) (cls : exc_class)
    (handler : exc -> io A) :
  events (IO.try_except body cls handler)
  = (events body ++ match outcome body with
                    | Raise e => if isinstance e cls then events (handler e)
                                 else []
                    | Return _ => []
                    end)%list.
Proof.
  destruct body as [t [a|e]]; unfold events, outcome; simpl.
  - now rewrite app_nil_r.
  - destruct (isinstance e cls); simpl; [now destruct (handler e)|].
    now rewrite app_nil_r.
Qed.

Lemma outcome_try_except {A} (body : io A) (cls : exc_class)
    (handler : exc -> io A) :
  outcome (IO.try_except body cls handler)
  = match outcome body with
    | Raise e => if isinstance e cls then outcome (handler e) else Raise e
    | Return a => Return a
    end.
Proof.
  destruct body as [t [a|e]]; unfold outcome; simpl; [reflexivity|].
  destruct (isinstance e cls); simpl; [now destruct (handler e)|reflexivity].
Qed.

Lemma bind_ext {A B} (m : io A) (k k' : A -> io B) :
  (forall a, k a = k' a) -> IO.bind m k = IO.bind m k'.
Proof.
  intros H. destruct m as [t [a|e]]; simpl; [now rewrite H|reflexivity].
Qed.

Lemma bind_ret_r (m : io unit) : IO.bind m (fun _ => IO.ret tt) = m.
Proof.
  destruct m as [t [[]|e]]; simpl; [now rewrite app_nil_r|reflexivity].
Qed.

Lemma posted_app (t t' : list event) :
  posted (t ++ t') = (posted t ++ posted t')%list.
Proof.
  induction t as [|ev t IH]; simpl; [reflexivity|].
  destruct ev; simpl; now rewrite IH.
Qed.

Lemma printed_app (t t' : list event) :
  printed (t ++ t') = (printed t ++ printed t')%list.
Proof.
  induction t as [|ev t IH]; simpl; [reflexivity|].
  destruct ev; simpl; now rewrite IH.
Qed.

Lemma printed_in (line : string) (t : list event) :
  In (Print line) t -> In line (printed t).
Proof.
  induction t as [|ev t IH]; simpl; [auto|].
  intros [->|H]; [simpl; auto|].
  destruct ev; simpl; auto.
Qed.

(** ** Blocks that post nothing *)

Lemma quiet_ret {A} (a : A) : quiet (IO.ret a).
Proof. reflexivity. Qed.

Lemma quiet_lift {A} (m : result A) : quiet (IO.lift m).
Proof. reflexivity. Qed.

Lemma quiet_print (line : string) : quiet (print line).
Proof. reflexivity. Qed.

Lemma quiet_bind {A B} (m : io A) (k : A -> io B) :
  quiet m -> (forall a, quiet (k a)) -> quiet (IO.bind m k).
Proof.
  unfold quiet. intros Hm Hk. rewrite events_bind, posted_app, Hm.
  destruct (outcome m); [apply Hk|reflexivity].
Qed.

Lemma quiet_try_except {A} (body : io A) (cls : exc_class)
    (handler : exc -> io A) :
  quiet body -> (forall e, quiet (handler e)) ->
  quiet (IO.try_except body cls handler).
Proof.
  unfold quiet. intros Hb Hh. rewrite events_try_except, posted_app, Hb.
  destruct (outcome body) as [a|e]; [reflexivity|].
  destruct (isinstance e cls); [apply Hh|reflexivity].
Qed.

Lemma quiet_for_each {A} (xs : list A) (body : A -> io unit) :
  (forall x, quiet (body x)) -> quiet (IO.for_each xs body).
Proof.
  intros H. induction xs as [|x xs IH]; simpl.
  - apply quiet_ret.
  - apply quiet_bind; auto.
Qed.

Ltac quiet_step :=
  first
    [ apply quiet_ret | apply quiet_lift | apply quiet_print
    | apply quiet_bind; [|intros ?]
    | apply quiet_try_except; [|intros ?]
    | apply quiet_for_each; intros ?
    | match goal with
      | |- quiet (if ?c then _ else _) => destruct c
      end ].

Lemma handle_quiet (repr : json -> string) (s : step) (resp : response) :
  quiet (handle repr s resp).
Proof.
  destruct s; unfold handle, handle_health, handle_content, handle_list,
    preview_content, preview_tools; repeat quiet_step.
Qed.

(** ** The run as a loop over the steps *)

Lemma exchanges_run_steps (repr : json -> string) (net : transport) :
  exchanges repr net = run_steps repr net all_steps.
Proof.
  unfold exchanges, all_steps. cbn [run_steps].
  repeat (apply bind_ext; intros ?).
  symmetry. apply bind_ret_r.
Qed.

Lemma events_post (net : transport) (req : request) :
  events (post net req) = [Post req] /\ outcome (post net req) = net req.
Proof.
  unfold post. rewrite events_bind, outcome_bind. simpl. auto.
Qed.

Lemma events_run_steps_cons (repr : json -> string) (net : transport)
    (s : step) (rest : list step) :
  events (run_steps repr net (s :: rest))
  = Print (banner s) :: Post (request_of s)
      :: match net (request_of s) with
         | Raise _ => []
         | Return resp =>
             (events (handle repr s resp)
              ++ match outcome (handle repr s resp) with
                 | Return _ => events (run_steps repr net rest)
                 | Raise _ => []
                 end)%list
         end.
Proof.
  cbn [run_steps]. rewrite events_bind. cbn [print IO.emit events outcome fst snd].
  rewrite events_bind.
  destruct (events_post net (request_of s)) as [-> ->].
  destruct (net (request_of s)) as [resp|e]; [|reflexivity].
  now rewrite events_bind.
Qed.

Lemma outcome_run_steps_cons (repr : json -> string) (net : transport)
    (s : step) (rest : list step) :
  outcome (run_steps repr net (s :: rest))
  = match net (request_of s) with
    | Raise e => Raise e
    | Return resp =>
        match outcome (handle repr s resp) with
        | Return _ => outcome (run_steps repr net rest)
        | Raise e => Raise e
        end
    end.
Proof.
  cbn [run_steps]. rewrite outcome_bind. cbn [print IO.emit events outcome fst snd].
  rewrite outcome_bind.
  destruct (events_post net (request_of s)) as [_ ->].
  destruct (net (request_of s)) as [resp|e]; [|reflexivity].
  now rewrite outcome_bind.
Qed.

Lemma posted_run_steps (repr : json -> string) (net : transport)
    (steps : list step) :
  posted (events (run_steps repr net steps)) = sent_until repr net steps.
Proof.
  induction steps as [|s rest IH]; [reflexivity|].
  rewrite events_run_steps_cons. cbn [posted sent_until]. f_equal.
  unfold step_aborts.
  destruct (net (request_of s)) as [resp|e]; [|reflexivity].
  rewrite posted_app, (handle_quiet repr s resp).
  destruct (outcome (handle repr s resp)); [exact IH|reflexivity].
Qed.

Lemma request_of_inj (s s' : step) : request_of s = request_of s' -> s = s'.
Proof. destruct s, s'; intros H; try reflexivity; discriminate H. Qed.

(** What a reached step does with its response is part of the run. *)
Lemma reached_events (repr : json -> string) (net : transport)
    (steps : list step) (s : step) (resp : response) (ev : event) :
  In (request_of s) (sent_until repr net steps) ->
  net (request_of s) = Return resp ->
  In ev (events (handle repr s resp)) ->
  In ev (events (run_steps repr net steps)).
Proof.
  induction steps as [|s0 rest IH]; intros Hin Hnet Hev; [contradiction|].
  rewrite events_run_steps_cons. right; right.
  cbn [sent_until] in Hin. destruct Hin as [Heq|Hin].
  - apply request_of_inj in Heq. subst s0. rewrite Hnet.
    apply in_or_app. now left.
  - unfold step_aborts in Hin.
    destruct (net (request_of s0)) as [resp0|e]; [|contradiction].
    apply in_or_app. right.
    destruct (outcome (handle repr s0 resp0)); [auto|contradiction].
Qed.

(** An exception out of a reached step's exchange is the outcome of the
    loop. *)
Lemma reached_raise (repr : json -> string) (net : transport)
    (steps : list step) (s : step) (e : exc) :
  In (request_of s) (sent_until repr net steps) ->
  net (request_of s) = Raise e ->
  outcome (run_steps repr net steps) = Raise e.
Proof.
  induction steps as [|s0 rest IH]; intros Hin Hnet; [contradiction|].
  rewrite outcome_run_steps_cons.
  cbn [sent_until] in Hin. destruct Hin as [Heq|Hin].
  - apply request_of_inj in Heq. subst s0. now rewrite Hnet.
  - unfold step_aborts in Hin.
    destruct (net (request_of s0)) as [resp0|e0]; [|contradiction].
    destruct (outcome (handle repr s0 resp0)); [auto|contradiction].
Qed.

(** The events of a whole run: two banner lines, the exchanges, and the
    report of the exception that ended them, if any. *)
Lemma events_test_http_mcp_server (repr : json -> string) (net : transport) :
  events (test_http_mcp_server repr net)
  = (Print "Testing HTTP MCP Filesystem Usage Server..."
       :: Print "Server URL: http://localhost:8000/mcp"
       :: events (run_steps repr net all_steps)
     ++ match outcome (run_steps repr net all_steps) with
        | Raise e => [Print ("❌ Client test failed: " ++ exc_str e); PrintExc e]
        | Return _ => []
        end)%list.
Proof.
  unfold test_http_mcp_server. rewrite events_bind.
  cbn [print IO.emit events outcome fst snd].
  rewrite events_bind. cbn [print IO.emit events outcome fst snd].
  rewrite events_try_except, exchanges_run_steps.
  destruct (outcome (run_steps repr net all_steps)) as [u|e]; [reflexivity|].
  now rewrite isinstance_Exception.
Qed.

Lemma posted_test_http_mcp_server (repr : json -> string) (net : transport) :
  posted (events (test_http_mcp_server repr net))
  = sent_until repr net all_steps.
Proof.
  rewrite events_test_http_mcp_server. cbn [posted].
  rewrite posted_app, posted_run_steps.
  destruct (outcome (run_steps repr net all_steps)); cbn [posted];
    apply app_nil_r.
Qed.

(** ** Responses the client survives *)

Lemma handle_failed_status (repr : json -> string) (s : step)
    (resp : response) :
  status_code resp <> 200%N ->
  outcome (handle repr s resp) = Return tt
  /\ In (Print (failure_line s resp)) (events (handle repr s resp)).
Proof.
  intros Hst. apply N.eqb_neq in Hst.
  destruct s; unfold handle, handle_health, handle_content, handle_list,
    failure_line; rewrite Hst; simpl; auto.
Qed.

Lemma handle_error_variant (repr : json -> string) (s : step)
    (resp : response) (data : json) :
  error_variant resp data ->
  outcome (handle repr s resp) = Return tt
  /\ (s <> Health ->
      In (Print (structure_line repr data)) (events (handle repr s resp))).
Proof.
  intros (Hst & Hbody & fields & err & -> & Hres & _).
  destruct s; unfold handle, handle_health, handle_content, handle_list,
    preview_content, preview_tools, structure_line;
    rewrite Hst, ?Hbody; simpl; rewrite ?Hres; simpl;
    (split; [reflexivity|]); intros Hs; try contradiction; auto 6.
Qed.

(** The health exchange never looks into the body: with status 200 it
    prints the status, the success line and the raw text. *)
Lemma handle_health_200 (repr : json -> string) (resp : response) :
  status_code resp = 200%N ->
  events (handle repr Health resp)
  = [ Print (status_line Health resp); Print (success_line Health);
      Print ("Response: " ++ body_text resp) ].
Proof.
  intros Hst. unfold handle, handle_health, status_line, success_line.
  rewrite Hst. reflexivity.
Qed.

Lemma not_aborting (repr : json -> string) (net : transport) (s : step)
    (resp : response) :
  net (request_of s) = Return resp ->
  outcome (handle repr s resp) = Return tt ->
  step_aborts repr net s = false.
Proof. intros Hnet Hout. unfold step_aborts. now rewrite Hnet, Hout. Qed.

Lemma sent_until_steps (repr : json -> string) (net : transport)
    (steps : list step) :
  sent_until repr net steps = map request_of (steps_until repr net steps).
Proof.
  induction steps as [|s rest IH]; [reflexivity|].
  cbn [sent_until steps_until map]. f_equal.
  destruct (step_aborts repr net s); [reflexivity|exact IH].
Qed.

Lemma reached_step (repr : json -> string) (net : transport)
    (steps : list step) (s : step) :
  In (request_of s) (sent_until repr net steps) ->
  In s (steps_until repr net steps).
Proof.
  rewrite sent_until_steps, in_map_iff.
  intros (s0 & Heq & Hin). apply request_of_inj in Heq. now subst s0.
Qed.

Ltac split_aborts repr net :=
  destruct (step_aborts repr net Health) eqn:?;
  destruct (step_aborts repr net DiskUsage) eqn:?;
  destruct (step_aborts repr net DetailedInfo) eqn:?;
  destruct (step_aborts repr net ListTools) eqn:?.

Ltac no_such_step :=
  repeat match goal with
         | H : _ \/ _ |- _ => destruct H
         | H : False |- _ => contradiction
         | H : _ = _ :> step |- _ => discriminate H
         | H : _ = _ :> bool |- _ => discriminate H
         end.

(** After a reached step that does not abort, the next request goes out. *)
Lemma sent_until_next (repr : json -> string) (net : transport)
    (s s' : step) :
  In (request_of s) (sent_until repr net all_steps) ->
  step_aborts repr net s = false ->
  next s = Some s' ->
  In (request_of s') (sent_until repr net all_steps).
Proof.
  intros Hin Hgo Hnext. apply reached_step in Hin.
  rewrite sent_until_steps. apply in_map.
  unfold all_steps in *. cbn [steps_until] in *.
  revert Hin Hgo.
  destruct s; simpl in Hnext; try discriminate Hnext;
    injection Hnext as <-;
    split_aborts repr net; cbn [In]; intros Hin Hgo;
    no_such_step; tauto.
Qed.

(** A reached step that aborts is the last one whose request goes out. *)
Lemma sent_until_stop (repr : json -> string) (net : transport) (s : step) :
  In (request_of s) (sent_until repr net all_steps) ->
  step_aborts repr net s = true ->
  sent_until repr net all_steps = firstn (S (position s)) fixed_requests.
Proof.
  intros Hin Hstop. apply reached_step in Hin.
  rewrite sent_until_steps. unfold fixed_requests.
  rewrite firstn_map. f_equal.
  unfold all_steps in *. cbn [steps_until] in *.
  revert Hin Hstop.
  destruct s; split_aborts repr net; cbn [In]; intros Hin Hstop;
    no_such_step; reflexivity.
Qed.

Lemma sent_until_prefix (repr : json -> string) (net : transport) :
  exists k, (1 <= k <= 4)%nat
            /\ sent_until repr net all_steps = firstn k fixed_requests.
Proof.
  rewrite sent_until_steps. unfold fixed_requests, all_steps.
  cbn [steps_until].
  destruct (step_aborts repr net Health);
    [exists 1%nat; split; [lia|reflexivity]|].
  destruct (step_aborts repr net DiskUsage);
    [exists 2%nat; split; [lia|reflexivity]|].
  destruct (step_aborts repr net DetailedInfo);
    [exists 3%nat; split; [lia|reflexivity]|].
  exists 4%nat. split; [lia|].
  now destruct (step_aborts repr net ListTools).
Qed.

(** ** Claims about the client *)

(** C7, as stated, fails in two of its cases.  Connection failure: with no
    server listening, the [post] of the first exchange raises, the run ends
    in the outer handler, and the three later requests are never sent.
    Error-variant response to the health request: the client does not decode
    the body of that exchange; it prints the status, the success line and
    the raw text, and no line that reports a failure. *)
Lemma driver_failure_counterexamples :
  (net_refused (request_of Health)
     = Raise (Exc ConnectError "All connection attempts failed")
   /\ posted (events (test_http_mcp_server sample_repr net_refused))
      = [health_request]
   /\ ~ In (request_of DiskUsage)
          (posted (events (test_http_mcp_server sample_repr net_refused)))
   /\ printed (events (test_http_mcp_server sample_repr net_refused))
      = [ "Testing HTTP MCP Filesystem Usage Server...";
          "Server URL: http://localhost:8000/mcp";
          nl ++ "1. Testing health endpoint...";
          "❌ Client test failed: All connection attempts failed" ])
  /\ (net_error (request_of Health) = Return (json_response error_body)
      /\ error_variant (json_response error_body) error_body
      /\ events (handle sample_repr Health (json_response error_body))
         = [ Print "Health response status: 200";
             Print "✅ Health check successful!";
             Print "Response: {...}" ]
      /\ firstn 7 (events (test_http_mcp_server sample_repr net_error))
         = [ Print "Testing HTTP MCP Filesystem Usage Server...";
             Print "Server URL: http://localhost:8000/mcp";
             Print (nl ++ "1. Testing health endpoint...");
             Post health_request;
             Print "Health response status: 200";
             Print "✅ Health check successful!";
             Print "Response: {...}" ]).
Proof.
  split.
  - split; [reflexivity|].
    assert (E : posted (events (test_http_mcp_server sample_repr net_refused))
                = [health_request]) by reflexivity.
    split; [exact E|]. split; [|reflexivity].
    rewrite E. simpl. intros [H|[]]. discriminate H.
  - split; [reflexivity|]. split; [|split; reflexivity].
    split; [reflexivity|]. split; [reflexivity|].
    eexists. eexists. split; [reflexivity|]. split; reflexivity.
Qed.

(** C7, amended: an exchange that is reached and gets a response with a
    status other than 200 is reported with its "failed" line and the status,
    does not abort the run, and is followed by the request of the next
    exchange.  An exchange that is reached and gets an error-variant
    response does not abort the run either and is followed by the next
    request; the three exchanges that decode the body report it with the
    "Unexpected response structure" line, while the health exchange prints
    exactly the status line, its success line and the raw text.  An
    exception raised by [post] is reported once as "Client test failed" and
    ends the run: no later request is sent. *)
Theorem driver_failed_exchange (repr : json -> string) (net : transport)
    (s : step) :
  let run := test_http_mcp_server repr net in
  In (request_of s) (posted (events run)) ->
  (forall resp,
      net (request_of s) = Return resp ->
      status_code resp <> 200%N ->
      In (failure_line s resp) (printed (events run))
      /\ step_aborts repr net s = false
      /\ (forall s', next s = Some s' ->
                     In (request_of s') (posted (events run))))
  /\ (forall resp data,
        net (request_of s) = Return resp ->
        error_variant resp data ->
        (s <> Health -> In (structure_line repr data) (printed (events run)))
        /\ (s = Health ->
            events (handle repr s resp)
            = [ Print (status_line s resp); Print (success_line s);
                Print ("Response: " ++ body_text resp) ]
            /\ In (success_line s) (printed (events run))
            /\ In ("Response: " ++ body_text resp) (printed (events run)))
        /\ step_aborts repr net s = false
        /\ (forall s', next s = Some s' ->
                       In (request_of s') (posted (events run))))
  /\ (forall e,
        net (request_of s) = Raise e ->
        In ("❌ Client test failed: " ++ exc_str e) (printed (events run))
        /\ posted (events run) = firstn (S (position s)) fixed_requests).
Proof.
  cbv zeta. rewrite posted_test_http_mcp_server. intros Hin.
  assert (Hline : forall resp line,
             net (request_of s) = Return resp ->
             In (Print line) (events (handle repr s resp)) ->
             In line (printed (events (test_http_mcp_server repr net)))).
  { intros resp line Hnet Hline.
    apply printed_in. rewrite events_test_http_mcp_server.
    right; right. apply in_or_app; left.
    now apply reached_events with (s := s) (resp := resp). }
  assert (Hsoft : forall resp,
             net (request_of s) = Return resp ->
             outcome (handle repr s resp) = Return tt ->
             step_aborts repr net s = false
             /\ (forall s', next s = Some s' ->
                            In (request_of s') (sent_until repr net all_steps))).
  { intros resp Hnet Hout.
    pose proof (not_aborting repr net s resp Hnet Hout) as Hgo.
    split; [exact Hgo|].
    intros s' Hnext. now apply sent_until_next with (s := s). }
  split; [|split].
  - intros resp Hnet Hst.
    destruct (handle_failed_status repr s resp Hst) as [Hout Hfail].
    split; [now apply Hline with (resp := resp)|].
    now apply Hsoft with (resp := resp).
  - intros resp data Hnet Herr.
    destruct (handle_error_variant repr s resp data Herr) as [Hout Hrep].
    split; [|split].
    + intros Hs. apply Hline with (resp := resp); [exact Hnet|]. now apply Hrep.
    + intros ->.
      pose proof (handle_health_200 repr resp (proj1 Herr)) as Hev.
      split; [exact Hev|].
      split; apply Hline with (resp := resp); try exact Hnet;
        rewrite Hev; simpl; auto.
    + now apply Hsoft with (resp := resp).
  - intros e Hnet. split.
    + apply printed_in. rewrite events_test_http_mcp_server.
      right; right. apply in_or_app; right.
      rewrite (reached_raise repr net all_steps s e Hin Hnet). simpl; auto.
    + apply sent_until_stop; [exact Hin|].
      unfold step_aborts. now rewrite Hnet.
Qed.

Lemma driver_failed_exchange_witness :
  In (request_of DiskUsage)
     (posted (events (test_http_mcp_server sample_repr net_500)))
  /\ In "❌ Disk usage tool failed: 500"
        (printed (events (test_http_mcp_server sample_repr net_500)))
  /\ In (request_of DetailedInfo)
        (posted (events (test_http_mcp_server sample_repr net_500))).
Proof.
  assert (Hin : In (request_of DiskUsage)
                   (posted (events (test_http_mcp_server sample_repr net_500))))
    by (right; left; reflexivity).
  split; [exact Hin|].
  destruct (driver_failed_exchange sample_repr net_500 DiskUsage Hin)
    as (Hstatus & _ & _).
  destruct (Hstatus _ eq_refl ltac:(discriminate)) as (Hline & _ & Hnext).
  split; [exact Hline|]. exact (Hnext DetailedInfo eq_refl).
Defined.

(** C8, as stated, fails: a run does not always send one request per pair
    of the list.  With no server listening only the health request goes
    out; against a server that answers [null] the run ends while the second
    response is looked at, after two of the four requests. *)
Lemma driver_run_cut_short :
  fixed_requests
    = [health_request; disk_request; detailed_request; list_request]
  /\ posted (events (test_http_mcp_server sample_repr net_refused))
     = [health_request]
  /\ posted (events (test_http_mcp_server sample_repr net_null))
     = [health_request; disk_request]
  /\ ~ In list_request
         (posted (events (test_http_mcp_server sample_repr net_null))).
Proof.
  split; [reflexivity|]. split; [reflexivity|].
  assert (E : posted (events (test_http_mcp_server sample_repr net_null))
              = [health_request; disk_request]) by reflexivity.
  split; [exact E|]. rewrite E. simpl.
  intros [H|[H|[]]]; discriminate H.
Qed.

(** C8, amended: the requests of a run are a non-empty initial segment of
    the fixed list health, get_disk_usage, get_detailed_disk_info,
    tools/list -- each at most once, in that order -- and the whole list,
    each exactly once, when no exchange ends with an exception; their
    correlation ids are 1, 2, 3, 4, pairwise distinct. *)
Theorem driver_requests (repr : json -> string) (net : transport) :
  let sent := posted (events (test_http_mcp_server repr net)) in
  (exists k, (1 <= k <= 4)%nat /\ sent = firstn k fixed_requests)
  /\ ((forall s, step_aborts repr net s = false) -> sent = fixed_requests)
  /\ map operation fixed_requests
     = [ Some ("tools/call", Some "health");
         Some ("tools/call", Some "get_disk_usage");
         Some ("tools/call", Some "get_detailed_disk_info");
         Some ("tools/list", None) ]
  /\ map correlation_id fixed_requests
     = [ Some (JInt 1); Some (JInt 2); Some (JInt 3); Some (JInt 4) ]
  /\ NoDup (map correlation_id fixed_requests)
  /\ NoDup (map correlation_id sent).
Proof.
  cbv zeta. rewrite posted_test_http_mcp_server.
  assert (Hids : NoDup (map correlation_id fixed_requests)).
  { cbv [fixed_requests all_steps map request_of].
    repeat constructor; simpl; intuition discriminate. }
  split; [apply sent_until_prefix|].
  split; [|split; [reflexivity|split; [reflexivity|split; [exact Hids|]]]].
  - intros Hgo. unfold all_steps, fixed_requests. cbn [sent_until map].
    now rewrite !Hgo.
  - destruct (sent_until_prefix repr net) as (k & _ & ->).
    rewrite <- firstn_map.
    rewrite <- (firstn_skipn k (map correlation_id fixed_requests)) in Hids.
    now apply NoDup_app_remove_r in Hids.
Qed.

Lemma driver_requests_witness :
  (forall s, step_aborts sample_repr net_error s = false)
  /\ posted (events (test_http_mcp_server sample_repr net_error))
     = fixed_requests.
Proof.
  assert (Hgo : forall s, step_aborts sample_repr net_error s = false)
    by (intros s; destruct s; reflexivity).
  split; [exact Hgo|].
  destruct (driver_requests sample_repr net_error) as (_ & Hall & _).
  exact (Hall Hgo).
Defined.

(** ** Worked examples *)

Example gib2_half_terabyte : gib2 500107862016 = "465.76".
Proof. reflexivity. Qed.

(** A tie goes to the even hundredth: [2**27 / 2**30] is [0.125]. *)
Example gib2_tie : gib2 (2 ^ 27) = "0.12".
Proof. reflexivity. Qed.

Example gib2_zero : gib2 0 = "0.00".
Proof. reflexivity. Qed.

Example pct1_half : pct1 (PyFloat false 101 (-1)) = "50.5".
Proof. reflexivity. Qed.

Example str_len_code_points :
  str_len "✅ café" = 6%nat /\ String.length "✅ café" = 9%nat
  /\ code_points "✅ café" = ["✅"; " "; "c"; "a"; "f"; "é"]
  /\ Dyn.len (JStr "✅ café") = Return 6%nat.
Proof. repeat split. Qed.

Example get_disk_usage_all_denied :
  get_disk_usage os_all_denied
  = Return (text_block
      ("Disk Usage Information:" ++ nl ++ nl ++
       "Device: /dev/sda1" ++ nl ++ "Mountpoint: /" ++ nl ++
       "Filesystem: ext4" ++ nl ++ "Status: Permission denied" ++ nl ++
       rule ++ nl ++
       "Device: /dev/sdb1" ++ nl ++ "Mountpoint: /mnt/usb" ++ nl ++
       "Filesystem: vfat" ++ nl ++ "Status: Permission denied" ++ nl ++
       rule)).
Proof. reflexivity. Qed.

Example get_detailed_disk_info_no_counters :
  get_detailed_disk_info os_no_counters
  = Return (text_block
      ("=== Disk Partitions ===" ++ nl ++
       "Device: /dev/sda1" ++ nl ++ "Mountpoint: /" ++ nl ++
       "Filesystem: ext4" ++ nl ++ "Options: rw,relatime" ++ nl ++
       "  Total: 465.76 GB" ++ nl ++ "  Used: 232.88 GB (50.0%)" ++ nl ++
       "  Free: 232.88 GB" ++ nl ++ nl ++ nl ++
       "=== Disk I/O Statistics ===" ++ nl ++
       "Error getting disk I/O statistics: " ++
       "[Errno 2] No such file or directory: '/proc/diskstats'")).
Proof. reflexivity. Qed.

Example run_against_error_server :
  printed (events (test_http_mcp_server sample_repr net_error))
  = [ "Testing HTTP MCP Filesystem Usage Server...";
      "Server URL: http://localhost:8000/mcp";
      nl ++ "1. Testing health endpoint...";
      "Health response status: 200";
      "✅ Health check successful!";
      "Response: {...}";
      nl ++ "2. Testing get_disk_usage tool...";
      "Disk usage response status: 200";
      "✅ Disk usage tool successful!";
      "Unexpected response structure: <dict>";
      nl ++ "3. Testing get_detailed_disk_info tool...";
      "Detailed disk info response status: 200";
      "✅ Detailed disk info tool successful!";
      "Unexpected response structure: <dict>";
      nl ++ "4. Testing list_tools...";
      "List tools response status: 200";
      "✅ List tools successful!";
      "Unexpected response structure: <dict>" ].
Proof. reflexivity. Qed.

Example run_against_answering_server :
  test_http_mcp_server sample_repr net_ok
  = ( [ Print "Testing HTTP MCP Filesystem Usage Server...";
        Print "Server URL: http://localhost:8000/mcp";
        Print (nl ++ "1. Testing health endpoint...");
        Post health_request;
        Print "Health response status: 200";
        Print "✅ Health check successful!";
        Print "Response: {...}";
        Print (nl ++ "2. Testing get_disk_usage tool...");
        Post disk_request;
        Print "Disk usage response status: 200";
        Print "✅ Disk usage tool successful!";
        Print "Disk usage info received (17 characters)";
        Print "First 10 lines:";
        Print "  line one";
        Print "  line two";
        Print (nl ++ "3. Testing get_detailed_disk_info tool...");
        Post detailed_request;
        Print "Detailed disk info response status: 200";
        Print "✅ Detailed disk info tool successful!";
        Print "Detailed disk info received (17 characters)";
        Print "First 15 lines:";
        Print "  line one";
        Print "  line two";
        Print (nl ++ "4. Testing list_tools...");
        Post list_request;
        Print "List tools response status: 200";
        Print "✅ List tools successful!";
        Print "Available tools (3):";
        Print "  - health: Health check endpoint";
        Print ("  - get_disk_usage: " ++
               "Get disk usage information for all mounted filesystems");
        Print ("  - get_detailed_disk_info: " ++
               "Get detailed disk information including partitions and usage statistics") ],
      Return tt ).
Proof. reflexivity. Qed.

(** * Further properties of the server *)

(** ** Which exception a handler raises *)

Lemma raised_iff {A} (m : result A) (e : exc) :
  m = Raise e <-> raised m = Some e.
Proof.
  destruct m as [a|e']; simpl; split; intros H;
    try discriminate H; injection H as ->; reflexivity.
Qed.

Lemma disk_usage_loop_raised (os : os_state) (ps : list sdiskpart) :
  forall acc, raised (disk_usage_loop os ps acc) = first_failure os ps.
Proof.
  induction ps as [|p ps IH]; intros acc; simpl; [reflexivity|].
  destruct (disk_usage os (mountpoint p)) as [u|e]; [apply IH|].
  destruct (isinstance e PermissionError); [apply IH|reflexivity].
Qed.

Lemma detailed_loop_raised (os : os_state) (ps : list sdiskpart) :
  forall acc, raised (detailed_loop os ps acc) = first_failure os ps.
Proof.
  induction ps as [|p ps IH]; intros acc; simpl; [reflexivity|].
  destruct (disk_usage os (mountpoint p)) as [u|e]; [apply IH|].
  destruct (isinstance e PermissionError); [apply IH|reflexivity].
Qed.

Lemma raised_get_disk_usage (os : os_state) :
  raised (get_disk_usage os)
  = match disk_partitions os with
    | Return ps => first_failure os ps
    | Raise e => Some e
    end.
Proof.
  unfold get_disk_usage.
  destruct (disk_partitions os) as [ps|e]; [|reflexivity]. cbn [bind].
  rewrite <- (disk_usage_loop_raised os ps []).
  now destruct (disk_usage_loop os ps []).
Qed.

Lemma raised_get_detailed_disk_info (os : os_state) :
  raised (get_detailed_disk_info os)
  = match disk_partitions os with
    | Return ps => first_failure os ps
    | Raise e => Some e
    end.
Proof.
  unfold get_detailed_disk_info.
  destruct (disk_partitions os) as [ps|e]; [|reflexivity]. cbn [bind].
  rewrite <- (detailed_loop_raised os ps ["=== Disk Partitions ==="]).
  destruct (detailed_loop os ps ["=== Disk Partitions ==="])
    as [items|e]; [|reflexivity].
  cbn [bind]. destruct (io_section_returns os) as [item ->]. reflexivity.
Qed.

Lemma first_failure_spec (os : os_state) (ps : list sdiskpart) (e : exc) :
  first_failure os ps = Some e
  <-> exists pre p post,
        ps = (pre ++ p :: post)%list
        /\ forallb (tolerated os) pre = true
        /\ disk_usage os (mountpoint p) = Raise e
        /\ isinstance e PermissionError = false.
Proof.
  induction ps as [|p0 ps IH]; simpl.
  - split; [discriminate|].
    intros (pre & p & post & H & _). now destruct pre.
  - split.
    + intros H.
      destruct (disk_usage os (mountpoint p0)) as [u|e0] eqn:Hq.
      * apply IH in H as (pre & p & post & -> & Hpre & Hp & Hc).
        exists (p0 :: pre), p, post. repeat split; auto.
        simpl. unfold tolerated at 1. now rewrite Hq.
      * destruct (isinstance e0 PermissionError) eqn:Hc0.
        -- apply IH in H as (pre & p & post & -> & Hpre & Hp & Hc).
           exists (p0 :: pre), p, post. repeat split; auto.
           simpl. unfold tolerated at 1. now rewrite Hq, Hc0.
        -- injection H as ->. exists [], p0, ps. repeat split; auto.
    + intros (pre & p & post & Heq & Hpre & Hp & Hc).
      destruct pre as [|p1 pre]; simpl in Heq; injection Heq as -> ->.
      * now rewrite Hp, Hc.
      * simpl in Hpre. apply andb_true_iff in Hpre as [H1 Hpre].
        assert (Hrest : first_failure os (pre ++ p :: post) = Some e)
          by (apply IH; exists pre, p, post; auto).
        unfold tolerated in H1.
        destruct (disk_usage os (mountpoint p1)) as [u|e1]; [exact Hrest|].
        now rewrite H1.
Qed.

(** X1: [get_disk_usage] raises [e] exactly when the listing of the
    partitions raises [e], or the listing returns and, in partition order,
    the first per-mount query that neither returns nor raises a
    [PermissionError] raises [e]: the mounts before it are all survived,
    those after it play no part. *)
Theorem get_disk_usage_first_failure (os : os_state) (e : exc) :
  get_disk_usage os = Raise e
  <-> disk_partitions os = Raise e
      \/ exists ps pre p post,
           disk_partitions os = Return ps
           /\ ps = (pre ++ p :: post)%list
           /\ forallb (tolerated os) pre = true
           /\ disk_usage os (mountpoint p) = Raise e
           /\ isinstance e PermissionError = false.
Proof.
  rewrite raised_iff, raised_get_disk_usage.
  destruct (disk_partitions os) as [ps|e0].
  - rewrite first_failure_spec. split.
    + intros (pre & p & post & H). right. exists ps, pre, p, post. tauto.
    + intros [H|(ps' & pre & p & post & Hps & H)]; [discriminate H|].
      injection Hps as <-. exists pre, p, post. exact H.
  - split.
    + intros H. left. congruence.
    + intros [H|(ps' & pre & p & post & Hps & _)]; [congruence|discriminate Hps].
Qed.

(** X2: the two disk handlers fail alike: on every state of the operating
    system [get_disk_usage] and [get_detailed_disk_info] either both
    return, or both raise the same exception; the I/O section of the
    detailed handler adds no failure of its own. *)
Theorem disk_handlers_fail_alike (os : os_state) :
  raised (get_disk_usage os) = raised (get_detailed_disk_info os).
Proof.
  now rewrite raised_get_disk_usage, raised_get_detailed_disk_info.
Qed.

Lemma get_disk_usage_first_failure_witness :
  get_disk_usage os_stale_mount = Raise stale_handle.
Proof.
  apply (proj2 (get_disk_usage_first_failure os_stale_mount stale_handle)).
  right.
  exists [root_partition; usb_partition; nfs_partition; boot_partition],
    [root_partition; usb_partition], nfs_partition, [boot_partition].
  repeat split.
Defined.

(** ** Advertised and dispatched names *)

Lemma call_tool_outside_registry (os : os_state) (tool : string)
    (arguments : list (string * json)) :
  ~ In tool registry ->
  call_tool os tool arguments = Raise (Exc ValueError ("Unknown tool: " ++ tool)).
Proof.
  intros Hout. unfold call_tool.
  destruct (String.eqb_spec tool "get_disk_usage") as [->|_];
    [exfalso; apply Hout; simpl; auto|].
  destruct (String.eqb_spec tool "get_detailed_disk_info") as [->|_];
    [exfalso; apply Hout; simpl; auto|].
  destruct (String.eqb_spec tool "health") as [->|_];
    [exfalso; apply Hout; simpl; auto|].
  reflexivity.
Qed.

Lemma in_registry_dec (tool : string) : {In tool registry} + {~ In tool registry}.
Proof. apply in_dec, string_dec. Qed.

(** X3: what [list_tools] advertises is what [call_tool] serves: when the
    listing of the partitions returns and the per-mount queries are
    survivable, [call_tool] returns a payload for a name if and only if
    [list_tools] lists a descriptor with that name. *)
Theorem advertised_tools_are_served (os : os_state) (tool : string)
    (arguments : list (string * json)) (ps : list sdiskpart) :
  disk_partitions os = Return ps ->
  forallb (tolerated os) ps = true ->
  ((exists payload, call_tool os tool arguments = Return payload)
   <-> In tool (map name list_tools)).
Proof.
  intros Hps Hok. change (map name list_tools) with registry. split.
  - intros [payload Hret].
    destruct (in_registry_dec tool) as [Hin|Hout]; [exact Hin|].
    rewrite (call_tool_outside_registry os tool arguments Hout) in Hret.
    discriminate Hret.
  - intros Hin.
    destruct (call_tool_dispatch os tool arguments Hin)
      as [[_ E]|[[_ E]|[_ E]]]; rewrite E.
    + eexists; reflexivity.
    + eexists. exact (get_disk_usage_tolerated os ps Hps Hok).
    + destruct (get_detailed_disk_info_tolerated os ps Hps Hok)
        as (item & _ & Hret).
      eexists. exact Hret.
Qed.

Lemma advertised_tools_are_served_witness :
  disk_partitions os_mixed = Return [root_partition; usb_partition]
  /\ forallb (tolerated os_mixed) [root_partition; usb_partition] = true
  /\ exists payload, call_tool os_mixed "get_disk_usage" [] = Return payload.
Proof.
  assert (Hps : disk_partitions os_mixed
                = Return [root_partition; usb_partition]) by reflexivity.
  assert (Hok : forallb (tolerated os_mixed)
                  [root_partition; usb_partition] = true) by reflexivity.
  split; [exact Hps|]. split; [exact Hok|].
  apply (proj2 (advertised_tools_are_served os_mixed "get_disk_usage" []
                  _ Hps Hok)).
  simpl. auto.
Defined.

(** ** A host without partitions *)

(** X4: on a host that reports no partitions both disk handlers return:
    [get_disk_usage] the bare header followed by an empty line, and
    [get_detailed_disk_info] the two section headers followed by the item
    of the I/O section. *)
Theorem disk_handlers_without_partitions (os : os_state) :
  disk_partitions os = Return [] ->
  get_disk_usage os
  = Return (text_block ("Disk Usage Information:" ++ nl ++ nl))
  /\ exists item,
       io_section os = Return item
       /\ get_detailed_disk_info os
          = Return (text_block ("=== Disk Partitions ===" ++ nl ++
                                "=== Disk I/O Statistics ===" ++ nl ++ item)).
Proof.
  intros Hnone. split.
  - unfold get_disk_usage. rewrite Hnone. reflexivity.
  - destruct (io_section_returns os) as [item Hitem]. exists item.
    split; [exact Hitem|].
    unfold get_detailed_disk_info. rewrite Hnone. cbn [detailed_loop bind].
    rewrite Hitem. reflexivity.
Qed.

Lemma disk_handlers_without_partitions_witness :
  get_disk_usage {| disk_partitions := Return [];
                    disk_usage := fun path => Raise (io_failure path);
                    disk_io_counters := Return None |}
  = Return (text_block ("Disk Usage Information:" ++ nl ++ nl)).
Proof.
  apply (disk_handlers_without_partitions
           {| disk_partitions := Return [];
              disk_usage := fun path => Raise (io_failure path);
              disk_io_counters := Return None |}).
  reflexivity.
Defined.

(** ** The lines of the summary text *)

Lemma newline_free_app (a b : string) :
  newline_free (a ++ b) = newline_free a && newline_free b.
Proof.
  induction a as [|c a IH]; simpl; [reflexivity|].
  now rewrite IH, andb_assoc.
Qed.

Lemma split_lines_newline_free (s : string) :
  newline_free s = true -> split_lines s = [s].
Proof.
  induction s as [|c s IH]; simpl; [reflexivity|].
  intros H. apply andb_true_iff in H as [Hc Hs].
  apply negb_true_iff in Hc. rewrite Hc, (IH Hs). reflexivity.
Qed.

Lemma split_lines_first (l rest : string) :
  newline_free l = true ->
  split_lines (l ++ nl ++ rest) = l :: split_lines rest.
Proof.
  intros H. now rewrite split_lines_app_nl, (split_lines_newline_free l H).
Qed.

Lemma split_lines_blank (rest : string) :
  split_lines (nl ++ rest) = "" :: split_lines rest.
Proof. exact (split_lines_first "" rest eq_refl). Qed.

Lemma split_lines_first2 (a b rest : string) :
  newline_free a = true -> newline_free b = true ->
  split_lines (a ++ b ++ nl ++ rest) = (a ++ b) :: split_lines rest.
Proof.
  intros Ha Hb. rewrite <- string_app_assoc. apply split_lines_first.
  now rewrite newline_free_app, Ha, Hb.
Qed.

Lemma split_lines_first3 (a b c rest : string) :
  newline_free a = true -> newline_free b = true -> newline_free c = true ->
  split_lines (a ++ b ++ c ++ nl ++ rest) = (a ++ b ++ c) :: split_lines rest.
Proof.
  intros Ha Hb Hc.
  replace (a ++ b ++ c ++ nl ++ rest) with ((a ++ b ++ c) ++ nl ++ rest)
    by now rewrite !string_app_assoc.
  apply split_lines_first. now rewrite !newline_free_app, Ha, Hb, Hc.
Qed.

Lemma all_digits_newline_free (s : string) :
  all_digits s = true -> newline_free s = true.
Proof.
  induction s as [|c s IH]; simpl; [reflexivity|].
  intros H. apply andb_true_iff in H as [Hc Hs]. rewrite (IH Hs), andb_true_r.
  apply negb_true_iff, Ascii.eqb_neq. intros ->. discriminate Hc.
Qed.

Lemma format_f_newline_free (d : nat) (x : pyfloat) :
  newline_free (format_f d x) = true.
Proof.
  unfold format_f. rewrite !newline_free_app.
  rewrite (all_digits_newline_free _ (str_int_all_digits _)).
  rewrite (all_digits_newline_free _ (fixed_digits_all_digits _ _)).
  now destruct (fneg x).
Qed.

Lemma summary_entry_lines (os : os_state) (p : sdiskpart) :
  plain_fields p = true ->
  split_lines (summary_entry os p) = entry_lines os p.
Proof.
  unfold plain_fields. intros H.
  apply andb_true_iff in H as [H Hfs]. apply andb_true_iff in H as [Hdev Hmp].
  unfold summary_entry, entry_lines.
  destruct (disk_usage os (mountpoint p)) as [u|e].
  - unfold usage_entry.
    rewrite !split_lines_first2 by (assumption || reflexivity).
    rewrite !split_lines_first3
      by (reflexivity || apply format_f_newline_free).
    reflexivity.
  - unfold denied_entry.
    rewrite !split_lines_first2 by (assumption || reflexivity).
    reflexivity.
Qed.

Lemma summary_text_lines (os : os_state) (ps : list sdiskpart) :
  forallb plain_fields ps = true ->
  split_lines ("Disk Usage Information:" ++ nl ++ nl ++
               join nl (map (summary_entry os) ps))
  = "Disk Usage Information:" :: ""
      :: match ps with
         | [] => [""]
         | _ => flat_map (entry_lines os) ps
         end.
Proof.
  intros Hplain.
  rewrite (split_lines_first "Disk Usage Information:") by reflexivity.
  rewrite split_lines_blank. do 2 f_equal.
  destruct ps as [|p ps]; [reflexivity|].
  change (map (summary_entry os) (p :: ps))
    with (summary_entry os p :: map (summary_entry os) ps).
  rewrite split_lines_join_cons.
  change (summary_entry os p :: map (summary_entry os) ps)
    with (map (summary_entry os) (p :: ps)).
  rewrite flat_map_concat_map, map_map, <- flat_map_concat_map.
  revert Hplain. generalize (p :: ps). intros l Hl.
  induction l as [|q l IH]; [reflexivity|].
  simpl in Hl. apply andb_true_iff in Hl as [Hq Hl].
  cbn [flat_map]. now rewrite (summary_entry_lines os q Hq), (IH Hl).
Qed.

(** X5: the summary text splits back into its entries.  When the
    per-mount queries are survivable and no device, mount point or file
    system name holds a newline, the lines of the text of [get_disk_usage]
    are the header, an empty line, and then for each partition in order
    its five lines (refused mount) or eight lines (readable mount). *)
Theorem get_disk_usage_lines (os : os_state) (ps : list sdiskpart) :
  disk_partitions os = Return ps ->
  forallb (tolerated os) ps = true ->
  forallb plain_fields ps = true ->
  exists result_text,
    get_disk_usage os = Return (text_block result_text)
    /\ split_lines result_text
       = "Disk Usage Information:" :: ""
           :: match ps with
              | [] => [""]
              | _ => flat_map (entry_lines os) ps
              end.
Proof.
  intros Hps Hok Hplain. eexists.
  split; [exact (get_disk_usage_tolerated os ps Hps Hok)|].
  now apply summary_text_lines.
Qed.

Lemma get_disk_usage_lines_witness :
  exists result_text,
    get_disk_usage os_mixed = Return (text_block result_text)
    /\ List.length (split_lines result_text) = 15%nat.
Proof.
  destruct (get_disk_usage_lines os_mixed [root_partition; usb_partition]
              eq_refl eq_refl eq_refl)
    as (result_text & Hret & Hlines).
  exists result_text. split; [exact Hret|].
  rewrite Hlines. reflexivity.
Defined.

(** ** The I/O counters entry *)

(** The number [format(bytes / 2**k, ".2f")] writes is within half a
    hundredth of [bytes / 2^k], up to the rounding of the division. *)
Lemma truediv_hundredths_nearest (bytes k : N) :
  let v := scaled_round 2 (int_truediv_pow2 bytes k) in
  (2 * Z.abs (Z.of_N v * 2 ^ Z.of_N k - 100 * Z.of_N bytes)
   <= 2 ^ Z.of_N k + 100 * Z.of_N (ulp53 bytes))%Z.
Proof.
  cbv zeta.
  destruct (int_truediv_pow2_nearest bytes k) as (_ & He & Hm).
  pose proof (scaled_round_nearest 2 (int_truediv_pow2 bytes k)) as Hv.
  cbv zeta in Hv, Hm. rewrite He in Hv.
  set (v := Z.of_N (scaled_round 2 (int_truediv_pow2 bytes k))) in *.
  set (m := Z.of_N (fmant (int_truediv_pow2 bytes k))) in *.
  set (s := Z.of_N (N.size bytes - 53)) in *.
  set (K := Z.of_N k) in *.
  assert (Hs : (0 <= s)%Z) by (unfold s; lia).
  assert (HK : (0 <= K)%Z) by (unfold K; lia).
  change (10 ^ Z.of_nat 2)%Z with 100%Z in Hv.
  set (B := (2 ^ s)%Z) in *.
  assert (HB : (0 < B)%Z) by (unfold B; apply Z.pow_pos_nonneg; lia).
  destruct (Z.le_gt_cases s K) as [Hle|Hgt].
  - rewrite (Z.max_l 0 (s - K)), (Z.max_r 0 (- (s - K))) in Hv by lia.
    rewrite Z.pow_0_r in Hv.
    set (A := (2 ^ (- (s - K)))%Z) in *.
    assert (HAB : (A * B = 2 ^ K)%Z).
    { unfold A, B. rewrite <- Z.pow_add_r by lia. f_equal. lia. }
    assert (HA : (0 < A)%Z) by (unfold A; apply Z.pow_pos_nonneg; lia).
    rewrite <- HAB. clearbody A B v m. clear He Hs Hle HAB.
    assert (Hsum : (- (A * B + 100 * Z.of_N (ulp53 bytes))
                    <= 2 * (v * (A * B) - 100 * Z.of_N bytes)
                    <= A * B + 100 * Z.of_N (ulp53 bytes))%Z) by nia.
    lia.
  - rewrite (Z.max_r 0 (s - K)), (Z.max_l 0 (- (s - K))) in Hv by lia.
    rewrite Z.pow_0_r in Hv.
    set (U := (2 ^ (s - K))%Z) in *.
    assert (HP : (0 < 2 ^ K)%Z) by (apply Z.pow_pos_nonneg; lia).
    assert (HUB : (U * 2 ^ K = B)%Z).
    { unfold U, B. rewrite <- Z.pow_add_r by lia. f_equal. lia. }
    assert (Hveq : (v = m * U * 100)%Z) by lia.
    set (P := (2 ^ K)%Z) in *.
    clearbody P U B v m. clear He Hs Hgt Hv.
    assert (Hsum : (- (100 * Z.of_N (ulp53 bytes))
                    <= 2 * (v * P - 100 * Z.of_N bytes)
                    <= 100 * Z.of_N (ulp53 bytes))%Z) by nia.
    lia.
Qed.

Lemma str_int_newline_free (n : N) : newline_free (str_int n) = true.
Proof. apply all_digits_newline_free, str_int_all_digits. Qed.

(** X6: when the counters query returns counters, the item of the I/O
    section is six lines in fixed order; the four counts are written in
    decimal digits that read back as the numbers, and the two byte totals
    with two decimals, within half a hundredth of [bytes / 2^20] (up to
    the rounding of the division). *)
Theorem io_counters_entry (os : os_state) (disk_io : sdiskio) :
  disk_io_counters os = Return (Some disk_io) ->
  io_section os = Return (io_entry disk_io)
  /\ split_lines (io_entry disk_io)
     = [ "Read Count: " ++ str_int (read_count disk_io);
         "Write Count: " ++ str_int (write_count disk_io);
         "Read Bytes: " ++ mib2 (read_bytes disk_io) ++ " MB";
         "Write Bytes: " ++ mib2 (write_bytes disk_io) ++ " MB";
         "Read Time: " ++ str_int (read_time disk_io) ++ " ms";
         "Write Time: " ++ str_int (write_time disk_io) ++ " ms" ]
  /\ (forall n, all_digits (str_int n) = true /\ decimal_value (str_int n) = n)
  /\ (forall bytes, exists v,
        renders 2 (mib2 bytes) v
        /\ (2 * Z.abs (Z.of_N v * 2 ^ 20 - 100 * Z.of_N bytes)
            <= 2 ^ 20 + 100 * Z.of_N (ulp53 bytes))%Z).
Proof.
  intros Hio. split; [unfold io_section; now rewrite Hio|].
  split; [|split].
  - unfold io_entry.
    rewrite !split_lines_first2 by (reflexivity || apply str_int_newline_free).
    rewrite !split_lines_first3
      by (reflexivity || apply str_int_newline_free
          || apply format_f_newline_free).
    rewrite split_lines_newline_free; [reflexivity|].
    now rewrite !newline_free_app, str_int_newline_free.
  - intros n. split; [apply str_int_all_digits|apply str_int_read].
  - intros bytes.
    exists (scaled_round 2 (int_truediv_pow2 bytes 20)).
    split; [|exact (truediv_hundredths_nearest bytes 20)].
    destruct (format_f_renders 2 (int_truediv_pow2 bytes 20))
      as (body & Hfmt & Hren).
    destruct (int_truediv_pow2_nearest bytes 20) as (Hneg & _).
    cbv zeta in Hneg. rewrite Hneg in Hfmt.
    unfold mib2. rewrite Hfmt. exact Hren.
Qed.

Lemma io_counters_entry_witness :
  split_lines (io_entry sample_io)
  = [ "Read Count: 1200"; "Write Count: 3400"; "Read Bytes: 50.00 MB";
      "Write Bytes: 1.00 MB"; "Read Time: 15 ms"; "Write Time: 42 ms" ].
Proof.
  destruct (io_counters_entry os_mixed sample_io eq_refl) as (_ & Hlines & _).
  exact Hlines.
Defined.

(** ** Whole gibibytes, and order *)

Lemma round_half_even_div_exact (q b : N) :
  (0 < b)%N -> round_half_even_div (q * b) b = q.
Proof.
  intros Hb. unfold round_half_even_div.
  rewrite N.div_mul by lia. rewrite N.Div0.mod_mul.
  destruct (N.compare_spec (2 * 0) b); [lia|reflexivity|lia].
Qed.

Lemma round_half_even_div_mono (a a' b : N) :
  (0 < b)%N -> (a <= a')%N ->
  (round_half_even_div a b <= round_half_even_div a' b)%N.
Proof.
  intros Hb Hle. unfold round_half_even_div.
  pose proof (N.div_mod a b ltac:(lia)) as Ha.
  pose proof (N.div_mod a' b ltac:(lia)) as Ha'.
  pose proof (N.mod_lt a b ltac:(lia)) as Hr.
  pose proof (N.mod_lt a' b ltac:(lia)) as Hr'.
  pose proof (N.Div0.div_le_mono a a' b Hle) as Hq.
  set (q := (a / b)%N) in *. set (r := (a mod b)%N) in *.
  set (q' := (a' / b)%N) in *. set (r' := (a' mod b)%N) in *.
  destruct (N.eq_dec q q') as [Heq|Hne].
  - rewrite <- Heq in *. assert (Hrr : (r <= r')%N) by nia.
    destruct (N.compare_spec (2 * r) b), (N.compare_spec (2 * r') b);
      destruct (N.even q); lia.
  - assert (Hlt : (q + 1 <= q')%N) by lia.
    destruct (N.compare_spec (2 * r) b), (N.compare_spec (2 * r') b);
      destruct (N.even q), (N.even q'); lia.
Qed.

Lemma size_le_53 (n : N) : (n < 2 ^ 53)%N -> (N.size n <= 53)%N.
Proof.
  intros H. destruct n as [|p]; [simpl; lia|].
  rewrite N.size_log2 by discriminate.
  assert (N.log2 (N.pos p) < 53)%N by (apply N.log2_lt_pow2; lia). lia.
Qed.

(** Below [2^53] the number [gib2] writes is the rounded quotient of the
    exact division. *)
Lemma gib2_small (bytes : N) :
  (bytes < 2 ^ 53)%N ->
  scaled_round 2 (int_truediv_pow2 bytes 30)
  = round_half_even_div (bytes * 100) (2 ^ 30).
Proof.
  intros H. unfold int_truediv_pow2.
  destruct (N.leb_spec (N.size bytes) 53) as [_|Hgt];
    [reflexivity|pose proof (size_le_53 bytes H); lia].
Qed.

(** The float of [k * 2^30 / 2^30] carries [k] exactly. *)
Lemma whole_gib_float (k : N) :
  (0 < k < 2 ^ 53)%N ->
  exists j,
    fexp (int_truediv_pow2 (k * 2 ^ 30) 30) = (- Z.of_N j)%Z
    /\ fmant (int_truediv_pow2 (k * 2 ^ 30) 30) = (k * 2 ^ j)%N.
Proof.
  intros [Hpos Hlt].
  assert (Hsize : N.size (k * 2 ^ 30) = (N.size k + 30)%N).
  { rewrite !N.size_log2 by lia.
    rewrite N.log2_mul_pow2 by lia. lia. }
  pose proof (size_le_53 k Hlt) as Hk.
  unfold int_truediv_pow2. rewrite Hsize.
  destruct (N.leb_spec (N.size k + 30) 53) as [_|Hgt]; cbn [fexp fmant].
  - exists 30%N. split; reflexivity.
  - set (s := (N.size k + 30 - 53)%N).
    assert (Hs : (s <= 30)%N) by (unfold s; lia).
    exists (30 - s)%N. split; [lia|].
    replace (k * 2 ^ 30)%N with (k * 2 ^ (30 - s) * 2 ^ s)%N.
    + apply round_half_even_div_exact.
      apply N.neq_0_lt_0, N.pow_nonzero; discriminate.
    + rewrite <- N.mul_assoc, <- N.pow_add_r. do 2 f_equal. lia.
Qed.

Lemma scaled_round_whole (d : nat) (x : pyfloat) (c j : N) :
  fexp x = (- Z.of_N j)%Z -> fmant x = (c * 2 ^ j)%N ->
  scaled_round d x = (c * 10 ^ N.of_nat d)%N.
Proof.
  intros He Hm. unfold scaled_round. rewrite He, Hm.
  destruct j as [|p]; simpl Z.opp; cbv iota.
  - simpl. lia.
  - replace (c * 2 ^ N.pos p * 10 ^ N.of_nat d)%N
      with (c * 10 ^ N.of_nat d * 2 ^ N.pos p)%N by lia.
    apply round_half_even_div_exact.
    apply N.neq_0_lt_0, N.pow_nonzero; discriminate.
Qed.

(** X7: a byte count of exactly [k] GiB is shown as [k] followed by
    [".00"], for every [k] below [2^53]. *)
Theorem gib2_whole (k : N) :
  (k < 2 ^ 53)%N -> gib2 (k * 2 ^ 30) = str_int k ++ ".00".
Proof.
  intros Hlt. destruct (N.eq_dec k 0) as [->|Hne]; [reflexivity|].
  destruct (whole_gib_float k ltac:(lia)) as (j & He & Hm).
  unfold gib2, format_f.
  rewrite (scaled_round_whole 2 _ k j He Hm).
  destruct (int_truediv_pow2_nearest (k * 2 ^ 30) 30) as (Hneg & _).
  cbv zeta in Hneg. rewrite Hneg.
  change (10 ^ N.of_nat 2)%N with 100%N.
  rewrite N.div_mul by discriminate.
  cbn [fixed_digits]. unfold digit_char.
  replace ((k * 100) mod 10)%N with 0%N.
  - replace ((k * 100 / 10) mod 10)%N with 0%N; [reflexivity|].
    replace (k * 100)%N with (k * 10 * 10)%N by lia.
    rewrite N.div_mul by discriminate. now rewrite N.Div0.mod_mul.
  - replace (k * 100)%N with (k * 10 * 10)%N by lia.
    now rewrite N.Div0.mod_mul.
Qed.

Lemma gib2_whole_witness : gib2 (512 * 2 ^ 30) = "512.00".
Proof. apply (gib2_whole 512). reflexivity. Defined.

Lemma digits_point_split (ip ip' fr fr' : string) :
  all_digits ip = true -> all_digits ip' = true ->
  ip ++ "." ++ fr = ip' ++ "." ++ fr' -> ip = ip' /\ fr = fr'.
Proof.
  revert ip'. induction ip as [|c ip IH]; intros ip' Hd Hd' Heq.
  - destruct ip' as [|c' ip']; simpl in Heq.
    + injection Heq as ->. auto.
    + injection Heq as <- _. discriminate Hd'.
  - destruct ip' as [|c' ip']; simpl in Heq.
    + injection Heq as -> _. discriminate Hd.
    + injection Heq as -> Heq. simpl in Hd, Hd'.
      apply andb_true_iff in Hd as [_ Hd]. apply andb_true_iff in Hd' as [_ Hd'].
      destruct (IH ip' Hd Hd' Heq) as [-> ->]. auto.
Qed.

(** A rendered string denotes one number. *)
Lemma renders_unique (d : nat) (s : string) (v v' : N) :
  renders d s v -> renders d s v' -> v = v'.
Proof.
  intros (ip & fr & -> & _ & Hd & _ & _ & <-)
         (ip' & fr' & Heq & _ & Hd' & _ & _ & <-).
  destruct (digits_point_split ip ip' fr fr' Hd Hd' Heq) as [-> ->].
  reflexivity.
Qed.

Lemma gib2_renders (bytes : N) :
  renders 2 (gib2 bytes) (scaled_round 2 (int_truediv_pow2 bytes 30)).
Proof.
  destruct (format_f_renders 2 (int_truediv_pow2 bytes 30))
    as (body & Hfmt & Hren).
  destruct (int_truediv_pow2_nearest bytes 30) as (Hneg & _).
  cbv zeta in Hneg. rewrite Hneg in Hfmt.
  unfold gib2. rewrite Hfmt. exact Hren.
Qed.

(** X8: the rendering keeps the order of byte counts: below [2^53], the
    number shown for a larger count is never smaller. *)
Theorem gib2_monotone (bytes bytes' v v' : N) :
  (bytes <= bytes')%N -> (bytes' < 2 ^ 53)%N ->
  renders 2 (gib2 bytes) v -> renders 2 (gib2 bytes') v' ->
  (v <= v')%N.
Proof.
  intros Hle Hlt Hv Hv'.
  rewrite (renders_unique _ _ _ _ Hv (gib2_renders bytes)).
  rewrite (renders_unique _ _ _ _ Hv' (gib2_renders bytes')).
  rewrite !gib2_small by lia.
  apply round_half_even_div_mono; [reflexivity|lia].
Qed.

Lemma gib2_monotone_witness : (23288 <= 46576)%N.
Proof.
  apply (gib2_monotone 250053931008 500107862016 23288 46576).
  - intros H. discriminate H.
  - reflexivity.
  - exists "232", "88". repeat split. discriminate.
  - exists "465", "76". repeat split. discriminate.
Defined.

(** * Further properties of the client *)

(** ** Tracebacks *)

Lemma tracebacks_app (t t' : list event) :
  tracebacks (t ++ t') = (tracebacks t ++ tracebacks t')%list.
Proof.
  induction t as [|ev t IH]; simpl; [reflexivity|].
  destruct ev; simpl; now rewrite IH.
Qed.

Lemma calm_ret {A} (a : A) : calm (IO.ret a).
Proof. reflexivity. Qed.

Lemma calm_lift {A} (m : result A) : calm (IO.lift m).
Proof. reflexivity. Qed.

Lemma calm_print (line : string) : calm (print line).
Proof. reflexivity. Qed.

Lemma calm_bind {A B} (m : io A) (k : A -> io B) :
  calm m -> (forall a, calm (k a)) -> calm (IO.bind m k).
Proof.
  unfold calm. intros Hm Hk. rewrite events_bind, tracebacks_app, Hm.
  destruct (outcome m); [apply Hk|reflexivity].
Qed.

Lemma calm_try_except {A} (body : io A) (cls : exc_class)
    (handler : exc -> io A) :
  calm body -> (forall e, calm (handler e)) ->
  calm (IO.try_except body cls handler).
Proof.
  unfold calm. intros Hb Hh. rewrite events_try_except, tracebacks_app, Hb.
  destruct (outcome body) as [a|e]; [reflexivity|].
  destruct (isinstance e cls); [apply Hh|reflexivity].
Qed.

Lemma calm_for_each {A} (xs : list A) (body : A -> io unit) :
  (forall x, calm (body x)) -> calm (IO.for_each xs body).
Proof.
  intros H. induction xs as [|x xs IH]; simpl.
  - apply calm_ret.
  - apply calm_bind; auto.
Qed.

Ltac calm_step :=
  first
    [ apply calm_ret | apply calm_lift | apply calm_print
    | apply calm_bind; [|intros ?]
    | apply calm_try_except; [|intros ?]
    | apply calm_for_each; intros ?
    | match goal with
      | |- calm (if ?c then _ else _) => destruct c
      end ].

Lemma handle_calm (repr : json -> string) (s : step) (resp : response) :
  calm (handle repr s resp).
Proof.
  destruct s; unfold handle, handle_health, handle_content, handle_list,
    preview_content, preview_tools; repeat calm_step.
Qed.

Lemma run_steps_calm (repr : json -> string) (net : transport)
    (steps : list step) :
  calm (run_steps repr net steps).
Proof.
  induction steps as [|s rest IH]; [reflexivity|].
  unfold calm. rewrite events_run_steps_cons. cbn [tracebacks].
  destruct (net (request_of s)) as [resp|e]; [|reflexivity].
  rewrite tracebacks_app, (handle_calm repr s resp).
  destruct (outcome (handle repr s resp)); [exact IH|reflexivity].
Qed.

Lemma run_steps_cons_returns (repr : json -> string) (net : transport)
    (s : step) (rest : list step) :
  outcome (run_steps repr net (s :: rest)) = Return tt
  <-> step_aborts repr net s = false
      /\ outcome (run_steps repr net rest) = Return tt.
Proof.
  rewrite outcome_run_steps_cons. unfold step_aborts.
  destruct (net (request_of s)) as [resp|e].
  - destruct (outcome (handle repr s resp)) as [[]|e]; split;
      try tauto; intros H; try discriminate H;
      destruct H as [H _]; discriminate H.
  - split; intros H; try discriminate H. destruct H as [H _]; discriminate H.
Qed.

(** The loop returns exactly when no step whose request goes out aborts. *)
Lemma run_steps_returns (repr : json -> string) (net : transport)
    (steps : list step) :
  outcome (run_steps repr net steps) = Return tt
  <-> forall s, In s (steps_until repr net steps) ->
                step_aborts repr net s = false.
Proof.
  induction steps as [|s0 rest IH].
  - split; [intros _ s []|reflexivity].
  - rewrite run_steps_cons_returns, IH. cbn [steps_until]. split.
    + intros [H0 Hrest] s [<-|Hin]; [exact H0|].
      rewrite H0 in Hin. now apply Hrest.
    + intros H.
      assert (H0 : step_aborts repr net s0 = false)
        by (apply H; now left).
      split; [exact H0|]. intros s Hin. apply H. right. now rewrite H0.
Qed.

Lemma outcome_unit (m : io unit) :
  outcome m = Return tt \/ exists e, outcome m = Raise e.
Proof. destruct m as [t [[]|e]]; simpl; eauto. Qed.

Lemma reached_iff (repr : json -> string) (net : transport)
    (steps : list step) (s : step) :
  In (request_of s) (sent_until repr net steps)
  <-> In s (steps_until repr net steps).
Proof.
  split; [apply reached_step|].
  intros H. rewrite sent_until_steps. now apply in_map.
Qed.

(** X9: the client never raises.  Whatever the network does,
    [test_http_mcp_server] returns; it prints at most one traceback, and
    it prints none exactly when no exchange whose request went out ended
    with an exception. *)
Theorem client_never_raises (repr : json -> string) (net : transport) :
  let run := test_http_mcp_server repr net in
  outcome run = Return tt
  /\ (List.length (tracebacks (events run)) <= 1)%nat
  /\ (tracebacks (events run) = []
      <-> forall s, In (request_of s) (posted (events run)) ->
                    step_aborts repr net s = false).
Proof.
  cbv zeta.
  assert (Hout : outcome (test_http_mcp_server repr net) = Return tt).
  { unfold test_http_mcp_server. rewrite !outcome_bind.
    cbn [print IO.emit outcome snd]. rewrite outcome_try_except.
    destruct (outcome_unit (exchanges repr net)) as [->|[e ->]];
      [reflexivity|].
    now rewrite isinstance_Exception. }
  assert (Htb : tracebacks (events (test_http_mcp_server repr net))
                = match outcome (run_steps repr net all_steps) with
                  | Raise e => [e]
                  | Return _ => []
                  end).
  { rewrite events_test_http_mcp_server. cbn [tracebacks].
    rewrite tracebacks_app, (run_steps_calm repr net all_steps).
    now destruct (outcome (run_steps repr net all_steps)). }
  split; [exact Hout|]. rewrite Htb, posted_test_http_mcp_server.
  split.
  - destruct (outcome (run_steps repr net all_steps)); simpl; lia.
  - split.
    + intros H.
      destruct (outcome_unit (run_steps repr net all_steps)) as [E|[e E]];
        rewrite E in H; [|discriminate H].
      intros s Hs.
      apply (proj1 (run_steps_returns repr net all_steps) E).
      now apply reached_iff.
    + intros H.
      assert (E : outcome (run_steps repr net all_steps) = Return tt).
      { apply run_steps_returns. intros s Hs. apply H. now apply reached_iff. }
      now rewrite E.
Qed.

Lemma client_never_raises_witness :
  outcome (test_http_mcp_server sample_repr net_refused) = Return tt.
Proof.
  destruct (client_never_raises sample_repr net_refused) as [Hout _].
  exact Hout.
Defined.

(** ** What the client does with a response of status 200 *)

Lemma for_each_prints {A} (xs : list A) (f : A -> string) :
  IO.for_each xs (fun x => print (f x))
  = (map (fun x => Print (f x)) xs, Return tt).
Proof.
  induction xs as [|x xs IH]; [reflexivity|].
  cbn [IO.for_each]. rewrite IH. reflexivity.
Qed.

Lemma handle_decode_error (repr : json -> string) (s : step)
    (resp : response) (e : exc) :
  s <> Health ->
  status_code resp = 200%N ->
  body_json resp = Raise e ->
  handle repr s resp
  = if isinstance e JSONDecodeError then
      ([ Print (status_line s resp); Print (success_line s);
         Print ("JSON decode error: " ++ exc_str e);
         Print ("Raw response: " ++ body_text resp) ], Return tt)
    else ([ Print (status_line s resp); Print (success_line s) ], Raise e).
Proof.
  intros Hs Hst Hbody.
  destruct s; [contradiction| | |];
    unfold handle, handle_content, handle_list, status_line, success_line;
    rewrite Hst, Hbody; cbn -[isinstance];
    destruct (isinstance e JSONDecodeError); reflexivity.
Qed.

(** X10: a body that is not JSON does not stop the client.  For the three
    exchanges whose body is decoded, a response with status 200 whose
    [.json()] raises a [JSONDecodeError] is reported with the error message
    and the raw body, and the exchange ends normally; any other exception
    out of [.json()] leaves the exchange. *)
Theorem json_decode_error_is_survived (repr : json -> string) (s : step)
    (resp : response) (e : exc) :
  s <> Health ->
  status_code resp = 200%N ->
  body_json resp = Raise e ->
  (isinstance e JSONDecodeError = true ->
   handle repr s resp
   = ([ Print (status_line s resp); Print (success_line s);
        Print ("JSON decode error: " ++ exc_str e);
        Print ("Raw response: " ++ body_text resp) ], Return tt))
  /\ (isinstance e JSONDecodeError = false ->
      handle repr s resp
      = ([ Print (status_line s resp); Print (success_line s) ], Raise e)).
Proof.
  intros Hs Hst Hbody.
  rewrite (handle_decode_error repr s resp e Hs Hst Hbody).
  split; intros ->; reflexivity.
Qed.

Lemma json_decode_error_is_survived_witness :
  handle sample_repr DiskUsage sse_response
  = ([ Print "Disk usage response status: 200";
       Print "✅ Disk usage tool successful!";
       Print "JSON decode error: Expecting value: line 1 column 1 (char 0)";
       Print ("Raw response: event: message" ++ nl ++ "data: {}") ],
     Return tt).
Proof.
  destruct (json_decode_error_is_survived sample_repr DiskUsage sse_response
              (Exc JSONDecodeError "Expecting value: line 1 column 1 (char 0)")
              ltac:(discriminate) eq_refl eq_refl) as [Hcaught _].
  exact (Hcaught eq_refl).
Defined.

Lemma content_step_cases (s : step) :
  s = DiskUsage \/ s = DetailedInfo ->
  exists what subject,
    (forall repr resp,
        handle repr s resp
        = handle_content repr what subject (preview_limit s) resp)
    /\ (forall resp, status_line s resp
                     = what ++ " response status: " ++ str_int (status_code resp))
    /\ success_line s = "✅ " ++ what ++ " tool successful!"
    /\ (forall t, received_line s t
                  = subject ++ " received ("
                      ++ str_int (N.of_nat (str_len t)) ++ " characters)").
Proof.
  intros [->| ->].
  - exists "Disk usage", "Disk usage info". repeat split.
  - exists "Detailed disk info", "Detailed disk info". repeat split.
Qed.

Lemma preview_text_result (repr : json -> string) (subject : string)
    (n : nat) (data : json) (t : string) :
  text_result data t ->
  preview_content repr subject n data
  = (Print (subject ++ " received ("
              ++ str_int (N.of_nat (str_len t)) ++ " characters)")
       :: Print ("First " ++ str_int (N.of_nat n) ++ " lines:")
       :: map (fun line => Print ("  " ++ line)) (firstn n (split_lines t)),
     Return tt).
Proof.
  intros (fields & rf & block & rest & -> & Hres & Hcontent & Htext).
  unfold preview_content. cbn [Dyn.contains Dyn.getitem IO.lift IO.bind app].
  rewrite Hres. cbn [Dyn.contains Dyn.getitem IO.lift IO.bind IO.ret app].
  rewrite Hcontent.
  cbn [Dyn.contains Dyn.getitem Dyn.getitem0 Dyn.truthy Dyn.len Dyn.split
         IO.lift IO.bind IO.ret app List.length Nat.ltb Nat.leb].
  rewrite Htext.
  cbn [Dyn.contains Dyn.getitem Dyn.getitem0 Dyn.truthy Dyn.len Dyn.split
         IO.lift IO.bind IO.ret app print IO.emit].
  rewrite (for_each_prints (firstn n (split_lines t)) (fun line => "  " ++ line)).
  reflexivity.
Qed.

Lemma handle_text_result (repr : json -> string) (s : step)
    (resp : response) (data : json) (t : string) :
  s = DiskUsage \/ s = DetailedInfo ->
  status_code resp = 200%N ->
  body_json resp = Return data ->
  text_result data t ->
  handle repr s resp
  = (Print (status_line s resp) :: Print (success_line s)
       :: Print (received_line s t)
       :: Print ("First " ++ str_int (N.of_nat (preview_limit s)) ++ " lines:")
       :: map (fun line => Print ("  " ++ line))
              (firstn (preview_limit s) (split_lines t)),
     Return tt).
Proof.
  intros Hs Hst Hbody Hshape.
  destruct (content_step_cases s Hs)
    as (what & subject & Hh & Hstatus & Hsuccess & Hreceived).
  rewrite Hh, Hstatus, Hsuccess, Hreceived.
  unfold handle_content. rewrite Hst, Hbody. cbn [N.eqb Pos.eqb].
  cbn [IO.lift IO.bind app print IO.emit].
  rewrite (preview_text_result repr subject (preview_limit s) data t Hshape).
  reflexivity.
Qed.

(** X11: the preview of a tool's text is bounded.  For the two disk
    tools, a response of status 200 whose decoded body carries a text [t]
    makes the client print the status line, the success line, the length
    of [t], the announcement, and then the first 10 (get_disk_usage) or 15
    (get_detailed_disk_info) lines of [t], each indented by two spaces --
    never more lines than that, and all of them when [t] is shorter. *)
Theorem preview_is_bounded (repr : json -> string) (s : step)
    (resp : response) (data : json) (t : string) :
  s = DiskUsage \/ s = DetailedInfo ->
  status_code resp = 200%N ->
  body_json resp = Return data ->
  text_result data t ->
  let shown := firstn (preview_limit s) (split_lines t) in
  handle repr s resp
  = (Print (status_line s resp) :: Print (success_line s)
       :: Print (received_line s t)
       :: Print ("First " ++ str_int (N.of_nat (preview_limit s)) ++ " lines:")
       :: map (fun line => Print ("  " ++ line)) shown,
     Return tt)
  /\ (List.length shown <= preview_limit s)%nat
  /\ ((List.length (split_lines t) <= preview_limit s)%nat ->
      shown = split_lines t).
Proof.
  intros Hs Hst Hbody Hshape shown.
  split; [now apply handle_text_result with (data := data)|].
  split; [apply firstn_le_length|].
  intros Hshort. now apply firstn_all2.
Qed.

Lemma preview_is_bounded_witness :
  printed (events (handle sample_repr DiskUsage
                     (json_response
                        (content_json
                           (text_block ("é" ++ nl ++ "b" ++ nl ++ "c" ++ nl ++
                                        "d" ++ nl ++ "e" ++ nl ++ "f" ++ nl ++
                                        "g" ++ nl ++ "h" ++ nl ++ "i" ++ nl ++
                                        "j" ++ nl ++ "k" ++ nl ++ "l"))))))
  = [ "Disk usage response status: 200"; "✅ Disk usage tool successful!";
      "Disk usage info received (23 characters)"; "First 10 lines:";
      "  é"; "  b"; "  c"; "  d"; "  e"; "  f"; "  g"; "  h"; "  i"; "  j" ].
Proof.
  set (t := "é" ++ nl ++ "b" ++ nl ++ "c" ++ nl ++ "d" ++ nl ++ "e" ++ nl ++
            "f" ++ nl ++ "g" ++ nl ++ "h" ++ nl ++ "i" ++ nl ++ "j" ++ nl ++
            "k" ++ nl ++ "l").
  assert (Hshape : text_result (content_json (text_block t)) t).
  { eexists _, _, _, _. repeat split. }
  destruct (preview_is_bounded sample_repr DiskUsage
              (json_response (content_json (text_block t)))
              (content_json (text_block t)) t
              (or_introl eq_refl) eq_refl eq_refl Hshape) as [Hrun _].
  rewrite Hrun. reflexivity.
Defined.

Lemma bind_lift_return {A B} (a : A) (k : A -> io B) :
  IO.bind (IO.lift (Return a)) k = k a.
Proof. unfold IO.bind, IO.lift. now destruct (k a). Qed.

Lemma handle_content_decoded (repr : json -> string) (s : step)
    (resp : response) (data : json) :
  s = DiskUsage \/ s = DetailedInfo ->
  status_code resp = 200%N ->
  body_json resp = Return data ->
  exists subject,
    handle repr s resp
    = IO.bind (print (status_line s resp)) (fun _ =>
      IO.bind (print (success_line s)) (fun _ =>
      IO.try_except (preview_content repr subject (preview_limit s) data)
        JSONDecodeError
        (fun e =>
           IO.bind (print ("JSON decode error: " ++ exc_str e)) (fun _ =>
           print ("Raw response: " ++ body_text resp))))).
Proof.
  intros Hs Hst Hbody.
  destruct (content_step_cases s Hs)
    as (what & subject & Hh & Hstatus & Hsuccess & _).
  exists subject. rewrite Hh, Hstatus, Hsuccess.
  unfold handle_content. rewrite Hst, Hbody, bind_lift_return. reflexivity.
Qed.

Lemma preview_no_text (repr : json -> string) (subject : string) (n : nat)
    (data content : json) :
  content_of data content ->
  Dyn.truthy content = false
  \/ (exists block rest,
        content = JArr (JObj block :: rest) /\ lookup "text" block = None) ->
  preview_content repr subject n data
  = ([Print "No text content in response"], Return tt).
Proof.
  intros (fields & rf & -> & Hres & Hcontent) Hcase.
  unfold preview_content. cbn [Dyn.contains Dyn.getitem IO.lift IO.bind app].
  rewrite Hres. cbn [Dyn.contains Dyn.getitem IO.lift IO.bind IO.ret app].
  rewrite Hcontent. cbn [IO.lift IO.bind IO.ret app].
  destruct Hcase as [Hfalsy|(block & rest & -> & Htext)].
  - rewrite Hfalsy. reflexivity.
  - cbn [Dyn.contains Dyn.getitem Dyn.getitem0 Dyn.truthy Dyn.len
           IO.lift IO.bind IO.ret app List.length Nat.ltb Nat.leb].
    rewrite Htext. reflexivity.
Qed.

(** X12: a result without text is reported, not fatal.  When the decoded
    body has a [result.content] that is empty or otherwise falsy ([[]],
    [null], [""], [0], ...) or whose first block has no [text] member, the
    client prints "No text content in response" and the exchange ends
    normally. *)
Theorem missing_text_is_reported (repr : json -> string) (s : step)
    (resp : response) (data content : json) :
  s = DiskUsage \/ s = DetailedInfo ->
  status_code resp = 200%N ->
  body_json resp = Return data ->
  content_of data content ->
  Dyn.truthy content = false
  \/ (exists block rest,
        content = JArr (JObj block :: rest) /\ lookup "text" block = None) ->
  handle repr s resp
  = ([ Print (status_line s resp); Print (success_line s);
       Print "No text content in response" ], Return tt).
Proof.
  intros Hs Hst Hbody Hshape Hcase.
  destruct (handle_content_decoded repr s resp data Hs Hst Hbody)
    as [subject ->].
  rewrite (preview_no_text repr subject _ data content Hshape Hcase).
  reflexivity.
Qed.

Lemma missing_text_is_reported_witness :
  handle sample_repr DetailedInfo (json_response (content_json []))
  = ([ Print "Detailed disk info response status: 200";
       Print "✅ Detailed disk info tool successful!";
       Print "No text content in response" ], Return tt).
Proof.
  apply (missing_text_is_reported sample_repr DetailedInfo
           (json_response (content_json [])) (content_json []) (JArr [])
           (or_intror eq_refl) eq_refl eq_refl).
  - eexists _, _. repeat split.
  - left. reflexivity.
Defined.

(** ** Bodies the client cannot look into *)

Lemma handle_scalar (repr : json -> string) (s : step) (resp : response)
    (data : json) :
  s <> Health ->
  status_code resp = 200%N ->
  body_json resp = Return data ->
  is_scalar data = true ->
  handle repr s resp
  = ([ Print (status_line s resp); Print (success_line s) ],
     Raise (Exc TypeError ("argument of type '" ++ Dyn.type_name data
                           ++ "' is not iterable"))).
Proof.
  intros Hs Hst Hbody Hscalar.
  destruct s; [contradiction| | |];
    unfold handle, handle_content, handle_list, preview_content,
      preview_tools, status_line, success_line;
    rewrite Hst, Hbody;
    destruct data; try discriminate Hscalar; reflexivity.
Qed.

(** An exception raised while a reached step looks at its response is the
    outcome of the loop. *)
Lemma reached_handler_raise (repr : json -> string) (net : transport)
    (steps : list step) (s : step) (resp : response) (e : exc) :
  In (request_of s) (sent_until repr net steps) ->
  net (request_of s) = Return resp ->
  outcome (handle repr s resp) = Raise e ->
  outcome (run_steps repr net steps) = Raise e.
Proof.
  induction steps as [|s0 rest IH]; intros Hin Hnet Hout; [contradiction|].
  rewrite outcome_run_steps_cons.
  cbn [sent_until] in Hin. destruct Hin as [Heq|Hin].
  - apply request_of_inj in Heq. subst s0. now rewrite Hnet, Hout.
  - unfold step_aborts in Hin.
    destruct (net (request_of s0)) as [resp0|e0]; [|contradiction].
    destruct (outcome (handle repr s0 resp0)); [auto|contradiction].
Qed.

(** X13: a body that decodes to [null], a boolean or a number ends the
    run.  In the three exchanges whose body is decoded, the membership
    test on such a value raises a [TypeError] that the inner handler does
    not catch: the exchange aborts, the run reports "Client test failed"
    with the message, and no later request is sent. *)
Theorem scalar_body_aborts_run (repr : json -> string) (net : transport)
    (s : step) (resp : response) (data : json) :
  let run := test_http_mcp_server repr net in
  let e := Exc TypeError ("argument of type '" ++ Dyn.type_name data
                          ++ "' is not iterable") in
  In (request_of s) (posted (events run)) ->
  net (request_of s) = Return resp ->
  s <> Health ->
  status_code resp = 200%N ->
  body_json resp = Return data ->
  is_scalar data = true ->
  outcome (handle repr s resp) = Raise e
  /\ tracebacks (events run) = [e]
  /\ In ("❌ Client test failed: " ++ exc_str e) (printed (events run))
  /\ posted (events run) = firstn (S (position s)) fixed_requests.
Proof.
  cbv zeta. rewrite posted_test_http_mcp_server.
  intros Hin Hnet Hs Hst Hbody Hscalar.
  pose proof (handle_scalar repr s resp data Hs Hst Hbody Hscalar) as Hh.
  assert (Hout : outcome (handle repr s resp)
                 = Raise (Exc TypeError ("argument of type '"
                            ++ Dyn.type_name data ++ "' is not iterable")))
    by now rewrite Hh.
  pose proof (reached_handler_raise repr net all_steps s resp _ Hin Hnet Hout)
    as Hloop.
  split; [exact Hout|]. split; [|split].
  - rewrite events_test_http_mcp_server. cbn [tracebacks].
    rewrite tracebacks_app, (run_steps_calm repr net all_steps), Hloop.
    reflexivity.
  - apply printed_in. rewrite events_test_http_mcp_server.
    right; right. apply in_or_app; right. rewrite Hloop. simpl; auto.
  - apply sent_until_stop; [exact Hin|].
    unfold step_aborts. now rewrite Hnet, Hout.
Qed.

Lemma scalar_body_aborts_run_witness :
  posted (events (test_http_mcp_server sample_repr net_null))
  = [health_request; disk_request]
  /\ In "❌ Client test failed: argument of type 'NoneType' is not iterable"
        (printed (events (test_http_mcp_server sample_repr net_null))).
Proof.
  assert (Hin : In (request_of DiskUsage)
                   (posted (events (test_http_mcp_server sample_repr net_null))))
    by (right; left; reflexivity).
  destruct (scalar_body_aborts_run sample_repr net_null DiskUsage
              (json_response JNull) JNull Hin eq_refl
              ltac:(discriminate) eq_refl eq_refl eq_refl)
    as (_ & _ & Hline & Hsent).
  split; [exact Hsent|exact Hline].
Defined.

(** ** The tool listing *)

Lemma for_each_prefix {A} (body : A -> io unit) (pre : list A)
    (lines : list string) (rest : list A) :
  Forall2 (fun x line => body x = ([Print line], Return tt)) pre lines ->
  IO.for_each (pre ++ rest) body
  = (map Print lines ++ events (IO.for_each rest body),
     outcome (IO.for_each rest body))%list.
Proof.
  induction 1 as [|x line pre lines Hx _ IH]; simpl.
  - now destruct (IO.for_each rest body).
  - rewrite Hx, IH. reflexivity.
Qed.

Lemma describes_line (repr : json -> string) (tool : json)
    (nd : string * string) :
  describes repr tool nd ->
  IO.bind (IO.lift (Dyn.getitem tool "name")) (fun tool_name =>
    IO.bind (IO.lift (Dyn.getitem tool "description")) (fun tool_description =>
      print ("  - " ++ str_json repr tool_name ++ ": "
             ++ str_json repr tool_description)))
  = ([Print (tool_line nd)], Return tt).
Proof.
  intros (fields & n & d & -> & Hn & Hd & ->).
  cbn [Dyn.getitem]. rewrite Hn, Hd. reflexivity.
Qed.

Lemma preview_tools_listing (repr : json -> string) (data : json)
    (pre rest : list json) (lines : list (string * string)) :
  tools_of data (pre ++ rest) ->
  Forall2 (describes repr) pre lines ->
  let body := fun tool =>
    IO.bind (IO.lift (Dyn.getitem tool "name")) (fun tool_name =>
      IO.bind (IO.lift (Dyn.getitem tool "description"))
        (fun tool_description =>
           print ("  - " ++ str_json repr tool_name ++ ": "
                  ++ str_json repr tool_description))) in
  preview_tools repr data
  = (Print ("Available tools ("
            ++ str_int (N.of_nat (List.length (pre ++ rest))) ++ "):")
       :: map Print (map tool_line lines)
       ++ events (IO.for_each rest body),
     outcome (IO.for_each rest body))%list.
Proof.
  intros (fields & rf & -> & Hres & Htools) Hpre body.
  assert (Hline : forall tool nd,
             describes repr tool nd ->
             body tool = ([Print (tool_line nd)], Return tt))
    by (intros tool nd Hd; now apply describes_line).
  assert (Hall : Forall2 (fun tool line => body tool = ([Print line], Return tt))
                   pre (map tool_line lines)).
  { clear -Hpre Hline. induction Hpre as [|tool nd pre lines Hd _ IH]; simpl.
    - constructor.
    - constructor; [now apply Hline|exact IH]. }
  unfold preview_tools. fold body. clearbody body.
  cbn [Dyn.contains Dyn.getitem IO.lift IO.bind app].
  rewrite Hres. cbn [Dyn.contains Dyn.getitem IO.lift IO.bind IO.ret app].
  rewrite Htools.
  cbn [Dyn.len Dyn.iterate IO.lift IO.bind IO.ret app print IO.emit].
  rewrite (for_each_prefix body pre (map tool_line lines) rest Hall).
  reflexivity.
Qed.

Lemma handle_list_decoded (repr : json -> string) (resp : response)
    (data : json) :
  status_code resp = 200%N ->
  body_json resp = Return data ->
  handle repr ListTools resp
  = IO.bind (print (status_line ListTools resp)) (fun _ =>
    IO.bind (print (success_line ListTools)) (fun _ =>
    IO.try_except (preview_tools repr data) JSONDecodeError
      (fun e =>
         IO.bind (print ("JSON decode error: " ++ exc_str e)) (fun _ =>
         print ("Raw response: " ++ body_text resp))))).
Proof.
  intros Hst Hbody. unfold handle, handle_list, status_line, success_line.
  rewrite Hst, Hbody, bind_lift_return. reflexivity.
Qed.

(** X14: the tool listing shows one line per tool.  When the decoded body
    of the [tools/list] response carries a list of objects that each have
    a [name] and a [description], the client prints the number of tools
    and then, in order, one line ["  - <name>: <description>"] per tool,
    and the exchange ends normally. *)
Theorem tool_listing_is_printed (repr : json -> string) (resp : response)
    (data : json) (tools : list json) (lines : list (string * string)) :
  status_code resp = 200%N ->
  body_json resp = Return data ->
  tools_of data tools ->
  Forall2 (describes repr) tools lines ->
  handle repr ListTools resp
  = (Print (status_line ListTools resp) :: Print (success_line ListTools)
       :: Print ("Available tools ("
                 ++ str_int (N.of_nat (List.length tools)) ++ "):")
       :: map Print (map tool_line lines),
     Return tt).
Proof.
  intros Hst Hbody Htools Hlines.
  rewrite (handle_list_decoded repr resp data Hst Hbody).
  rewrite <- (app_nil_r tools) in Htools.
  rewrite (preview_tools_listing repr data tools [] lines Htools Hlines).
  rewrite !app_nil_r. reflexivity.
Qed.

Lemma tool_listing_is_printed_witness :
  printed (events (handle sample_repr ListTools
                     (json_response
                        (tools_json
                           [ JObj [ ("name", JStr "health");
                                    ("description", JStr "Health check endpoint");
                                    ("inputSchema", empty_schema) ] ]))))
  = [ "List tools response status: 200"; "✅ List tools successful!";
      "Available tools (1):"; "  - health: Health check endpoint" ].
Proof.
  set (tool := JObj [ ("name", JStr "health");
                      ("description", JStr "Health check endpoint");
                      ("inputSchema", empty_schema) ]).
  assert (Hshape : tools_of (tools_json [tool]) [tool])
    by (eexists _, _; repeat split).
  assert (Hlines : Forall2 (describes sample_repr) [tool]
                     [("health", "Health check endpoint")]).
  { constructor; [|constructor]. eexists _, _, _. repeat split. }
  rewrite (tool_listing_is_printed sample_repr
             (json_response (tools_json [tool])) (tools_json [tool])
             [tool] [("health", "Health check endpoint")]
             eq_refl eq_refl Hshape Hlines).
  reflexivity.
Defined.

(** X15: a listed tool without a [name] or a [description] ends the
    exchange.  The tools before it are printed, then the subscript raises
    [KeyError] with the missing key -- an exception the inner handler does
    not catch -- and the tools after it are not printed. *)
Theorem tool_without_key_aborts (repr : json -> string) (resp : response)
    (data : json) (pre post : list json) (lines : list (string * string))
    (fields : list (string * json)) (key : string) :
  status_code resp = 200%N ->
  body_json resp = Return data ->
  tools_of data (pre ++ JObj fields :: post) ->
  Forall2 (describes repr) pre lines ->
  (lookup "name" fields = None /\ key = "name")
  \/ (lookup "name" fields <> None
      /\ lookup "description" fields = None /\ key = "description") ->
  handle repr ListTools resp
  = (Print (status_line ListTools resp) :: Print (success_line ListTools)
       :: Print ("Available tools ("
                 ++ str_int (N.of_nat (List.length (pre ++ JObj fields :: post)))
                 ++ "):")
       :: map Print (map tool_line lines),
     Raise (Exc KeyError ("'" ++ key ++ "'"))).
Proof.
  intros Hst Hbody Htools Hlines Hmissing.
  rewrite (handle_list_decoded repr resp data Hst Hbody).
  rewrite (preview_tools_listing repr data pre (JObj fields :: post) lines
             Htools Hlines).
  cbn [IO.for_each Dyn.getitem].
  destruct Hmissing as [[Hn ->]|(Hn & Hd & ->)].
  - rewrite Hn. cbn. rewrite !app_nil_r. reflexivity.
  - destruct (lookup "name" fields) as [n|]; [|contradiction].
    rewrite Hd. cbn. rewrite !app_nil_r. reflexivity.
Qed.

Lemma tool_without_key_aborts_witness :
  handle sample_repr ListTools
    (json_response
       (tools_json
          [ JObj [ ("name", JStr "health");
                   ("description", JStr "Health check endpoint") ];
            JObj [ ("name", JStr "get_disk_usage") ];
            JObj [ ("name", JStr "get_detailed_disk_info");
                   ("description", JStr "Detailed") ] ]))
  = ([ Print "List tools response status: 200";
       Print "✅ List tools successful!";
       Print "Available tools (3):";
       Print "  - health: Health check endpoint" ],
     Raise (Exc KeyError "'description'")).
Proof.
  set (first := JObj [ ("name", JStr "health");
                       ("description", JStr "Health check endpoint") ]).
  set (last := JObj [ ("name", JStr "get_detailed_disk_info");
                      ("description", JStr "Detailed") ]).
  set (data := tools_json
                 [ first; JObj [ ("name", JStr "get_disk_usage") ]; last ]).
  assert (Hshape : tools_of data
                     ([first] ++ JObj [ ("name", JStr "get_disk_usage") ]
                        :: [last]))
    by (eexists _, _; repeat split).
  assert (Hlines : Forall2 (describes sample_repr) [first]
                     [("health", "Health check endpoint")]).
  { constructor; [|constructor]. eexists _, _, _. repeat split. }
  apply (tool_without_key_aborts sample_repr (json_response data) data
           [first] [last] [("health", "Health check endpoint")]
           [ ("name", JStr "get_disk_usage") ] "description"
           eq_refl eq_refl Hshape Hlines).
  right. repeat split. discriminate.
Defined.

(** * The layout of the detailed text, and what the handlers read *)

Lemma split_lines_first5 (a b c d e rest : string) :
  newline_free a = true -> newline_free b = true -> newline_free c = true ->
  newline_free d = true -> newline_free e = true ->
  split_lines (a ++ b ++ c ++ d ++ e ++ nl ++ rest)
  = (a ++ b ++ c ++ d ++ e) :: split_lines rest.
Proof.
  intros Ha Hb Hc Hd He.
  replace (a ++ b ++ c ++ d ++ e ++ nl ++ rest)
    with ((a ++ b ++ c ++ d ++ e) ++ nl ++ rest)
    by now rewrite !string_app_assoc.
  apply split_lines_first. now rewrite !newline_free_app, Ha, Hb, Hc, Hd, He.
Qed.

Lemma detailed_entries_lines (os : os_state) (p : sdiskpart) :
  plain_fields p = true -> newline_free (opts p) = true ->
  flat_map split_lines (detailed_entries os p) = detailed_lines os p.
Proof.
  unfold plain_fields. intros H Hopts.
  apply andb_true_iff in H as [H Hfs]. apply andb_true_iff in H as [Hdev Hmp].
  assert (Hpart : split_lines (partition_entry p)
                  = [ "Device: " ++ device p; "Mountpoint: " ++ mountpoint p;
                      "Filesystem: " ++ fstype p; "Options: " ++ opts p ]).
  { unfold partition_entry.
    rewrite !split_lines_first2 by (assumption || reflexivity).
    rewrite split_lines_newline_free; [reflexivity|].
    now rewrite newline_free_app, Hopts. }
  unfold detailed_entries, detailed_lines.
  destruct (disk_usage os (mountpoint p)) as [u|e]; cbn [flat_map].
  - rewrite Hpart. unfold detailed_usage_entry.
    rewrite (split_lines_first3 "  Total: ")
      by (reflexivity || apply format_f_newline_free).
    rewrite (split_lines_first5 "  Used: ")
      by (reflexivity || apply format_f_newline_free).
    change ("  Free: " ++ gib2 (free u) ++ " GB" ++ nl)
      with ("  Free: " ++ gib2 (free u) ++ " GB" ++ nl ++ "").
    rewrite (split_lines_first3 "  Free: ")
      by (reflexivity || apply format_f_newline_free).
    reflexivity.
  - rewrite Hpart. reflexivity.
Qed.

(** X17: the layout of the detailed text.  When the per-mount queries are
    survivable and no printed field holds a newline, the lines of the text
    of [get_detailed_disk_info] are the partitions header, then for each
    partition in order its four description lines followed by three usage
    lines and two empty lines (readable mount) or by the
    "  Status: Permission denied" line and one empty line (refused mount),
    then the I/O header and the lines of the I/O item. *)
Theorem get_detailed_disk_info_lines (os : os_state) (ps : list sdiskpart) :
  disk_partitions os = Return ps ->
  forallb (tolerated os) ps = true ->
  forallb (fun p => plain_fields p && newline_free (opts p)) ps = true ->
  exists result_text item,
    get_detailed_disk_info os = Return (text_block result_text)
    /\ io_section os = Return item
    /\ split_lines result_text
       = ("=== Disk Partitions ==="
            :: flat_map (detailed_lines os) ps
          ++ "=== Disk I/O Statistics ===" :: split_lines item)%list.
Proof.
  intros Hps Hok Hplain.
  destruct (get_detailed_disk_info_tolerated os ps Hps Hok)
    as (item & Hitem & Hret).
  eexists. exists item. split; [exact Hret|]. split; [exact Hitem|].
  assert (Hparts : flat_map split_lines (flat_map (detailed_entries os) ps)
                   = flat_map (detailed_lines os) ps).
  { revert Hplain. generalize ps. intros l Hl.
    induction l as [|q l IH]; [reflexivity|].
    cbn [forallb] in Hl. apply andb_true_iff in Hl as [Hq Hl].
    apply andb_true_iff in Hq as [Hq Hopts].
    cbn [flat_map]. rewrite flat_map_app.
    now rewrite (detailed_entries_lines os q Hq Hopts), (IH Hl). }
  rewrite split_lines_app_nl, split_lines_join_cons.
  rewrite (split_lines_first io_header) by reflexivity.
  cbn [flat_map]. rewrite Hparts. reflexivity.
Qed.

Lemma get_detailed_disk_info_lines_witness :
  exists result_text,
    get_detailed_disk_info os_mixed = Return (text_block result_text)
    /\ List.length (split_lines result_text) = 23%nat.
Proof.
  destruct (get_detailed_disk_info_lines os_mixed
              [root_partition; usb_partition] eq_refl eq_refl eq_refl)
    as (result_text & item & Hret & Hitem & Hlines).
  exists result_text. split; [exact Hret|].
  injection Hitem as <-. rewrite Hlines. reflexivity.
Defined.

Lemma disk_usage_loop_agree (os os' : os_state) (ps : list sdiskpart) :
  (forall p, In p ps ->
             disk_usage os (mountpoint p) = disk_usage os' (mountpoint p)) ->
  forall acc, disk_usage_loop os ps acc = disk_usage_loop os' ps acc.
Proof.
  induction ps as [|p ps IH]; intros Hsame acc; [reflexivity|].
  cbn [disk_usage_loop]. rewrite <- (Hsame p (or_introl eq_refl)).
  assert (Hrest : forall q, In q ps ->
            disk_usage os (mountpoint q) = disk_usage os' (mountpoint q))
    by (intros q Hq; apply Hsame; now right).
  destruct (disk_usage os (mountpoint p)) as [u|e]; [now apply IH|].
  destruct (isinstance e PermissionError); [now apply IH|reflexivity].
Qed.

Lemma detailed_loop_agree (os os' : os_state) (ps : list sdiskpart) :
  (forall p, In p ps ->
             disk_usage os (mountpoint p) = disk_usage os' (mountpoint p)) ->
  forall acc, detailed_loop os ps acc = detailed_loop os' ps acc.
Proof.
  induction ps as [|p ps IH]; intros Hsame acc; [reflexivity|].
  cbn [detailed_loop]. rewrite <- (Hsame p (or_introl eq_refl)).
  assert (Hrest : forall q, In q ps ->
            disk_usage os (mountpoint q) = disk_usage os' (mountpoint q))
    by (intros q Hq; apply Hsame; now right).
  destruct (disk_usage os (mountpoint p)) as [u|e]; [now apply IH|].
  destruct (isinstance e PermissionError); [now apply IH|reflexivity].
Qed.

(** X18: the handlers read nothing but the listed mounts.  Two states of
    the operating system with the same outcome of the listing and the same
    outcome of the usage query on every listed mount point give the same
    result of [get_disk_usage], whatever the queries on other paths and the
    I/O counters do; with the same outcome of the counters query as well
    they give the same result of [get_detailed_disk_info]. *)
Theorem handlers_read_listed_mounts_only (os os' : os_state) :
  disk_partitions os = disk_partitions os' ->
  (forall ps p,
      disk_partitions os = Return ps -> In p ps ->
      disk_usage os (mountpoint p) = disk_usage os' (mountpoint p)) ->
  get_disk_usage os = get_disk_usage os'
  /\ (disk_io_counters os = disk_io_counters os' ->
      get_detailed_disk_info os = get_detailed_disk_info os').
Proof.
  intros Hps Hsame. split.
  - unfold get_disk_usage. rewrite <- Hps.
    destruct (disk_partitions os) as [ps|e]; [|reflexivity]. cbn [bind].
    now rewrite (disk_usage_loop_agree os os' ps (fun p => Hsame ps p eq_refl)).
  - intros Hio. unfold get_detailed_disk_info, io_section.
    rewrite <- Hps, <- Hio.
    destruct (disk_partitions os) as [ps|e]; [|reflexivity]. cbn [bind].
    now rewrite (detailed_loop_agree os os' ps (fun p => Hsame ps p eq_refl)).
Qed.

Lemma handlers_read_listed_mounts_only_witness :
  get_disk_usage os_mixed
  = get_disk_usage
      {| disk_partitions := disk_partitions os_mixed;
         disk_usage := fun path =>
           if String.eqb path "/home" then Raise (io_failure path)
           else disk_usage os_mixed path;
         disk_io_counters := Raise (io_failure "/proc/diskstats") |}.
Proof.
  apply (handlers_read_listed_mounts_only os_mixed
           {| disk_partitions := disk_partitions os_mixed;
              disk_usage := fun path =>
                if String.eqb path "/home" then Raise (io_failure path)
                else disk_usage os_mixed path;
              disk_io_counters := Raise (io_failure "/proc/diskstats") |}).
  - reflexivity.
  - intros ps p Hps. injection Hps as <-.
    intros [<-|[<-|[]]]; reflexivity.
Defined.

(** * Runs that go through *)

Lemma handle_health_returns (repr : json -> string) (resp : response) :
  outcome (handle repr Health resp) = Return tt.
Proof.
  unfold handle, handle_health.
  destruct (N.eqb (status_code resp) 200); reflexivity.
Qed.

Lemma handle_conformant (repr : json -> string) (s : step) (resp : response) :
  conformant repr s resp -> outcome (handle repr s resp) = Return tt.
Proof.
  intros Hc.
  destruct (N.eq_dec (status_code resp) 200) as [Hst|Hst];
    [|now destruct (handle_failed_status repr s resp Hst)].
  destruct Hc as [Hne|[->|[(e & Hbody & Hcls)|[(data & Herr)|[Hdisk|Hlist]]]]].
  - contradiction.
  - apply handle_health_returns.
  - destruct s; [apply handle_health_returns|..];
      (rewrite handle_decode_error with (e := e);
       [rewrite Hcls; reflexivity|discriminate|assumption|assumption]).
  - now destruct (handle_error_variant repr s resp data Herr).
  - destruct Hdisk as (Hs & data & t & Hbody & Hshape).
    now rewrite (handle_text_result repr s resp data t Hs Hst Hbody Hshape).
  - destruct Hlist as (-> & data & tools & lines & Hbody & Htools & Hlines).
    rewrite (handle_list_decoded repr resp data Hst Hbody).
    rewrite <- (app_nil_r tools) in Htools.
    rewrite (preview_tools_listing repr data tools [] lines Htools Hlines).
    reflexivity.
Qed.

Lemma tracebacks_test_http_mcp_server (repr : json -> string)
    (net : transport) :
  tracebacks (events (test_http_mcp_server repr net))
  = match outcome (run_steps repr net all_steps) with
    | Raise e => [e]
    | Return _ => []
    end.
Proof.
  rewrite events_test_http_mcp_server. cbn [tracebacks].
  rewrite tracebacks_app, (run_steps_calm repr net all_steps).
  now destruct (outcome (run_steps repr net all_steps)).
Qed.

(** X19: against a network that answers every request in one of the
    ways the client gets through -- a status other than 200, a body that
    is not JSON, an error object, a tool's text, a listing of named and
    described tools -- the client posts all four requests, each once and
    in order, and prints no traceback. *)
Theorem conformant_run_completes (repr : json -> string) (net : transport) :
  (forall s, exists resp,
      net (request_of s) = Return resp /\ conformant repr s resp) ->
  posted (events (test_http_mcp_server repr net)) = fixed_requests
  /\ tracebacks (events (test_http_mcp_server repr net)) = [].
Proof.
  intros Hnet.
  assert (Hgo : forall s, step_aborts repr net s = false).
  { intros s. destruct (Hnet s) as (resp & Hresp & Hc).
    apply not_aborting with (resp := resp); [exact Hresp|].
    now apply handle_conformant. }
  split.
  - rewrite posted_test_http_mcp_server.
    unfold all_steps, fixed_requests. cbn [sent_until map].
    now rewrite !Hgo.
  - rewrite tracebacks_test_http_mcp_server.
    assert (E : outcome (run_steps repr net all_steps) = Return tt)
      by (apply run_steps_returns; intros s _; apply Hgo).
    now rewrite E.
Qed.

Lemma conformant_run_completes_witness :
  posted (events (test_http_mcp_server sample_repr net_ok)) = fixed_requests
  /\ tracebacks (events (test_http_mcp_server sample_repr net_ok)) = [].
Proof.
  apply (conformant_run_completes sample_repr net_ok).
  intros s. eexists. split; [reflexivity|].
  destruct s.
  - right; left. reflexivity.
  - do 4 right; left. split; [now left|].
    eexists _, _. split; [reflexivity|]. eexists _, _, _, _. repeat split.
  - do 4 right; left. split; [now right|].
    eexists _, _. split; [reflexivity|]. eexists _, _, _, _. repeat split.
  - do 5 right. split; [reflexivity|].
    eexists _, _, (map (fun tool => (name tool, description tool)) list_tools).
    split; [reflexivity|]. split; [eexists _, _; repeat split|].
    repeat constructor; eexists _, _, _; repeat split.
Defined.
